(** * AI study planner: the schedule generator and the favorites list

    A shallow embedding of [generate_schedule] and [save_favorite] from
    [ai_study_planner.py], and the properties of the schedule they build;
    with them, the code of the page around the call: the subject list read
    from the text, the difficulty ratings, and the rows, the tracker and
    the reminders that read the schedule.

    Conventions of the embedding.
    - Hours.  The function computes with Python floats, the IEEE 754 double
      precision numbers, which are Rocq's primitive floats.  The generator
      is written over the interface [Hours] of the operations it uses on
      them, which [binary64] implements: what is proved about dates, order
      and failures uses no fact about these operations.  The bounds on sums
      of hours are proved on the floats themselves, with the rounding error
      of every subtraction derived from the specification of the
      floating-point operations ([SpecFloat]).  [binary64] follows the
      interpreter for integers below [2^53] in magnitude and amounts of
      hours below [2^49].
    - Dates.  A date is its day number ([Z]); [date + timedelta(days=n)] is
      addition and [(a - b).days] is subtraction.  [generate_schedule]
      computes on day numbers, which have no last day;
      [generate_schedule_dated] is the same code on the dates of
      [datetime.date], where an addition that leaves the range from
      0001-01-01 to 9999-12-31 raises [OverflowError].  The two return the
      same schedule unless the exam is on 9999-12-31 and after today, when
      line 61 raises in the last iteration of the loop.
    - [datetime.date.today()] is the argument [today] of the model: both
      reads inside one call see the same day.
    - Dictionaries are finite maps ([gmap]); a [defaultdict(list)] creates
      the empty list on a read of a missing key.  Where the page reads the
      schedule in the order of its keys, the dict is a map with the list of
      its keys in insertion order.
    - The page.  The day read at line 86 is the day of the call.  A slider
      is a function from the subject of its label to the value the user
      chose; the text of the subjects is the list of its code points. *)

From Stdlib Require Import ZArith QArith Lia.
From Corelib Require Import PrimFloat FloatOps SpecFloat FloatAxioms.
From Stdlib Require Uint63.
From stdpp Require Import base option list gmap strings fin_maps numbers.

Local Open Scope Z_scope.

(** ** Errors a call can raise *)

Inductive exn : Type :=
  | KeyError (key : string)
  | ZeroDivisionError
  | TypeError
  | OverflowError.

Inductive result (A : Type) : Type :=
  | Ok (a : A)
  | Raise (e : exn).
Arguments Ok {A} a.
Arguments Raise {A} e.

#[export] Instance result_ret : MRet result := @Ok.
#[export] Instance result_bind : MBind result := λ A B k r,
  match r with
  | Ok a => k a
  | Raise e => Raise e
  end.

(** ** Numbers *)

(** The operations on hours that the function uses. *)
Class Hours (num : Type) : Type := {
  (** [round((d / w) * tah, 1)] for the integers [d], [w] (not zero), [tah] *)
  budget : Z → Z → Z → num;
  (** [round(hours / 2, 1)] *)
  review_hours : num → num;
  (** an integer in arithmetic with hours ([daily_hours = available_hours]) *)
  of_int : Z → num;
  (** [1.0] *)
  one_hour : num;
  (** [x > 0] *)
  is_positive : num → bool;
  (** [min(a, b, c)] *)
  min3 : num → num → num → num;
  (** [a - b] *)
  minus : num → num → num;
}.

(** The integer nearest to [x], a tie going to the even neighbour. *)
Definition round_half_even (x : Q) : Z :=
  let n := Qnum x in
  let d := Z.pos (Qden x) in
  let fl := n / d in
  match (2 * (n mod d)) ?= d with
  | Lt => fl
  | Gt => fl + 1
  | Eq => if Z.even fl then fl else fl + 1
  end.

(** *** Binary floating point: the numbers of the interpreter *)

(** The float of an integer: exact below [2^53] in magnitude, the nearest
    float below [2^63].  Larger integers are outside the model: the
    interpreter rounds them too, and refuses with [OverflowError] those
    that no finite float is near. *)
Definition float_of_Z (n : Z) : float :=
  if n <? 0 then (- of_uint63 (Uint63.of_Z (- n)))%float
  else of_uint63 (Uint63.of_Z n).

(** The value of a finite float [m * 2^e] in units of [2^-1074], the
    smallest positive float: an integer, since [-1074 <= e] (0 for an
    infinity or NaN). *)
Definition SF_units (x : spec_float) : Z :=
  match x with
  | S754_finite s m e =>
      let v := Z.pos m * 2 ^ (e + 1074) in if s then - v else v
  | _ => 0
  end.

Definition float_units (x : float) : Z := SF_units (Prim2SF x).

(** One hour, [1.0], in these units. *)
Definition hour : Z := 2 ^ 1074.

(** The exact value of a finite float. *)
Definition float_value (x : float) : Q := (float_units x # 2 ^ 1074)%Q.

(** The floats that are amounts of hours: a zero or a positive finite
    float. *)
Definition SF_hours (x : spec_float) : bool :=
  match x with
  | S754_zero _ | S754_finite false _ _ => true
  | _ => false
  end.

Definition is_hours (x : float) : bool := SF_hours (Prim2SF x).

(** [round(x, 1)] on a float: the float nearest to the decimal number with
    one fractional digit that is nearest to the exact value of [x], a tie
    going to the even digit; zeros, infinities, NaN and floats that are
    integers are returned as they are. *)
Definition float_round1 (x : float) : float :=
  match Prim2SF x with
  | S754_finite s m e =>
      if 0 <=? e then x
      else
        let tenths := round_half_even (float_value (abs x) * 10)%Q in
        let r := (float_of_Z tenths / 10)%float in
        if s then (- r)%float else r
  | _ => x
  end.

(** [min(a, b, c)]: the first of the smallest arguments. *)
Definition float_min3 (a b c : float) : float :=
  let m := if (b <? a)%float then b else a in
  if (c <? m)%float then c else m.

#[export] Instance binary64 : Hours float := {|
  budget d w tah := float_round1 (float_of_Z d / float_of_Z w * float_of_Z tah)%float;
  review_hours h := float_round1 (h / 2)%float;
  of_int n := float_of_Z n;
  one_hour := 1%float;
  is_positive x := (0 <? x)%float;
  min3 := float_min3;
  minus a b := (a - b)%float;
|}.

(** ** The schedule generator *)

(** [sum(difficulty.values())]. *)
Definition sum_values (difficulty : gmap string Z) : Z :=
  map_fold (λ _ v acc, v + acc) 0 difficulty.

(** [d[key]]. *)
Definition dict_get {V : Type} (d : gmap string V) (key : string) : result V :=
  match d !! key with
  | Some v => Ok v
  | None => Raise (KeyError key)
  end.

Section generator.
Context {num : Type} `{!Hours num}.

(** One value of the comprehension:
    [round((difficulty[subject] / total_weight) * total_available_hours, 1)];
    the division fails on a zero divisor. *)
Definition subject_budget (difficulty : gmap string Z)
    (total_weight total_available_hours : Z) (subject : string) : result num :=
  d ← dict_get difficulty subject;
  if total_weight =? 0 then Raise ZeroDivisionError
  else mret (budget d total_weight total_available_hours).

(** The dict comprehension [{subject: ... for subject in subjects}]: the
    subjects are visited in order and a repeated subject overwrites its key. *)
Fixpoint dict_comprehension (difficulty : gmap string Z)
    (total_weight total_available_hours : Z) (subjects : list string)
    (acc : gmap string num) : result (gmap string num) :=
  match subjects with
  | [] => Ok acc
  | subject :: rest =>
      v ← subject_budget difficulty total_weight total_available_hours subject;
      dict_comprehension difficulty total_weight total_available_hours rest
        (<[subject := v]> acc)
  end.

(** The body of [for subject in subjects] (lines 52 to 57), on the state
    [today_plan], [hours_per_subject], [daily_hours]. *)
Definition allocate (st : list (string * num) * gmap string num * num)
    (subject : string) : result (list (string * num) * gmap string num * num) :=
  let '(today_plan, hours_per_subject, daily_hours) := st in
  owed ← dict_get hours_per_subject subject;
  if is_positive owed then
    let allocated := min3 one_hour owed daily_hours in
    if is_positive allocated then
      mret (today_plan ++ [(subject, allocated)],
            <[subject := minus owed allocated]> hours_per_subject,
            minus daily_hours allocated)
    else mret st
  else mret st.

(** [for subject in subjects: ...]. *)
Fixpoint for_subjects (subjects : list string)
    (st : list (string * num) * gmap string num * num)
    : result (list (string * num) * gmap string num * num) :=
  match subjects with
  | [] => Ok st
  | subject :: rest => st' ← allocate st subject; for_subjects rest st'
  end.

(** Lines 49 to 57: one day's allocation, from a fresh [daily_hours] and an
    empty [today_plan]. *)
Definition plan_day (subjects : list string) (available_hours : Z)
    (hours_per_subject : gmap string num)
    : result (list (string * num) * gmap string num * num) :=
  for_subjects subjects ([], hours_per_subject, of_int available_hours).

(** [schedule[key].append(t)] on a [defaultdict(list)]. *)
Definition dict_append (schedule : gmap Z (list (string * num))) (key : Z)
    (t : string * num) : gmap Z (list (string * num)) :=
  <[key := default [] (schedule !! key) ++ [t]]> schedule.

(** The review task of a study task: [(f"Review {subject}", round(hours / 2, 1))]. *)
Definition review_task (t : string * num) : string * num :=
  ("Review " +:+ t.1, review_hours t.2).

(** Lines 58 to 63: the day's plan is stored under its date when it is not
    empty, then its review tasks are appended two days later. *)
Definition record_day (today day : Z) (today_plan : list (string * num))
    (schedule : gmap Z (list (string * num))) : gmap Z (list (string * num)) :=
  let schedule :=
    match today_plan with
    | [] => schedule
    | _ :: _ => <[today + day := today_plan]> schedule
    end in
  let review_day := today + (day + 2) in
  foldl (λ sch t, dict_append sch review_day (review_task t)) schedule today_plan.

(** One iteration of the [while] loop. *)
Definition day_step (today : Z) (subjects : list string) (available_hours : Z)
    (day : Z) (st : gmap string num * gmap Z (list (string * num)))
    : result (gmap string num * gmap Z (list (string * num))) :=
  '(today_plan, hours_per_subject, _) ← plan_day subjects available_hours st.1;
  mret (hours_per_subject, record_day today day today_plan st.2).

(** [while day < total_days: ...; day += 1], entered with [day = 0]: the body
    runs once for each of the [n] remaining day indices. *)
Fixpoint run_days (today : Z) (subjects : list string) (available_hours : Z)
    (n : nat) (day : Z) (st : gmap string num * gmap Z (list (string * num)))
    : result (gmap string num * gmap Z (list (string * num))) :=
  match n with
  | O => Ok st
  | S n' =>
      st' ← day_step today subjects available_hours day st;
      run_days today subjects available_hours n' (day + 1) st'
  end.

Definition generate_schedule (today : Z) (subjects : list string)
    (difficulty : gmap string Z) (available_hours : Z) (exam_date : Z)
    : result (gmap Z (list (string * num))) :=
  let total_days := exam_date - today in
  let total_available_hours := total_days * available_hours in
  let total_weight := sum_values difficulty in
  let total_weight := if total_weight =? 0 then 1 else total_weight in
  hours_per_subject ←
    dict_comprehension difficulty total_weight total_available_hours subjects ∅;
  st ← run_days today subjects available_hours (Z.to_nat total_days) 0
         (hours_per_subject, ∅);
  mret st.2.

End generator.

(** ** The call on the dates of [datetime.date]

    A [datetime.date] is a day from 0001-01-01, day number 1, to
    9999-12-31, day number 3652059, and a [timedelta] holds at most
    999999999 days: [date + timedelta(days=n)] raises [OverflowError]
    outside these ranges.  [generate_schedule] above computes on day numbers
    that have no last day; here are lines 36 to 65 again with the additions
    of lines 59 and 61 checked as the interpreter checks them, line 61 in
    every iteration of the loop and line 59 in those that allocate. *)

(** [datetime.date.min] and [datetime.date.max], as day numbers. *)
Definition date_min : Z := 1.
Definition date_max : Z := 3652059.

(** The largest number of days of a [timedelta]. *)
Definition timedelta_max : Z := 999999999.

(** [date + datetime.timedelta(days=days)]. *)
Definition date_add (date days : Z) : result Z :=
  if bool_decide (- timedelta_max ≤ days ≤ timedelta_max)
     && bool_decide (date_min ≤ date + days ≤ date_max)
  then Ok (date + days)
  else Raise OverflowError.

Section generator_dated.
Context {num : Type} `{!Hours num}.

(** Lines 58 to 63. *)
Definition record_day_dated (today day : Z) (today_plan : list (string * num))
    (schedule : gmap Z (list (string * num)))
    : result (gmap Z (list (string * num))) :=
  schedule ←
    match today_plan with
    | [] => Ok schedule
    | _ :: _ =>
        date ← date_add today day;
        mret (<[date := today_plan]> schedule)
    end;
  review_day ← date_add today (day + 2);
  mret (foldl (λ sch t, dict_append sch review_day (review_task t)) schedule
          today_plan).

(** One iteration of the [while] loop. *)
Definition day_step_dated (today : Z) (subjects : list string) (available_hours : Z)
    (day : Z) (st : gmap string num * gmap Z (list (string * num)))
    : result (gmap string num * gmap Z (list (string * num))) :=
  '(today_plan, hours_per_subject, _) ← plan_day subjects available_hours st.1;
  schedule ← record_day_dated today day today_plan st.2;
  mret (hours_per_subject, schedule).

Fixpoint run_days_dated (today : Z) (subjects : list string) (available_hours : Z)
    (n : nat) (day : Z) (st : gmap string num * gmap Z (list (string * num)))
    : result (gmap string num * gmap Z (list (string * num))) :=
  match n with
  | O => Ok st
  | S n' =>
      st' ← day_step_dated today subjects available_hours day st;
      run_days_dated today subjects available_hours n' (day + 1) st'
  end.

Definition generate_schedule_dated (today : Z) (subjects : list string)
    (difficulty : gmap string Z) (available_hours : Z) (exam_date : Z)
    : result (gmap Z (list (string * num))) :=
  let total_days := exam_date - today in
  let total_available_hours := total_days * available_hours in
  let total_weight := sum_values difficulty in
  let total_weight := if total_weight =? 0 then 1 else total_weight in
  hours_per_subject ←
    dict_comprehension difficulty total_weight total_available_hours subjects ∅;
  st ← run_days_dated today subjects available_hours (Z.to_nat total_days) 0
         (hours_per_subject, ∅);
  mret st.2.

End generator_dated.

(** ** The call on a store of objects

    The same function with its Python objects made explicit.  The two
    arguments are references to a list and to a dict owned by the caller;
    [hours_per_subject], [schedule], every [today_plan] and every list that
    the [defaultdict] creates are objects allocated by the call.  The
    schedule maps a date to a reference: [schedule[date] = today_plan]
    stores the list object itself, and [schedule[date].append] mutates the
    list object the date refers to. *)

Inductive obj (num : Type) : Type :=
  | StrList (items : list string)
  | IntDict (entries : gmap string Z)
  | NumDict (entries : gmap string num)
  | TaskList (tasks : list (string * num))
  | DateDict (entries : gmap Z positive).
Arguments StrList {num} items.
Arguments IntDict {num} entries.
Arguments NumDict {num} entries.
Arguments TaskList {num} tasks.
Arguments DateDict {num} entries.

Section store.
Context {num : Type} `{!Hours num}.

(** A computation on the store that may raise. *)
Definition eff (A : Type) : Type :=
  gmap positive (obj num) → result (A * gmap positive (obj num)).

#[export] Instance eff_ret : MRet eff := λ A a h, Ok (a, h).
#[export] Instance eff_bind : MBind eff := λ A B k m h,
  match m h with
  | Ok (a, h') => k a h'
  | Raise e => Raise e
  end.

Definition lift {A : Type} (r : result A) : eff A := λ h,
  match r with
  | Ok a => Ok (a, h)
  | Raise e => Raise e
  end.

(** A new object, at a reference that the store does not hold yet. *)
Definition alloc (o : obj num) : eff positive := λ h,
  let l := fresh (dom h) in Ok (l, <[l := o]> h).

Definition put (l : positive) (o : obj num) : eff unit := λ h, Ok (tt, <[l := o]> h).

Definition load_items (l : positive) : eff (list string) := λ h,
  match h !! l with
  | Some (StrList items) => Ok (items, h)
  | _ => Raise TypeError
  end.

Definition load_entries (l : positive) : eff (gmap string Z) := λ h,
  match h !! l with
  | Some (IntDict entries) => Ok (entries, h)
  | _ => Raise TypeError
  end.

Definition load_budgets (l : positive) : eff (gmap string num) := λ h,
  match h !! l with
  | Some (NumDict entries) => Ok (entries, h)
  | _ => Raise TypeError
  end.

Definition load_tasks (l : positive) : eff (list (string * num)) := λ h,
  match h !! l with
  | Some (TaskList tasks) => Ok (tasks, h)
  | _ => Raise TypeError
  end.

Definition load_dates (l : positive) : eff (gmap Z positive) := λ h,
  match h !! l with
  | Some (DateDict entries) => Ok (entries, h)
  | _ => Raise TypeError
  end.

(** [lst.append(t)]. *)
Definition list_append (lst : positive) (t : string * num) : eff unit :=
  tasks ← load_tasks lst; put lst (TaskList (tasks ++ [t])).

(** [d[key] = v] on a dict of hours. *)
Definition dict_set (d : positive) (key : string) (v : num) : eff unit :=
  entries ← load_budgets d; put d (NumDict (<[key := v]> entries)).

(** [schedule[date] = lst]. *)
Definition schedule_set (schedule : positive) (date : Z) (lst : positive) : eff unit :=
  entries ← load_dates schedule; put schedule (DateDict (<[date := lst]> entries)).

(** [schedule[date]] on the [defaultdict(list)]: a missing date gets a new
    empty list. *)
Definition schedule_get (schedule : positive) (date : Z) : eff positive :=
  entries ← load_dates schedule;
  match entries !! date with
  | Some lst => mret lst
  | None =>
      lst ← alloc (TaskList []);
      put schedule (DateDict (<[date := lst]> entries));;
      mret lst
  end.

(** Lines 52 to 57 on the objects [today_plan] and [hours_per_subject];
    [daily_hours] is a local number. *)
Definition allocate_obj (today_plan hours_per_subject : positive)
    (daily_hours : num) (subject : string) : eff num :=
  entries ← load_budgets hours_per_subject;
  owed ← lift (dict_get entries subject);
  if is_positive owed then
    let allocated := min3 one_hour owed daily_hours in
    if is_positive allocated then
      list_append today_plan (subject, allocated);;
      dict_set hours_per_subject subject (minus owed allocated);;
      mret (minus daily_hours allocated)
    else mret daily_hours
  else mret daily_hours.

Fixpoint for_subjects_obj (subjects : list string)
    (today_plan hours_per_subject : positive) (daily_hours : num) : eff num :=
  match subjects with
  | [] => mret daily_hours
  | subject :: rest =>
      daily_hours ← allocate_obj today_plan hours_per_subject daily_hours subject;
      for_subjects_obj rest today_plan hours_per_subject daily_hours
  end.

(** Line 63, for the tasks of [today_plan] in order. *)
Fixpoint append_reviews (schedule : positive) (review_day : Z)
    (tasks : list (string * num)) : eff unit :=
  match tasks with
  | [] => mret tt
  | t :: rest =>
      lst ← schedule_get schedule review_day;
      list_append lst (review_task t);;
      append_reviews schedule review_day rest
  end.

(** Lines 58 to 63. *)
Definition record_day_obj (today day : Z) (today_plan schedule : positive) : eff unit :=
  tasks ← load_tasks today_plan;
  match tasks with
  | [] => mret tt
  | _ :: _ => schedule_set schedule (today + day) today_plan
  end;;
  append_reviews schedule (today + (day + 2)) tasks.

Definition day_step_obj (today : Z) (subjects : positive) (available_hours : Z)
    (day : Z) (hours_per_subject schedule : positive) : eff unit :=
  today_plan ← alloc (TaskList []);
  items ← load_items subjects;
  for_subjects_obj items today_plan hours_per_subject (of_int available_hours);;
  record_day_obj today day today_plan schedule.

Fixpoint run_days_obj (today : Z) (subjects : positive) (available_hours : Z)
    (n : nat) (day : Z) (hours_per_subject schedule : positive) : eff unit :=
  match n with
  | O => mret tt
  | S n' =>
      day_step_obj today subjects available_hours day hours_per_subject schedule;;
      run_days_obj today subjects available_hours n' (day + 1)
        hours_per_subject schedule
  end.

Definition generate_schedule_obj (today : Z) (subjects difficulty : positive)
    (available_hours : Z) (exam_date : Z) : eff positive :=
  let total_days := exam_date - today in
  let total_available_hours := total_days * available_hours in
  ratings ← load_entries difficulty;
  let total_weight := sum_values ratings in
  let total_weight := if total_weight =? 0 then 1 else total_weight in
  items ← load_items subjects;
  budgets ← lift (dict_comprehension ratings total_weight total_available_hours
                    items ∅);
  hours_per_subject ← alloc (NumDict budgets);
  schedule ← alloc (DateDict ∅);
  run_days_obj today subjects available_hours (Z.to_nat total_days) 0
    hours_per_subject schedule;;
  mret schedule.

(** The schedule that a reference denotes: each date with the tasks of the
    list it refers to. *)
Definition tasks_at (h : gmap positive (obj num)) (l : positive) : option (list (string * num)) :=
  match h !! l with
  | Some (TaskList tasks) => Some tasks
  | _ => None
  end.

Definition read_schedule (h : gmap positive (obj num)) (schedule : positive)
    : option (gmap Z (list (string * num))) :=
  match h !! schedule with
  | Some (DateDict entries) => Some (omap (tasks_at h) entries)
  | _ => None
  end.

(** The dict of references [entries] denotes the schedule [v] in the store
    [h]: every date refers to its own list, and the lists are objects that
    the store [h0] of the caller did not hold. *)
Definition denotes (h0 h : gmap positive (obj num)) (hps schedule : positive)
    (entries : gmap Z positive) (v : gmap Z (list (string * num))) : Prop :=
  (∀ date, v !! date = entries !! date ≫= tasks_at h)
  ∧ (∀ date l, entries !! date = Some l →
       is_Some (tasks_at h l) ∧ h0 !! l = None ∧ l ≠ hps ∧ l ≠ schedule)
  ∧ (∀ date1 date2 l,
       entries !! date1 = Some l → entries !! date2 = Some l → date1 = date2).

(** The locals of a call started in the store [h0], with [hours_per_subject]
    holding [budgets] and [schedule] denoting [v]: the objects of [h0] are as
    the caller left them. *)
Definition locals (h0 h : gmap positive (obj num)) (hps schedule : positive)
    (budgets : gmap string num) (v : gmap Z (list (string * num))) : Prop :=
  (∀ a, is_Some (h0 !! a) → h !! a = h0 !! a)
  ∧ h0 !! hps = None
  ∧ h0 !! schedule = None
  ∧ hps ≠ schedule
  ∧ h !! hps = Some (NumDict budgets)
  ∧ ∃ entries,
      h !! schedule = Some (DateDict entries)
      ∧ denotes h0 h hps schedule entries v.

End store.

(** ** The favorites list *)

(** A saved resource: the dict [{"type", "subject", "title", "link"}].  Two
    such dicts are equal in Python when their four values are. *)
Record resource : Type := Resource {
  res_type : string;
  res_subject : string;
  res_title : string;
  res_link : string;
}.

#[export] Instance resource_eq_dec : EqDecision resource.
Proof. solve_decision. Defined.

(** [save_favorite(resource)] on [st.session_state['favorites']]: the new
    list, and the message shown by [st.success] if there is one. *)
Definition save_favorite (r : resource) (favorites : list resource)
    : list resource * option string :=
  if bool_decide (r ∈ favorites) then (favorites, None)
  else (favorites ++ [r], Some "Resource saved to favorites!").

(** ** The subjects typed by the user

    Lines 25 and 26 inspect the characters of the text: there a [str] is
    the list of its code points. *)

Definition text : Type := list N.

(** [c.isspace()]: the white space of Unicode, as the interpreter classifies
    the characters (tab to carriage return, the four separators below the
    space, the space, and the Unicode spaces and line separators). *)
Definition is_space (c : N) : bool :=
  ((9 <=? c) && (c <=? 13) || (28 <=? c) && (c <=? 32)
   || (c =? 133) || (c =? 160) || (c =? 5760)
   || (8192 <=? c) && (c <=? 8202)
   || (c =? 8232) || (c =? 8233) || (c =? 8239) || (c =? 8287)
   || (c =? 12288))%N.

(** [s.split(sep)] for a separator of one character: the pieces between the
    separators, of which there is always at least one. *)
Fixpoint split (sep : N) (s : text) : list text :=
  match s with
  | [] => [[]]
  | c :: rest =>
      if (c =? sep)%N then [] :: split sep rest
      else match split sep rest with
           | piece :: pieces => (c :: piece) :: pieces
           | [] => [[c]]
           end
  end.

(** [s.lstrip()], [s.rstrip()] and [s.strip()]. *)
Fixpoint lstrip (s : text) : text :=
  match s with
  | c :: rest => if is_space c then lstrip rest else s
  | [] => []
  end.

Definition rstrip (s : text) : text := reverse (lstrip (reverse s)).

Definition strip (s : text) : text := rstrip (lstrip s).

(** The comma, [","]. *)
Definition comma : N := 44.

(** Line 26:
    [[s.strip() for s in subjects.split(',') if s.strip() != '']]. *)
Definition subject_list (subjects : text) : list text :=
  strip <$> filter (λ s, strip s ≠ []) (split comma subjects).

(** ** The difficulty ratings

    Lines 30 to 32: [difficulty_dict[subject] = st.slider(...)] for each
    subject of the list in turn; [slider subject] is the value of the slider
    that is labelled with the subject (one slider for one label: Streamlit
    stops the page at a second slider with the label of another). *)
Definition difficulty_dict (slider : string → Z) (subjects : list string)
    : gmap string Z :=
  foldl (λ d subject, <[subject := slider subject]> d) ∅ subjects.

(** ** The schedule in the order of its dates

    A Python dict lists its keys in the order of their first insertion, and
    the page reads the schedule in that order.  Lines 45 to 65 again, on a
    dict with its list of keys: the dates are computed as before, and a key
    is listed when it is new. *)

Section insertion_order.
Context {num : Type} `{!Hours num}.

(** A dict with its keys in insertion order. *)
Definition ordered : Type := list Z * gmap Z (list (string * num)).

(** A key takes its place after the others when the dict does not hold it. *)
Definition key_add (key : Z) (keys : list Z) : list Z :=
  if bool_decide (key ∈ keys) then keys else keys ++ [key].

(** [schedule[key] = tasks]. *)
Definition ordered_set (key : Z) (tasks : list (string * num)) (schedule : ordered)
    : ordered :=
  (key_add key schedule.1, <[key := tasks]> schedule.2).

(** [schedule[key].append(t)] on a [defaultdict(list)]. *)
Definition ordered_append (key : Z) (t : string * num) (schedule : ordered) : ordered :=
  (key_add key schedule.1, dict_append schedule.2 key t).

(** Lines 58 to 63. *)
Definition record_day_ordered (today day : Z) (today_plan : list (string * num))
    (schedule : ordered) : ordered :=
  let schedule :=
    match today_plan with
    | [] => schedule
    | _ :: _ => ordered_set (today + day) today_plan schedule
    end in
  let review_day := today + (day + 2) in
  foldl (λ sch t, ordered_append review_day (review_task t) sch) schedule today_plan.

Definition day_step_ordered (today : Z) (subjects : list string) (available_hours : Z)
    (day : Z) (st : gmap string num * ordered) : result (gmap string num * ordered) :=
  '(today_plan, hours_per_subject, _) ← plan_day subjects available_hours st.1;
  mret (hours_per_subject, record_day_ordered today day today_plan st.2).

Fixpoint run_days_ordered (today : Z) (subjects : list string) (available_hours : Z)
    (n : nat) (day : Z) (st : gmap string num * ordered)
    : result (gmap string num * ordered) :=
  match n with
  | O => Ok st
  | S n' =>
      st' ← day_step_ordered today subjects available_hours day st;
      run_days_ordered today subjects available_hours n' (day + 1) st'
  end.

Definition generate_schedule_ordered (today : Z) (subjects : list string)
    (difficulty : gmap string Z) (available_hours : Z) (exam_date : Z)
    : result ordered :=
  let total_days := exam_date - today in
  let total_available_hours := total_days * available_hours in
  let total_weight := sum_values difficulty in
  let total_weight := if total_weight =? 0 then 1 else total_weight in
  hours_per_subject ←
    dict_comprehension difficulty total_weight total_available_hours subjects ∅;
  st ← run_days_ordered today subjects available_hours (Z.to_nat total_days) 0
         (hours_per_subject, ([], ∅));
  mret st.2.

(** [plan.items()]: the dates with their tasks, in the order of the dict. *)
Definition items (plan : ordered) : list (Z * list (string * num)) :=
  (λ date, (date, default [] (plan.2 !! date))) <$> plan.1.

(** Lines 74 to 79: [plan_list], one row [Date, Subject, Hours] for each task
    of each date. *)
Definition plan_list (plan : ordered) : list (Z * string * num) :=
  items plan ≫= λ '(date, tasks), (λ '(subject, hours), (date, subject, hours)) <$> tasks.

(** Line 116: [[(d, t) for d, t in plan.items() if d >= today][:3]]. *)
Definition upcoming (today : Z) (plan : ordered) : list (Z * list (string * num)) :=
  take 3 (filter (λ '(d, _), today ≤ d) (items plan)).

End insertion_order.

(** ** Vocabulary of the properties *)

Section vocabulary.
Context {num : Type} `{!Hours num}.

(** The successive values of [today_plan]: one list per iteration of the
    [while] loop, computed by the same [plan_day] from the hours still owed
    (the list stops at an iteration that raises). *)
Fixpoint day_plans (subjects : list string) (available_hours : Z) (n : nat)
    (hours_per_subject : gmap string num) : list (list (string * num)) :=
  match n with
  | O => []
  | S n' =>
      match plan_day subjects available_hours hours_per_subject with
      | Ok (today_plan, hours_per_subject', _) =>
          today_plan :: day_plans subjects available_hours n' hours_per_subject'
      | Raise _ => []
      end
  end.

(** The successive values of [hours_per_subject]: entry [d] is the dict at
    the start of iteration [d] of the [while] loop, the hours each subject
    is still owed then. *)
Fixpoint day_owed (subjects : list string) (available_hours : Z) (n : nat)
    (hours_per_subject : gmap string num) : list (gmap string num) :=
  match n with
  | O => []
  | S n' =>
      hours_per_subject ::
      match plan_day subjects available_hours hours_per_subject with
      | Ok (_, hours_per_subject', _) =>
          day_owed subjects available_hours n' hours_per_subject'
      | Raise _ => []
      end
  end.

(** The study tasks a call allocates: entry [d] is [today_plan] of day index
    [d] (no entry at all when the call raises). *)
Definition study_plans (today : Z) (subjects : list string)
    (difficulty : gmap string Z) (available_hours : Z) (exam_date : Z)
    : list (list (string * num)) :=
  let total_days := exam_date - today in
  let total_weight := sum_values difficulty in
  let total_weight := if total_weight =? 0 then 1 else total_weight in
  match dict_comprehension difficulty total_weight (total_days * available_hours)
          subjects ∅ with
  | Ok hours_per_subject =>
      day_plans subjects available_hours (Z.to_nat total_days) hours_per_subject
  | Raise _ => []
  end.

(** The hours owed during a call: entry [d] is [hours_per_subject] at the
    start of day index [d]; entry 0 is the dict of the budgets of lines 41
    to 44. *)
Definition study_owed (today : Z) (subjects : list string)
    (difficulty : gmap string Z) (available_hours : Z) (exam_date : Z)
    : list (gmap string num) :=
  let total_days := exam_date - today in
  let total_weight := sum_values difficulty in
  let total_weight := if total_weight =? 0 then 1 else total_weight in
  match dict_comprehension difficulty total_weight (total_days * available_hours)
          subjects ∅ with
  | Ok hours_per_subject =>
      day_owed subjects available_hours (Z.to_nat total_days) hours_per_subject
  | Raise _ => []
  end.

(** The plan of day index [i], empty outside the days of the loop. *)
Definition plan_on (plans : list (list (string * num))) (i : Z)
    : list (string * num) :=
  if bool_decide (0 ≤ i) then default [] (plans !! Z.to_nat i) else [].

(** What the schedule holds [i] days after today once the days of [plans]
    are recorded: the plan of day [i] if it is not empty; otherwise the
    review tasks of day [i - 2], if that plan is not empty; otherwise the
    date is absent. *)
Definition expected_entry (plans : list (list (string * num))) (i : Z)
    : option (list (string * num)) :=
  match plan_on plans i, plan_on plans (i - 2) with
  | t :: rest, _ => Some (t :: rest)
  | [], t :: rest => Some (review_task <$> t :: rest)
  | [], [] => None
  end.

(** The schedule holds exactly the expected entry at every date. *)
Definition records (today : Z) (plans : list (list (string * num)))
    (sch : gmap Z (list (string * num))) : Prop :=
  ∀ i, sch !! (today + i) = expected_entry plans i.

(** A run of allocations inside one day: each entry is
    [min(1.0, owed, remaining)] for the hours its subject is still owed and
    the hours remaining in the day at that moment, both positive, and both
    are decremented by it. *)
Inductive allocations : gmap string num → num → list (string * num) →
    gmap string num → num → Prop :=
  | allocations_nil hps remaining :
      allocations hps remaining [] hps remaining
  | allocations_cons hps remaining subject owed allocated rest hps' remaining' :
      hps !! subject = Some owed →
      is_positive owed = true →
      allocated = min3 one_hour owed remaining →
      is_positive allocated = true →
      allocations (<[subject := minus owed allocated]> hps)
        (minus remaining allocated) rest hps' remaining' →
      allocations hps remaining ((subject, allocated) :: rest) hps' remaining'.

End vocabulary.

(** A day that [datetime.date] holds. *)
Definition valid_date (date : Z) : Prop := date_min ≤ date ≤ date_max.

#[export] Instance valid_date_dec (date : Z) : Decision (valid_date date).
Proof. unfold valid_date. apply _. Defined.

(** An integer that a float holds exactly. *)
Definition exact_int (n : Z) : Prop := - 2 ^ 53 < n < 2 ^ 53.

#[export] Instance exact_int_dec (n : Z) : Decision (exact_int n).
Proof. unfold exact_int. apply _. Defined.

(** In binary floating point: the sum as Python's [sum] computes it, from the
    left and from the integer 0, and the sum of the exact values. *)
Definition float_sum (tasks : list (string * float)) : float :=
  foldl (λ acc t, (acc + t.2)%float) 0%float tasks.

Definition exact_sum (tasks : list (string * float)) : Q :=
  foldr (λ t acc, (float_value t.2 + acc)%Q) 0%Q tasks.

(** The same sum in units of [2^-1074], the part of a task list under one
    label, the total of a label over the plans of all the days, and the
    number of its tasks. *)
Definition units_sum (tasks : list (string * float)) : Z :=
  foldr (λ t acc, float_units t.2 + acc) 0 tasks.

Definition tasks_for (label : string) (tasks : list (string * float))
    : list (string * float) :=
  filter (λ t, t.1 = label) tasks.

Definition exact_total_for (label : string) (plans : list (list (string * float)))
    : Q :=
  foldr (λ p acc, (exact_sum (tasks_for label p) + acc)%Q) 0%Q plans.

Definition units_total_for (label : string) (plans : list (list (string * float)))
    : Z :=
  foldr (λ p acc, units_sum (tasks_for label p) + acc) 0 plans.

Definition count_for (label : string) (plans : list (list (string * float))) : Z :=
  foldr (λ p acc, Z.of_nat (length (tasks_for label p)) + acc) 0 plans.

(** The hours a subject is still owed, in units (none when it has no key). *)
Definition owed_units (hps : gmap string float) (subject : string) : Z :=
  default 0 (float_units <$> hps !! subject).

(** Every subject is owed an amount of hours. *)
Definition hours_map (hps : gmap string float) : Prop :=
  map_Forall (λ _ v, is_hours v = true) hps.

(** [rec] is [M] shifted right by [k] bits: its mantissa is the quotient by
    [2^k], and its round and sticky bits place the remainder with respect to
    the half of [2^k]. *)
Definition shifted (M k : Z) (rec : shr_record) : Prop :=
  0 ≤ k ∧ 0 ≤ shr_m rec
  ∧ ∃ rem, M = shr_m rec * 2 ^ k + rem ∧ 0 ≤ rem < 2 ^ k
      ∧ match shr_r rec, shr_s rec with
        | false, false => rem = 0
        | false, true => 0 < 2 * rem < 2 ^ k
        | true, false => 2 * rem = 2 ^ k
        | true, true => 2 ^ k < 2 * rem
        end.

(** An amount of hours below [2^k]. *)
Definition SF_below (k : Z) (x : spec_float) : bool :=
  match x with
  | S754_zero _ => true
  | S754_finite false m e => Z.pos (digits2_pos m) + e <=? k
  | _ => false
  end.


(** The floats that are not positive numbers: a zero or a negative finite
    float. *)
Definition SF_not_positive (x : spec_float) : bool :=
  match x with
  | S754_zero _ | S754_finite true _ _ => true
  | _ => false
  end.

(** The favorites after the user saves the resources [saved], one click
    after the other. *)
Definition saves (saved favorites : list resource) : list resource :=
  foldl (λ favorites r, (save_favorite r favorites).1) favorites saved.

(** [sep.join(names)]. *)
Fixpoint join (sep : text) (names : list text) : text :=
  match names with
  | [] => []
  | [name] => name
  | name :: rest => name ++ sep ++ join sep rest
  end.

(** A name that neither starts nor ends with white space. *)
Definition trimmed (name : text) : bool :=
  negb (from_option is_space false (list.head name))
  && negb (from_option is_space false (list.last name)).

(** A subject as line 26 produces them: not empty, trimmed, without a
    comma. *)
Definition subject_name (name : text) : bool :=
  bool_decide (name ≠ []) && trimmed name && bool_decide (comma ∉ name).

(** The dates of a schedule with [m] days of study, in the order of the
    dict: day 0 and its review date, then day 1 and its review date, then
    the review dates of the later days, which are the dates of the days
    after them. *)
Definition dates_in_order (today : Z) (m : nat) : list Z :=
  match m with
  | 0%nat => []
  | 1%nat => [today; today + 2]
  | S (S k) => today :: today + 2 :: today + 1 :: seqZ (today + 3) (Z.of_nat (S k))
  end.

(** The number of days that have study tasks. *)
Definition study_days {num : Type} (plans : list (list (string * num))) : nat :=
  length (filter (λ p, p ≠ []) plans).

(** The list of keys of a dict holds its keys, each once. *)
Definition keys_listed {num : Type} (schedule : list Z * gmap Z (list (string * num)))
    : Prop :=
  NoDup schedule.1 ∧ ∀ k, k ∈ schedule.1 ↔ is_Some (schedule.2 !! k).

(** ** Inputs of the worked scenarios *)

(** Two subjects rated 4 and 2 (the scenario of the specification). *)
Definition math_science : gmap string Z := {[ "Math" := 4; "Science" := 2 ]}.

(** One subject. *)
Definition only_math : gmap string Z := {[ "Math" := 3 ]}.

(** Four subjects of equal difficulty. *)
Definition four_equal : gmap string Z :=
  {[ "Art" := 1; "Biology" := 1; "Chemistry" := 1; "Drama" := 1 ]}.

(** * Properties *)

Section schedule_properties.
Context {num : Type} `{!Hours num}.

(** ** One day's allocation *)

Lemma for_subjects_allocations subjects today_plan hps remaining st' :
  for_subjects subjects (today_plan, hps, remaining) = Ok st' →
  ∃ new hps' remaining',
    st' = (today_plan ++ new, hps', remaining')
    ∧ allocations hps remaining new hps' remaining'.
Proof.
  revert today_plan hps remaining.
  induction subjects as [|s rest IH]; intros today_plan hps remaining; simpl.
  - intros [= <-]. exists [], hps, remaining.
    rewrite app_nil_r. split; [done | constructor].
  - unfold dict_get. destruct (hps !! s) as [owed|] eqn:Hs; simpl; [|done].
    destruct (is_positive owed) eqn:Howed; simpl; [|apply IH].
    destruct (is_positive (min3 one_hour owed remaining)) eqn:Halloc; simpl; [|apply IH].
    intros (new & hps' & remaining' & -> & Hrun)%IH.
    exists ((s, min3 one_hour owed remaining) :: new), hps', remaining'.
    split; [by rewrite <- app_assoc|].
    econstructor; eauto.
Qed.

Lemma plan_day_allocations subjects available_hours hps today_plan hps' remaining' :
  plan_day subjects available_hours hps = Ok (today_plan, hps', remaining') →
  allocations hps (of_int available_hours) today_plan hps' remaining'.
Proof.
  intros (new & hps1 & remaining1 & [= -> -> ->] & Hrun)%for_subjects_allocations.
  done.
Qed.

Lemma allocations_keys hps remaining new hps' remaining' k :
  allocations hps remaining new hps' remaining' →
  is_Some (hps' !! k) ↔ is_Some (hps !! k).
Proof.
  induction 1 as [|hps remaining s owed a rest hps' remaining' Hs Howed -> Ha _ IH];
    [done|].
  rewrite IH, lookup_insert_is_Some. split.
  - intros [<-|[_ ?]]; [by eexists|done].
  - intros Hk. destruct (decide (s = k)); auto.
Qed.

Lemma for_subjects_Ok subjects today_plan hps remaining :
  Forall (λ s, is_Some (hps !! s)) subjects →
  ∃ st', for_subjects subjects (today_plan, hps, remaining) = Ok st'.
Proof.
  revert today_plan hps remaining.
  induction subjects as [|s rest IH]; intros today_plan hps remaining Hcov; simpl;
    [by eexists|].
  apply Forall_cons_1 in Hcov as [[owed Hs] Hrest].
  unfold dict_get. rewrite Hs. simpl.
  destruct (is_positive owed); simpl; [|by apply IH].
  destruct (is_positive (min3 one_hour owed remaining)); simpl; [|by apply IH].
  apply IH. eapply Forall_impl; [|exact Hrest]. simpl.
  intros k Hk. rewrite lookup_insert_is_Some. destruct (decide (s = k)); auto.
Qed.

(** ** Recording a day in the schedule *)

Lemma foldl_dict_append (sch : gmap Z (list (string * num))) key t rest :
  foldl (λ sch t, dict_append sch key (review_task t)) sch (t :: rest)
  = <[key := default [] (sch !! key) ++ (review_task <$> t :: rest)]> sch.
Proof.
  revert sch t. induction rest as [|t' rest IH]; intros sch t; [done|].
  change (foldl _ sch (t :: t' :: rest))
    with (foldl (λ sch t, dict_append sch key (review_task t))
            (dict_append sch key (review_task t)) (t' :: rest)).
  rewrite IH. unfold dict_append.
  rewrite lookup_insert_eq, insert_insert_eq. simpl.
  by rewrite <- app_assoc.
Qed.

Lemma record_day_nil today day (sch : gmap Z (list (string * num))) :
  record_day today day [] sch = sch.
Proof. done. Qed.

Lemma record_day_lookup today day t rest (sch : gmap Z (list (string * num))) k :
  record_day today day (t :: rest) sch !! k
  = if bool_decide (k = today + day + 2)
    then Some (default [] (sch !! k) ++ (review_task <$> t :: rest))
    else if bool_decide (k = today + day) then Some (t :: rest)
    else sch !! k.
Proof.
  unfold record_day. rewrite foldl_dict_append.
  case_bool_decide as Hk.
  - subst k. replace (today + (day + 2)) with (today + day + 2) by lia.
    rewrite lookup_insert_eq. by rewrite lookup_insert_ne by lia.
  - rewrite lookup_insert_ne by lia.
    case_bool_decide as Hk'.
    + subst k. by rewrite lookup_insert_eq.
    + by rewrite lookup_insert_ne.
Qed.

Lemma plan_on_snoc (plans : list (list (string * num))) p i :
  plan_on (plans ++ [p]) i
  = if bool_decide (i = Z.of_nat (length plans)) then p else plan_on plans i.
Proof.
  unfold plan_on. case_bool_decide as Hi; case_bool_decide as Hn; try lia; try done.
  - subst i. rewrite Nat2Z.id.
    by rewrite lookup_app_r, Nat.sub_diag by lia.
  - destruct (decide (Z.to_nat i < length plans)%nat) as [Hlt|Hge].
    + by rewrite lookup_app_l.
    + rewrite !lookup_ge_None_2; [done|lia|].
      rewrite length_app. simpl. lia.
Qed.

Lemma plan_on_outside (plans : list (list (string * num))) i :
  i < 0 ∨ Z.of_nat (length plans) ≤ i → plan_on plans i = [].
Proof.
  intros Hi. unfold plan_on. case_bool_decide; [|done].
  rewrite lookup_ge_None_2; [done|lia].
Qed.

Lemma records_empty today : records today [] ∅.
Proof. intros i. rewrite lookup_empty. unfold expected_entry, plan_on.
  repeat case_bool_decide; by rewrite ?lookup_nil. Qed.

Lemma record_day_records today plans p sch :
  records today plans sch →
  records today (plans ++ [p]) (record_day today (Z.of_nat (length plans)) p sch).
Proof.
  intros Hrec i. unfold expected_entry. rewrite !plan_on_snoc.
  pose proof (Hrec i) as Hi. unfold expected_entry in Hi.
  pose proof (plan_on_outside plans (Z.of_nat (length plans))) as Hout.
  destruct p as [|t rest].
  - rewrite record_day_nil, Hi.
    repeat case_bool_decide; subst; try lia; try done.
    + rewrite Hout by lia. done.
    + replace (i - 2) with (Z.of_nat (length plans)) by lia.
      rewrite Hout by lia. by destruct (plan_on plans i).
  - rewrite record_day_lookup, Hi.
    repeat case_bool_decide; subst; try lia; try done.
    rewrite (plan_on_outside plans i) by lia.
    replace (i - 2) with (Z.of_nat (length plans)) by lia.
    rewrite Hout by lia. done.
Qed.

Lemma run_days_records today subjects available_hours n :
  ∀ plans hps sch st',
    records today plans sch →
    run_days today subjects available_hours n (Z.of_nat (length plans)) (hps, sch)
      = Ok st' →
    records today (plans ++ day_plans subjects available_hours n hps) st'.2.
Proof.
  induction n as [|n IH]; intros plans hps sch st' Hrec; simpl.
  - intros [= <-]. by rewrite app_nil_r.
  - unfold day_step. simpl.
    destruct (plan_day subjects available_hours hps) as [[[p hps'] remaining']|e];
      simpl; [|done].
    rewrite cons_middle, (assoc_L (++)).
    replace (Z.of_nat (length plans) + 1) with (Z.of_nat (length (plans ++ [p])))
      by (rewrite length_app; simpl; lia).
    apply IH. by apply record_day_records.
Qed.

Lemma run_days_Ok today subjects available_hours n day hps sch :
  Forall (λ s, is_Some (hps !! s)) subjects →
  ∃ st', run_days today subjects available_hours n day (hps, sch) = Ok st'.
Proof.
  revert day hps sch. induction n as [|n IH]; intros day hps sch Hcov; simpl;
    [by eexists|].
  unfold day_step, plan_day. simpl.
  destruct (for_subjects_Ok subjects [] hps (of_int available_hours) Hcov)
    as [st1 Hst1].
  rewrite Hst1. simpl.
  apply for_subjects_allocations in Hst1 as (p & hps' & remaining' & -> & Hrun).
  simpl. apply IH. eapply Forall_impl; [|exact Hcov]. simpl.
  intros k Hk. by rewrite (allocations_keys _ _ _ _ _ k Hrun).
Qed.

(** ** The budgets *)

Lemma effective_weight_nonzero (w : Z) : (if w =? 0 then 1 else w) ≠ 0.
Proof. destruct (Z.eqb_spec w 0); lia. Qed.

Lemma subject_budget_Ok difficulty w tah s d :
  difficulty !! s = Some d → w ≠ 0 →
  subject_budget difficulty w tah s
  = Ok (budget d w tah).
Proof.
  intros Hd Hw. unfold subject_budget, dict_get. rewrite Hd. simpl.
  destruct (Z.eqb_spec w 0); [lia|done].
Qed.

Lemma subject_budget_Raise difficulty w tah s e :
  w ≠ 0 → subject_budget difficulty w tah s = Raise e →
  e = KeyError s ∧ difficulty !! s = None.
Proof.
  intros Hw. unfold subject_budget, dict_get.
  destruct (difficulty !! s) as [d|]; simpl.
  - destruct (Z.eqb_spec w 0); simpl; (lia || discriminate).
  - by intros [= <-].
Qed.

Lemma dict_comprehension_Ok difficulty w tah subjects acc :
  Forall (λ s, is_Some (difficulty !! s)) subjects → w ≠ 0 →
  ∃ hps, dict_comprehension difficulty w tah subjects acc = Ok hps.
Proof.
  intros Hcov Hw. revert acc.
  induction Hcov as [|s rest [d Hd] _ IH]; intros acc; simpl; [by eexists|].
  rewrite (subject_budget_Ok _ _ _ _ _ Hd Hw). simpl. apply IH.
Qed.

Lemma dict_comprehension_Raise difficulty w tah subjects acc e :
  w ≠ 0 → dict_comprehension difficulty w tah subjects acc = Raise e →
  ∃ s, e = KeyError s ∧ s ∈ subjects ∧ difficulty !! s = None.
Proof.
  intros Hw. revert acc.
  induction subjects as [|s rest IH]; intros acc; simpl; [done|].
  destruct (subject_budget difficulty w tah s) as [v|e'] eqn:Hv; simpl.
  - intros (s' & ? & ? & ?)%IH. exists s'. set_solver.
  - intros [= <-]. apply subject_budget_Raise in Hv as [-> ?]; [|done].
    exists s. set_solver.
Qed.

Lemma dict_comprehension_lookup difficulty w tah subjects acc hps s :
  w ≠ 0 →
  dict_comprehension difficulty w tah subjects acc = Ok hps →
  (s ∈ subjects →
     ∃ d, difficulty !! s = Some d
        ∧ hps !! s = Some (budget d w tah))
  ∧ (s ∉ subjects → hps !! s = acc !! s).
Proof.
  intros Hw. revert acc.
  induction subjects as [|s' rest IH]; intros acc; simpl.
  - intros [= <-]. split; [by intros ?%elem_of_nil | done].
  - destruct (subject_budget difficulty w tah s') as [v|e'] eqn:Hv; simpl; [|done].
    intros [IHin IHout]%IH. split.
    + intros [->|Hin]%elem_of_cons; [|by apply IHin].
      destruct (decide (s' ∈ rest)) as [Hin|Hnin]; [by apply IHin|].
      rewrite (IHout Hnin), lookup_insert_eq.
      destruct (difficulty !! s') as [d|] eqn:Hd.
      * rewrite (subject_budget_Ok _ _ _ _ _ Hd Hw) in Hv. injection Hv as <-.
        by exists d.
      * unfold subject_budget, dict_get in Hv. by rewrite Hd in Hv.
    + intros [Hne Hnin]%not_elem_of_cons.
      rewrite (IHout Hnin). by rewrite lookup_insert_ne.
Qed.

(** Every subject of the loop has its key in [hours_per_subject]. *)
Lemma dict_comprehension_dom difficulty w tah subjects hps s :
  w ≠ 0 →
  dict_comprehension difficulty w tah subjects ∅ = Ok hps →
  s ∈ subjects ↔ is_Some (hps !! s).
Proof.
  intros Hw Hok.
  destruct (dict_comprehension_lookup _ _ _ _ _ _ s Hw Hok) as [Hin Hout].
  split.
  - intros (d & _ & ->)%Hin. by eexists.
  - intros Hsome. destruct (decide (s ∈ subjects)) as [|Hnin]; [done|].
    rewrite (Hout Hnin), lookup_empty in Hsome. by destruct Hsome.
Qed.

(** ** The whole call *)

Lemma generate_schedule_Ok_inv today subjects difficulty available_hours exam_date sched :
  generate_schedule today subjects difficulty available_hours exam_date = Ok sched →
  ∃ hps st',
    dict_comprehension difficulty
      (if sum_values difficulty =? 0 then 1 else sum_values difficulty)
      ((exam_date - today) * available_hours) subjects ∅ = Ok hps
    ∧ study_plans today subjects difficulty available_hours exam_date
      = day_plans subjects available_hours (Z.to_nat (exam_date - today)) hps
    ∧ run_days today subjects available_hours (Z.to_nat (exam_date - today)) 0
        (hps, ∅) = Ok st'
    ∧ sched = st'.2.
Proof.
  unfold generate_schedule, study_plans.
  destruct (dict_comprehension _ _ _ _ _) as [hps|e]; simpl; [|done].
  destruct (run_days _ _ _ _ _ _) as [st'|e] eqn:Hrun; simpl; [|done].
  intros [= <-]. by exists hps, st'.
Qed.

Lemma generate_schedule_records today subjects difficulty available_hours exam_date sched :
  generate_schedule today subjects difficulty available_hours exam_date = Ok sched →
  records today (study_plans today subjects difficulty available_hours exam_date) sched.
Proof.
  intros (hps & st' & _ & -> & Hrun & ->)%generate_schedule_Ok_inv.
  apply (run_days_records today subjects available_hours _ [] hps ∅ st');
    [apply records_empty | done].
Qed.

Lemma day_plans_length today subjects available_hours n day hps sch st' :
  run_days today subjects available_hours n day (hps, sch) = Ok st' →
  length (day_plans subjects available_hours n hps) = n.
Proof.
  revert day hps sch. induction n as [|n IH]; intros day hps sch; simpl; [done|].
  unfold day_step. simpl.
  destruct (plan_day subjects available_hours hps) as [[[p hps'] remaining']|e];
    simpl; [|done].
  intros Hrun%IH. by rewrite Hrun.
Qed.

Lemma study_plans_length today subjects difficulty available_hours exam_date sched :
  generate_schedule today subjects difficulty available_hours exam_date = Ok sched →
  length (study_plans today subjects difficulty available_hours exam_date)
  = Z.to_nat (exam_date - today).
Proof.
  intros (hps & st' & _ & -> & Hrun & _)%generate_schedule_Ok_inv.
  by eapply day_plans_length.
Qed.

Lemma day_plans_allocations subjects available_hours n hps p :
  p ∈ day_plans subjects available_hours n hps →
  ∃ hps0 hps' remaining',
    allocations hps0 (of_int available_hours) p hps' remaining'.
Proof.
  revert hps. induction n as [|n IH]; intros hps; simpl; [by intros ?%elem_of_nil|].
  destruct (plan_day subjects available_hours hps) as [[[p0 hps'] remaining']|e]
    eqn:Hday; [|by intros ?%elem_of_nil].
  apply plan_day_allocations in Hday.
  intros [->|Hin]%elem_of_cons; [by eauto|by eapply IH].
Qed.

Lemma plan_on_lookup (plans : list (list (string * num))) (d : nat) p :
  plans !! d = Some p → plan_on plans (Z.of_nat d) = p.
Proof.
  intros Hp. unfold plan_on. rewrite bool_decide_eq_true_2 by lia.
  by rewrite Nat2Z.id, Hp.
Qed.

Lemma expected_entry_Some (plans : list (list (string * num))) i tasks :
  expected_entry plans i = Some tasks →
  0 ≤ i < Z.of_nat (length plans) + 2
  ∧ (Z.of_nat (length plans) ≤ i →
       2 ≤ i
       ∧ plans !! Z.to_nat (i - 2) = Some (plan_on plans (i - 2))
       ∧ tasks = review_task <$> plan_on plans (i - 2)).
Proof.
  unfold expected_entry. intros Hentry.
  destruct (decide (i < 0)) as [Hneg|Hnonneg].
  { rewrite !plan_on_outside in Hentry by lia. done. }
  destruct (decide (Z.of_nat (length plans) + 2 ≤ i)) as [Hbig|Hsmall].
  { rewrite !plan_on_outside in Hentry by lia. done. }
  split; [lia|]. intros Hge.
  rewrite (plan_on_outside plans i) in Hentry by lia.
  destruct (plan_on plans (i - 2)) as [|t rest] eqn:Hp; [done|].
  injection Hentry as <-.
  unfold plan_on in Hp. case_bool_decide; [|done].
  split; [lia|]. split; [|done].
  destruct (plans !! Z.to_nat (i - 2)); simpl in Hp; by subst.
Qed.

(** ** Dates of the schedule *)

(** C5. When the exam date is today or earlier ([total_days ≤ 0]) the loop
    does not run and the call returns the empty schedule, whatever the
    subjects, the daily hours and the difficulty map (a dict that rates every
    subject of the list, as the contract of the function requires). *)
Theorem generate_schedule_exam_not_after_today
    today subjects difficulty available_hours exam_date :
  exam_date ≤ today →
  Forall (λ s, is_Some (difficulty !! s)) subjects →
  generate_schedule (num:=num) today subjects difficulty available_hours exam_date
  = Ok ∅.
Proof.
  intros Hdate Hcov. unfold generate_schedule.
  destruct (dict_comprehension_Ok difficulty
              (if sum_values difficulty =? 0 then 1 else sum_values difficulty)
              ((exam_date - today) * available_hours) subjects ∅ Hcov
              (effective_weight_nonzero _)) as [hps ->].
  simpl. by replace (Z.to_nat (exam_date - today)) with 0%nat by lia.
Qed.

(** C7. No date of the returned schedule is earlier than today; the study
    tasks allocated on day index [d] are stored under [today + d], which is
    at most [today + total_days - 1]; and whatever the schedule holds at a
    later date is made of review tasks only.  This holds for every call that
    returns, in particular for a non-empty subject list with positive
    difficulties and [total_days > 0]. *)
Theorem schedule_dates_in_horizon
    today subjects difficulty available_hours exam_date sched :
  generate_schedule today subjects difficulty available_hours exam_date = Ok sched →
  (∀ k, is_Some (sched !! k) → today ≤ k)
  ∧ (∀ (d : nat) p,
       study_plans today subjects difficulty available_hours exam_date !! d = Some p →
       today + Z.of_nat d ≤ today + (exam_date - today) - 1
       ∧ (p ≠ [] → sched !! (today + Z.of_nat d) = Some p))
  ∧ (∀ k tasks,
       sched !! k = Some tasks →
       today + (exam_date - today) - 1 < k →
       ∃ (d : nat) p,
         study_plans today subjects difficulty available_hours exam_date !! d = Some p
         ∧ k = today + Z.of_nat d + 2
         ∧ tasks = review_task <$> p).
Proof.
  intros Hgen.
  pose proof (generate_schedule_records _ _ _ _ _ _ Hgen) as Hrec.
  pose proof (study_plans_length _ _ _ _ _ _ Hgen) as Hlen.
  remember (study_plans today subjects difficulty available_hours exam_date)
    as plans eqn:Hplans.
  split; [|split].
  - intros k [tasks Hk].
    specialize (Hrec (k - today)). replace (today + (k - today)) with k in Hrec by lia.
    rewrite Hk in Hrec. symmetry in Hrec.
    apply expected_entry_Some in Hrec as [? _]. lia.
  - intros d p Hd. split.
    + apply lookup_lt_Some in Hd. lia.
    + intros Hp. rewrite (Hrec (Z.of_nat d)). unfold expected_entry.
      rewrite (plan_on_lookup _ _ _ Hd). by destruct p.
  - intros k tasks Hk Hlate.
    specialize (Hrec (k - today)). replace (today + (k - today)) with k in Hrec by lia.
    rewrite Hk in Hrec. symmetry in Hrec.
    apply expected_entry_Some in Hrec as [Hrange Hrev].
    destruct Hrev as (Hi & Hd & ->); [lia|].
    exists (Z.to_nat (k - today - 2)), (plan_on plans (k - today - 2)).
    split; [done|]. split; [lia|done].
Qed.

(** C10. With [total_days > 0], every date of the returned schedule, study
    and review dates alike, is at most [today + total_days + 1]: two days
    after the last planning day [today + total_days - 1]. *)
Theorem schedule_ends_two_days_after_horizon
    today subjects difficulty available_hours exam_date sched :
  today < exam_date →
  generate_schedule today subjects difficulty available_hours exam_date = Ok sched →
  ∀ k, is_Some (sched !! k) → k ≤ today + (exam_date - today) + 1.
Proof.
  intros Hdays Hgen k [tasks Hk].
  pose proof (generate_schedule_records _ _ _ _ _ _ Hgen (k - today)) as Hrec.
  pose proof (study_plans_length _ _ _ _ _ _ Hgen) as Hlen.
  replace (today + (k - today)) with k in Hrec by lia.
  rewrite Hk in Hrec. symmetry in Hrec.
  apply expected_entry_Some in Hrec as [? _]. lia.
Qed.

(** ** The range of the dates *)

Lemma date_add_Ok (date days : Z) :
  - timedelta_max ≤ days ≤ timedelta_max → valid_date (date + days) →
  date_add date days = Ok (date + days).
Proof.
  intros Hdays Hdate. unfold date_add.
  by rewrite !bool_decide_eq_true_2.
Qed.

Lemma date_add_inv (date days r : Z) :
  date_add date days = Ok r → r = date + days ∧ valid_date r.
Proof.
  unfold date_add. case_bool_decide; [|done]. case_bool_decide; [|done].
  simpl. by intros [= <-].
Qed.

Lemma date_add_Raise (date days : Z) e :
  date_add date days = Raise e → e = OverflowError.
Proof.
  unfold date_add. destruct (_ && _); [done|]. by intros [= <-].
Qed.

Lemma date_add_overflow (date days : Z) :
  date_max < date + days → date_add date days = Raise OverflowError.
Proof.
  intros Hlate. unfold date_add.
  rewrite (bool_decide_eq_false_2 (date_min ≤ date + days ≤ date_max)) by lia.
  by rewrite andb_false_r.
Qed.

Lemma record_day_dated_inv today day p sch sch' :
  record_day_dated today day p sch = Ok sch' →
  sch' = record_day today day p sch ∧ today + (day + 2) ≤ date_max.
Proof.
  unfold record_day_dated, record_day.
  destruct p as [|t p]; simpl.
  - destruct (date_add today (day + 2)) as [r|e] eqn:Hr; simpl; [|done].
    apply date_add_inv in Hr as [-> [_ ?]]. by intros [= <-].
  - destruct (date_add today day) as [r0|e] eqn:Hr0; simpl; [|done].
    destruct (date_add today (day + 2)) as [r|e] eqn:Hr; simpl; [|done].
    apply date_add_inv in Hr0 as [-> _]. apply date_add_inv in Hr as [-> [_ ?]].
    by intros [= <-].
Qed.

Lemma record_day_dated_Raise today day p sch e :
  record_day_dated today day p sch = Raise e → e = OverflowError.
Proof.
  unfold record_day_dated.
  destruct p as [|t p]; simpl.
  - destruct (date_add today (day + 2)) as [r|e'] eqn:Hr; simpl; [done|].
    apply date_add_Raise in Hr as ->. by intros [= <-].
  - destruct (date_add today day) as [r0|e'] eqn:Hr0; simpl.
    + destruct (date_add today (day + 2)) as [r|e'] eqn:Hr; simpl; [done|].
      apply date_add_Raise in Hr as ->. by intros [= <-].
    + apply date_add_Raise in Hr0 as ->. by intros [= <-].
Qed.

Lemma record_day_dated_in_range today day p sch :
  date_min ≤ today → 0 ≤ day → today + (day + 2) ≤ date_max →
  record_day_dated today day p sch = Ok (record_day today day p sch).
Proof.
  intros Htoday Hday Hlast. unfold record_day_dated, record_day.
  unfold date_min, date_max in *.
  rewrite (date_add_Ok today (day + 2))
    by (unfold valid_date, timedelta_max, date_min, date_max; lia).
  destruct p as [|t p]; simpl; [done|].
  rewrite (date_add_Ok today day)
    by (unfold valid_date, timedelta_max, date_min, date_max; lia).
  done.
Qed.

(** While the review dates are in the range of the dates, the loop on dates
    is the loop on day numbers. *)
Lemma run_days_dated_in_range today subjects available_hours n day st :
  date_min ≤ today → 0 ≤ day →
  (n ≠ 0%nat → today + day + Z.of_nat n + 1 ≤ date_max) →
  run_days_dated today subjects available_hours n day st
  = run_days today subjects available_hours n day st.
Proof.
  intros Htoday. revert day st. induction n as [|n IH]; intros day st Hday Hlast;
    [done|].
  cbn [run_days_dated run_days]. unfold day_step_dated, day_step.
  destruct (plan_day subjects available_hours st.1) as [[[p hps] remaining]|e];
    simpl; [|done].
  rewrite record_day_dated_in_range by lia. simpl.
  apply IH; lia.
Qed.

(** The loop on dates raises [OverflowError] when its last review date is
    after the last date. *)
Lemma run_days_dated_overflow today subjects available_hours n day hps sch :
  Forall (λ s, is_Some (hps !! s)) subjects →
  n ≠ 0%nat → date_max < today + day + Z.of_nat n + 1 →
  run_days_dated today subjects available_hours n day (hps, sch)
  = Raise OverflowError.
Proof.
  revert day hps sch. induction n as [|n IH]; intros day hps sch Hcov Hn Hlate;
    [done|].
  cbn [run_days_dated]. unfold day_step_dated, plan_day. cbn [fst snd].
  destruct (for_subjects_Ok subjects [] hps (of_int available_hours) Hcov)
    as [st1 Hst1].
  rewrite Hst1. simpl.
  apply for_subjects_allocations in Hst1 as (p & hps' & remaining' & -> & Hrun).
  simpl.
  destruct (record_day_dated today day p sch) as [sch'|e] eqn:Hrec; simpl.
  - apply record_day_dated_inv in Hrec as [_ Hlast].
    apply IH; [|lia|lia].
    eapply Forall_impl; [|exact Hcov]. simpl.
    intros k Hk. by rewrite (allocations_keys _ _ _ _ _ k Hrun).
  - by apply record_day_dated_Raise in Hrec as ->.
Qed.

(** With an exam that is not after today, or before the last date, the call
    on dates is the call on day numbers. *)
Lemma generate_schedule_dated_in_range
    today subjects difficulty available_hours exam_date :
  valid_date today → exam_date ≤ today ∨ exam_date < date_max →
  generate_schedule_dated today subjects difficulty available_hours exam_date
  = generate_schedule today subjects difficulty available_hours exam_date.
Proof.
  intros [Htoday _] Hexam. unfold generate_schedule_dated, generate_schedule.
  destruct (dict_comprehension _ _ _ _ _) as [hps|e]; simpl; [|done].
  rewrite run_days_dated_in_range; [done|done|lia|]. lia.
Qed.

(** With an exam on the last date, after today, the call raises
    [OverflowError] in the last iteration of the loop, unless a subject
    that is not rated raises [KeyError] before the loop. *)
Lemma generate_schedule_dated_overflow
    today subjects difficulty available_hours exam_date :
  Forall (λ s, is_Some (difficulty !! s)) subjects →
  today < exam_date → date_max ≤ exam_date →
  generate_schedule_dated (num:=num) today subjects difficulty available_hours
    exam_date
  = Raise OverflowError.
Proof.
  intros Hcov Hafter Hlast. unfold generate_schedule_dated.
  destruct (dict_comprehension_Ok difficulty
              (if sum_values difficulty =? 0 then 1 else sum_values difficulty)
              ((exam_date - today) * available_hours) subjects ∅ Hcov
              (effective_weight_nonzero _)) as [hps Hhps].
  rewrite Hhps. simpl.
  rewrite run_days_dated_overflow; [done| |lia|lia].
  apply Forall_forall. intros s Hs.
  apply (dict_comprehension_dom _ _ _ _ _ s (effective_weight_nonzero _) Hhps).
  by apply list_elem_of_In.
Qed.

(** ** Failures *)

(** C6 (with the range of the dates).  The call never divides by zero: a
    zero sum of the difficulty values is replaced by 1 before the division.
    On valid dates, with integers that a float holds exactly, a call can
    raise two exceptions only: the [KeyError] of a subject of the list that
    the difficulty dict does not rate, and [OverflowError], which it raises
    when every subject is rated and the exam is on the last date of
    [datetime.date], after today: line 61 then computes a review date after
    the last date.  With every subject rated and an exam that is not after
    today, or before the last date, the call returns the schedule of the
    call on day numbers; with an empty subject list that schedule is
    empty. *)
Theorem generate_schedule_never_divides_by_zero
    today subjects difficulty available_hours exam_date :
  valid_date today → valid_date exam_date →
  map_Forall (λ _ v, exact_int v) difficulty →
  exact_int (sum_values difficulty) →
  exact_int available_hours →
  exact_int ((exam_date - today) * available_hours) →
  (sum_values difficulty = 0 →
     generate_schedule_dated (num:=num) today subjects difficulty available_hours
       exam_date
     = (hps ← dict_comprehension difficulty 1
                ((exam_date - today) * available_hours) subjects ∅;
        st ← run_days_dated today subjects available_hours
                (Z.to_nat (exam_date - today)) 0 (hps, ∅);
        mret st.2))
  ∧ (∀ e,
       generate_schedule_dated (num:=num) today subjects difficulty available_hours
         exam_date
       = Raise e →
       (∃ s, e = KeyError s ∧ s ∈ subjects ∧ difficulty !! s = None)
       ∨ (e = OverflowError ∧ today < exam_date ∧ exam_date = date_max))
  ∧ (Forall (λ s, is_Some (difficulty !! s)) subjects →
     exam_date ≤ today ∨ exam_date < date_max →
       ∃ sched,
         generate_schedule_dated (num:=num) today subjects difficulty
           available_hours exam_date
         = Ok sched
         ∧ generate_schedule today subjects difficulty available_hours exam_date
           = Ok sched)
  ∧ (Forall (λ s, is_Some (difficulty !! s)) subjects →
     today < exam_date → exam_date = date_max →
       generate_schedule_dated (num:=num) today subjects difficulty available_hours
         exam_date
       = Raise OverflowError)
  ∧ (subjects = [] →
     exam_date ≤ today ∨ exam_date < date_max →
       generate_schedule_dated (num:=num) today subjects difficulty available_hours
         exam_date
       = Ok ∅).
Proof.
  intros Htoday Hexam _ _ _ _.
  assert (Hrun : ∀ hps : gmap string num,
    dict_comprehension difficulty
      (if sum_values difficulty =? 0 then 1 else sum_values difficulty)
      ((exam_date - today) * available_hours) subjects ∅ = Ok hps →
    Forall (λ s, is_Some (hps !! s)) subjects).
  { intros hps Hhps. apply Forall_forall. intros s Hs.
    apply (dict_comprehension_dom _ _ _ _ _ s (effective_weight_nonzero _) Hhps).
    by apply list_elem_of_In. }
  assert (Hret : Forall (λ s, is_Some (difficulty !! s)) subjects →
    ∃ sched, generate_schedule (num:=num) today subjects difficulty available_hours
               exam_date = Ok sched).
  { intros Hcov. unfold generate_schedule.
    destruct (dict_comprehension_Ok difficulty
                (if sum_values difficulty =? 0 then 1 else sum_values difficulty)
                ((exam_date - today) * available_hours) subjects ∅ Hcov
                (effective_weight_nonzero _)) as [hps Hhps].
    rewrite Hhps. simpl.
    destruct (run_days_Ok today subjects available_hours
                (Z.to_nat (exam_date - today)) 0 hps ∅ (Hrun hps Hhps)) as [st' ->].
    by eexists. }
  split; [|split; [|split; [|split]]].
  - intros Hsum. unfold generate_schedule_dated. by rewrite Hsum.
  - intros e. unfold generate_schedule_dated.
    destruct (dict_comprehension _ _ _ _ _) as [hps|e'] eqn:Hhps; simpl.
    + destruct (decide (today < exam_date ∧ exam_date = date_max)) as [[? ?]|Hin].
      * rewrite run_days_dated_overflow; [|by apply Hrun|lia|lia].
        intros [= <-]. by right.
      * rewrite run_days_dated_in_range;
          [|by destruct Htoday|done|destruct Hexam; lia].
        destruct (run_days_Ok today subjects available_hours
                    (Z.to_nat (exam_date - today)) 0 hps ∅ (Hrun hps eq_refl))
          as [st' ->]. done.
    + intros [= <-]. left. eapply dict_comprehension_Raise; [|done].
      apply effective_weight_nonzero.
  - intros Hcov Hrange. destruct (Hret Hcov) as [sched Hsched]. exists sched.
    by rewrite generate_schedule_dated_in_range.
  - intros Hcov Hafter ->. by apply generate_schedule_dated_overflow.
  - intros -> Hrange. rewrite generate_schedule_dated_in_range by done.
    unfold generate_schedule. simpl.
    generalize (Z.to_nat (exam_date - today)), 0.
    intros n. generalize (∅ : gmap string num).
    induction n as [|n IH]; intros hps day; [done|]. simpl. apply IH.
Qed.

End schedule_properties.

(** ** Binary floating point *)

(** The operations of [binary64] on amounts of hours, from their
    specification in [SpecFloat].  A finite float is [m * 2^e] with a
    mantissa [m] of at most 53 bits and [-1074 <= e <= 971]; the result of an
    operation is the exact result rounded to the nearest float, which
    [binary_round] computes by shifting the mantissa.  Values are counted in
    units of [2^-1074], which makes them integers. *)

(** [digits2_pos m] is the number of bits of [m]. *)
Lemma digits2_pos_bounds (m : positive) :
  2 ^ (Z.pos (digits2_pos m) - 1) ≤ Z.pos m < 2 ^ Z.pos (digits2_pos m).
Proof.
  induction m as [m IH|m IH|]; simpl digits2_pos; [| |by vm_compute].
  - rewrite Pos2Z.inj_succ. change (Z.pos m~1) with (2 * Z.pos m + 1).
    replace (Z.succ (Z.pos (digits2_pos m)) - 1)
      with (Z.succ (Z.pos (digits2_pos m) - 1)) by lia.
    rewrite !Z.pow_succ_r by lia. lia.
  - rewrite Pos2Z.inj_succ. change (Z.pos m~0) with (2 * Z.pos m).
    replace (Z.succ (Z.pos (digits2_pos m)) - 1)
      with (Z.succ (Z.pos (digits2_pos m) - 1)) by lia.
    rewrite !Z.pow_succ_r by lia. lia.
Qed.

Lemma digits2_pos_unique (m : positive) (k : Z) :
  2 ^ (k - 1) ≤ Z.pos m < 2 ^ k → Z.pos (digits2_pos m) = k.
Proof.
  intros [Hlo Hhi]. pose proof (digits2_pos_bounds m) as [Hlo' Hhi'].
  assert (0 < k).
  { destruct (Z.lt_ge_cases 0 k) as [|Hk]; [done|].
    rewrite (Z.pow_neg_r 2 k) in Hhi
      by (destruct (Z.eq_dec k 0); [subst; simpl in *|]; lia).
    lia. }
  assert (k - 1 < Z.pos (digits2_pos m)).
  { apply (Z.pow_lt_mono_r_iff 2); lia. }
  assert (Z.pos (digits2_pos m) - 1 < k).
  { apply (Z.pow_lt_mono_r_iff 2); lia. }
  lia.
Qed.

(** A shift to the left by [d] bits. *)
Lemma iter_xO_pow (d m : positive) :
  Z.pos (Pos.iter xO m d) = Z.pos m * 2 ^ Z.pos d.
Proof.
  revert m. induction d as [| d IH] using Pos.peano_ind; intros m.
  - simpl. lia.
  - rewrite Pos.iter_succ.
    change (Z.pos (Pos.iter xO m d)~0) with (2 * Z.pos (Pos.iter xO m d)).
    rewrite IH, Pos2Z.inj_succ, Z.pow_succ_r by lia. lia.
Qed.

(** A shift to the right by one more bit, and by [p] bits. *)
Lemma shr_1_shifted M k rec : shifted M k rec → shifted M (k + 1) (shr_1 rec).
Proof.
  destruct rec as [m r s]. intros (Hk & Hm & rem & HM & Hrem & Hloc).
  simpl in Hm, HM, Hloc. unfold shifted.
  rewrite Z.pow_add_r by lia. change (2 ^ 1) with 2.
  pose proof (Z.pow_pos_nonneg 2 k) as HP. set (P := 2 ^ k) in *.
  destruct m as [|[p|p|]|p]; simpl; try lia.
  - split; [lia|]. split; [lia|]. exists rem.
    destruct r, s; simpl; lia.
  - split; [lia|]. split; [lia|]. exists (rem + P).
    change (Z.pos p~1) with (2 * Z.pos p + 1) in HM.
    destruct r, s; simpl; lia.
  - split; [lia|]. split; [lia|]. exists rem.
    change (Z.pos p~0) with (2 * Z.pos p) in HM.
    destruct r, s; simpl; lia.
  - split; [lia|]. split; [lia|]. exists (rem + P).
    destruct r, s; simpl; lia.
Qed.

Lemma iter_pos_shifted M (p : positive) k rec :
  shifted M k rec → shifted M (k + Z.pos p) (SpecFloat.iter_pos shr_1 p rec).
Proof.
  revert k rec. induction p as [p IH|p IH|]; intros k rec Hrec; simpl.
  - apply shr_1_shifted, IH, IH in Hrec.
    replace (k + Z.pos p~1) with (k + 1 + Z.pos p + Z.pos p) by lia. done.
  - apply IH, IH in Hrec.
    replace (k + Z.pos p~0) with (k + Z.pos p + Z.pos p) by lia. done.
  - by apply shr_1_shifted.
Qed.

(** Rounding to nearest after a shift by [n] bits: the result is the
    quotient or the quotient plus one, and it is at most half a unit above
    the exact value. *)
Lemma round_nearest_even_shifted M n rec :
  shifted M n rec →
  let r := round_nearest_even (shr_m rec) (loc_of_shr_record rec) in
  shr_m rec ≤ r ≤ shr_m rec + 1
  ∧ 2 * r * 2 ^ n ≤ 2 * M + 2 ^ n
  ∧ (M = shr_m rec * 2 ^ n → r = shr_m rec).
Proof.
  destruct rec as [m r s]. intros (Hk & Hm & rem & HM & Hrem & Hloc).
  simpl in *. pose proof (Z.pow_pos_nonneg 2 n) as HP. set (P := 2 ^ n) in *.
  destruct r, s; simpl; try destruct (Z.even m); nia.
Qed.

(** The mantissa and the exponent of a float of the format. *)
Lemma bounded_inv (m : positive) (e : Z) :
  bounded prec emax m e = true →
  -1074 ≤ e ≤ 971
  ∧ Z.pos (digits2_pos m) ≤ 53
  ∧ (-1074 < e → Z.pos (digits2_pos m) = 53).
Proof.
  unfold bounded, canonical_mantissa, fexp, SpecFloat.emin, prec, emax.
  intros [Hc He]%andb_true_iff. apply Z.eqb_eq in Hc. apply Z.leb_le in He. lia.
Qed.

(** A mantissa that fits the format is kept as it is. *)
Lemma binary_round_aux_exact (m : positive) (e : Z) :
  fexp prec emax (Z.pos (digits2_pos m) + e) = e → e ≤ 971 →
  binary_round_aux prec emax false (Z.pos m) e loc_Exact = S754_finite false m e.
Proof.
  intros Hfexp He. unfold binary_round_aux, shr_fexp. simpl Zdigits2.
  rewrite Hfexp, Z.sub_diag. simpl. rewrite Hfexp, Z.sub_diag. simpl.
  change (emax - prec) with 971. by rewrite (proj2 (Z.leb_le e 971)).
Qed.

(** A mantissa of more than 53 bits is rounded to 53 bits. *)
Lemma binary_round_aux_round (m : positive) (e : Z) :
  let n := Z.pos (digits2_pos m) - 53 in
  -1074 ≤ e → 0 < n →
  ∃ (q : positive) (e' : Z),
    binary_round_aux prec emax false (Z.pos m) e loc_Exact
    = (if e' <=? 971 then S754_finite false q e' else S754_infinity false)
    ∧ e + n ≤ e'
    ∧ 2 * (Z.pos q * 2 ^ (e' - e)) ≤ 2 * Z.pos m + 2 ^ n
    ∧ (∀ X, Z.pos m ≤ X * 2 ^ n → Z.pos q * 2 ^ (e' - e) ≤ X * 2 ^ n)
    ∧ (e' = e + n ∨ e' = e + n + 1 ∧ q = 4503599627370496%positive).
Proof.
  intros n He Hn. pose proof (digits2_pos_bounds m) as [Hlo Hhi].
  unfold binary_round_aux, shr_fexp. simpl Zdigits2.
  assert (Hfexp : fexp prec emax (Z.pos (digits2_pos m) + e) - e = n).
  { unfold fexp, SpecFloat.emin, prec, emax. lia. }
  rewrite Hfexp. destruct n as [|p|p] eqn:Hp; try lia. simpl shr.
  pose proof (iter_pos_shifted (Z.pos m) p 0
                {| shr_m := Z.pos m; shr_r := false; shr_s := false |}) as Hsh.
  simpl shr_record_of_loc.
  set (rec := SpecFloat.iter_pos shr_1 p _) in *.
  assert (Hinit : shifted (Z.pos m) 0
                    {| shr_m := Z.pos m; shr_r := false; shr_s := false |}).
  { split; [lia|]. split; [simpl; lia|]. exists 0. simpl. lia. }
  specialize (Hsh Hinit). rewrite Z.add_0_l in Hsh.
  destruct (round_nearest_even_shifted _ _ _ Hsh) as (Hr & Hhalf & Hexact).
  destruct Hsh as (_ & Hm' & rem & HM & Hrem & _).
  set (r := round_nearest_even (shr_m rec) (loc_of_shr_record rec)) in *.
  set (m' := shr_m rec) in *.
  replace (Z.pos (digits2_pos m)) with (Z.pos p + 53) in Hlo, Hhi by lia.
  replace (Z.pos p + 53 - 1) with (Z.pos p + 52) in Hlo by lia.
  rewrite Z.pow_add_r in Hlo, Hhi by lia.
  pose proof (Z.pow_pos_nonneg 2 (Z.pos p)) as HP. set (P := 2 ^ Z.pos p) in *.
  change (2 ^ 52) with 4503599627370496 in Hlo.
  change (2 ^ 53) with 9007199254740992 in Hhi.
  assert (Hm'b : 4503599627370496 ≤ m' < 9007199254740992) by nia.
  destruct r as [|q|q] eqn:Hq; try lia.
  destruct (Z.eq_dec (Z.pos q) 9007199254740992) as [Htop|Hlow].
  - injection Htop as ->.
    change (Zdigits2 9007199254740992) with 54.
    replace (fexp prec emax (54 + (e + Z.pos p)) - (e + Z.pos p)) with 1
      by (unfold fexp, SpecFloat.emin, prec, emax; lia).
    simpl. change (emax - prec) with 971.
    exists 4503599627370496%positive, (e + Z.pos p + 1).
    split; [done|]. split; [lia|].
    replace (e + Z.pos p + 1 - e) with (Z.pos p + 1) by lia.
    rewrite Z.pow_add_r by lia. fold P. change (2 ^ 1) with 2.
    split; [lia|]. split; [|by right].
    intros X HX. assert (m' < X ∨ X ≤ m') as [?|?] by lia; [nia|].
    assert (Z.pos m = m' * P) by nia. specialize (Hexact ltac:(done)). lia.
  - assert (Hdig : Z.pos (digits2_pos q) = 53).
    { apply digits2_pos_unique. change (2 ^ (53 - 1)) with 4503599627370496.
      change (2 ^ 53) with 9007199254740992. lia. }
    simpl Zdigits2. rewrite Hdig.
    replace (fexp prec emax (53 + (e + Z.pos p)) - (e + Z.pos p)) with 0
      by (unfold fexp, SpecFloat.emin, prec, emax; lia).
    simpl. change (emax - prec) with 971.
    exists q, (e + Z.pos p).
    split; [done|]. split; [lia|].
    replace (e + Z.pos p - e) with (Z.pos p) by lia. fold P.
    split; [lia|]. split; [|by left].
    intros X HX. assert (m' < X ∨ X ≤ m') as [?|?] by lia; [nia|].
    assert (Z.pos m = m' * P) by nia. specialize (Hexact ltac:(done)). lia.
Qed.

(** Rounding a positive integer multiple [m * 2^e] of the smallest float
    that is at most the float [mx * 2^ex]: the result is a positive float,
    at most [mx * 2^ex], at most the exact value times [1 + 2^-53], and the
    exact value itself when [m] has at most 53 bits. *)
Lemma binary_round_units (m : positive) (e : Z) (mx : positive) (ex : Z) :
  -1074 ≤ e ≤ 971 →
  bounded prec emax mx ex = true →
  Z.pos m * 2 ^ (e + 1074) ≤ Z.pos mx * 2 ^ (ex + 1074) →
  ∃ (q : positive) (e' : Z),
    binary_round prec emax false m e = S754_finite false q e'
    ∧ Z.pos q * 2 ^ (e' + 1074) ≤ Z.pos mx * 2 ^ (ex + 1074)
    ∧ 2 ^ 53 * (Z.pos q * 2 ^ (e' + 1074))
      ≤ (2 ^ 53 + 1) * (Z.pos m * 2 ^ (e + 1074))
    ∧ (Z.pos (digits2_pos m) ≤ 53 →
       Z.pos q * 2 ^ (e' + 1074) = Z.pos m * 2 ^ (e + 1074)).
Proof.
  intros He (Hex & Hdx & _)%bounded_inv Hle.
  pose proof (digits2_pos_bounds m) as [Hlo Hhi].
  pose proof (digits2_pos_bounds mx) as [_ Hxhi].
  unfold binary_round.
  destruct (Z.le_gt_cases (Z.pos (digits2_pos m)) 53) as [Hdg|Hdg].
  - (* the mantissa fits *)
    set (t := fexp prec emax (Z.pos (digits2_pos m) + e)).
    assert (Ht : -1074 ≤ t ≤ e ∧ Z.pos (digits2_pos m) + e - 53 ≤ t)
      by (unfold t, fexp, SpecFloat.emin, prec, emax; lia).
    unfold shl_align. destruct (t - e) as [|d|d] eqn:Hd; try lia.
    + exists m, e. rewrite binary_round_aux_exact by (fold t; lia).
      split; [done|]. split; [done|]. split; [|done].
      change (2 ^ 53) with 9007199254740992.
      pose proof (Z.pow_pos_nonneg 2 (e + 1074)). nia.
    + assert (Hval : Z.pos (Pos.iter xO m d) * 2 ^ (t + 1074)
                     = Z.pos m * 2 ^ (e + 1074)).
      { rewrite iter_xO_pow, <- Z.mul_assoc, <- Z.pow_add_r by lia.
        f_equal. f_equal. lia. }
      assert (Hdig : Z.pos (digits2_pos (Pos.iter xO m d))
                     = Z.pos (digits2_pos m) + Z.pos d).
      { apply digits2_pos_unique. rewrite iter_xO_pow.
        replace (Z.pos (digits2_pos m) + Z.pos d - 1)
          with (Z.pos (digits2_pos m) - 1 + Z.pos d) by lia.
        rewrite !Z.pow_add_r by lia.
        pose proof (Z.pow_pos_nonneg 2 (Z.pos d)). nia. }
      exists (Pos.iter xO m d), t.
      rewrite binary_round_aux_exact; [|rewrite Hdig|lia].
      * rewrite Hval. split; [done|]. split; [done|]. split; [|done].
        change (2 ^ 53) with 9007199254740992.
        pose proof (Z.pow_pos_nonneg 2 (e + 1074)). nia.
      * unfold t, fexp, SpecFloat.emin, prec, emax in *. lia.
  - (* the mantissa is rounded to 53 bits *)
    set (n := Z.pos (digits2_pos m) - 53).
    assert (Hshl : shl_align m e (fexp prec emax (Z.pos (digits2_pos m) + e))
                   = (m, e)).
    { unfold shl_align.
      replace (fexp prec emax (Z.pos (digits2_pos m) + e) - e) with n
        by (unfold n, fexp, SpecFloat.emin, prec, emax; lia).
      destruct n eqn:Hn; done || lia. }
    rewrite Hshl.
    destruct (binary_round_aux_round m e)
      as (q & e' & -> & He' & Hhalf & Hmono & Hcase); [lia|lia|].
    fold n in He', Hhalf, Hmono, Hcase.
    pose proof (Z.pow_pos_nonneg 2 (e + 1074)) as HE. set (E := 2 ^ (e + 1074)) in *.
    pose proof (Z.pow_pos_nonneg 2 n) as HP. set (P := 2 ^ n) in *.
    (* the exponent of the rounded mantissa is at most that of the bound *)
    assert (Hen : e + n ≤ ex).
    { assert (2 ^ (Z.pos (digits2_pos m) - 1 + (e + 1074))
              < 2 ^ (53 + (ex + 1074))) as Hpow.
      { rewrite (Z.pow_add_r 2 _ (e + 1074)), (Z.pow_add_r 2 53 (ex + 1074))
          by lia.
        fold E.
        assert (Z.pos mx < 2 ^ 53).
        { eapply Z.lt_le_trans; [exact Hxhi|]. apply Z.pow_le_mono_r; lia. }
        pose proof (Z.pow_pos_nonneg 2 (ex + 1074)).
        assert (2 ^ (Z.pos (digits2_pos m) - 1) * E ≤ Z.pos m * E)
          by (apply Z.mul_le_mono_nonneg_r; lia).
        assert (Z.pos mx * 2 ^ (ex + 1074) < 2 ^ 53 * 2 ^ (ex + 1074))
          by (apply Z.mul_lt_mono_pos_r; lia).
        lia. }
      apply Z.pow_lt_mono_r_iff in Hpow; lia. }
    set (X := Z.pos mx * 2 ^ (ex - (e + n))).
    assert (HX : Z.pos mx * 2 ^ (ex + 1074) = X * P * E).
    { unfold X, P, E. rewrite <- !Z.mul_assoc, <- !Z.pow_add_r by lia.
      f_equal. f_equal. lia. }
    assert (HM : Z.pos m ≤ X * P) by nia.
    specialize (Hmono X HM).
    assert (Hv : Z.pos q * 2 ^ (e' + 1074) = Z.pos q * 2 ^ (e' - e) * E).
    { unfold E. rewrite <- !Z.mul_assoc, <- !Z.pow_add_r by lia.
      f_equal. f_equal. lia. }
    assert (He'x : e' ≤ ex).
    { destruct Hcase as [->|[-> ->]]; [done|].
      destruct (Z.eq_dec (e + n) ex) as [Heq|]; [|lia].
      exfalso. unfold X in Hmono. rewrite Heq, Z.sub_diag in Hmono.
      replace (ex + 1 - e) with (n + 1) in Hmono by lia.
      rewrite Z.pow_add_r in Hmono by lia. fold P in Hmono.
      assert (Z.pos mx < 2 ^ 53).
      { eapply Z.lt_le_trans; [exact Hxhi|]. apply Z.pow_le_mono_r; lia. }
      change (2 ^ 53) with 9007199254740992 in *. simpl in Hmono. nia. }
    exists q, e'. rewrite (proj2 (Z.leb_le e' 971)) by lia.
    split; [done|]. rewrite Hv, HX. split; [nia|]. split; [|lia].
    replace (Z.pos (digits2_pos m) - 1) with (n + 52) in Hlo by lia.
    rewrite Z.pow_add_r in Hlo by lia. fold P in Hlo.
    change (2 ^ 52) with 4503599627370496 in Hlo.
    change (2 ^ 53) with 9007199254740992.
    assert (9007199254740992 * (Z.pos q * 2 ^ (e' - e))
            ≤ (9007199254740992 + 1) * Z.pos m) by lia.
    nia.
Qed.

(** The alignment of a mantissa on a smaller exponent keeps the value. *)
Lemma shl_align_units (m : positive) (e ez : Z) :
  -1074 ≤ ez ≤ e →
  Z.pos (shl_align m e ez).1 * 2 ^ (ez + 1074) = Z.pos m * 2 ^ (e + 1074).
Proof.
  intros He. unfold shl_align. destruct (ez - e) as [|d|d] eqn:Hd; simpl; try lia.
  - by replace ez with e by lia.
  - rewrite iter_xO_pow, <- Z.mul_assoc, <- Z.pow_add_r by lia.
    f_equal. f_equal. lia.
Qed.

(** Subtracting a positive float from a larger one: the difference is an
    amount of hours, at most the minuend, and at most the exact difference
    times [1 + 2^-53]. *)
Lemma SFsub_units (mx : positive) (ex : Z) (my : positive) (ey : Z) :
  let x := S754_finite false mx ex in
  let y := S754_finite false my ey in
  valid_binary x = true → valid_binary y = true →
  SF_units y ≤ SF_units x →
  let r := SFsub prec emax x y in
  SF_hours r = true
  ∧ 0 ≤ SF_units r ≤ SF_units x
  ∧ 2 ^ 53 * SF_units r ≤ (2 ^ 53 + 1) * (SF_units x - SF_units y).
Proof.
  intros x y Hx Hy Hle. simpl in Hx, Hy, Hle.
  destruct (bounded_inv _ _ Hx) as (Hex & _), (bounded_inv _ _ Hy) as (Hey & _).
  unfold x, y. cbn [SFsub cond_Zopp SF_units].
  set (ez := Z.min ex ey).
  pose proof (shl_align_units mx ex ez ltac:(lia)) as Hmx.
  pose proof (shl_align_units my ey ez ltac:(lia)) as Hmy.
  pose proof (Z.pow_pos_nonneg 2 (ez + 1074)) as HE.
  rewrite <- Hmx, <- Hmy in Hle |- *.
  set (Mx := Z.pos (shl_align mx ex ez).1) in *.
  set (My := Z.pos (shl_align my ey ez).1) in *.
  change (2 ^ 53) with 9007199254740992.
  destruct (Mx - My) as [|m|m] eqn:Hdiff; simpl binary_normalize.
  - simpl. nia.
  - destruct (binary_round_units m ez mx ex) as (q & e' & -> & Hub & Hrel & _);
      [lia|done|rewrite <- Hmx; fold Mx; nia|].
    simpl. rewrite <- Hmx in Hub. fold Mx in Hub.
    change (2 ^ 53) with 9007199254740992 in Hrel.
    pose proof (Z.pow_pos_nonneg 2 (e' + 1074)).
    assert (He' : 0 ≤ Z.pos q * 2 ^ (e' + 1074)) by lia.
    split; [done|]. split; [lia|].
    replace (Mx * 2 ^ (ez + 1074) - My * 2 ^ (ez + 1074))
      with (Z.pos m * 2 ^ (ez + 1074)) by lia. done.
  - exfalso. nia.
Qed.

(** The order of floats is the order of their values. *)
Lemma SFcompare_units (x y : spec_float) :
  valid_binary x = true → valid_binary y = true →
  SF_hours x = true → SF_hours y = true →
  SFcompare x y = Some (SF_units x ?= SF_units y).
Proof.
  destruct x as [sx|sx| |[] mx ex], y as [sy|sy| |[] my ey]; try done;
    cbn [SFcompare SF_units valid_binary SF_hours].
  - intros _ Hy _ _. symmetry. f_equal. apply Z.compare_lt_iff.
    pose proof (Z.pow_pos_nonneg 2 (ey + 1074)).
    apply bounded_inv in Hy. nia.
  - intros Hx _ _ _. symmetry. f_equal. apply Z.compare_gt_iff.
    pose proof (Z.pow_pos_nonneg 2 (ex + 1074)).
    apply bounded_inv in Hx. nia.
  - intros (Hex & Hdx & Hnx)%bounded_inv (Hey & Hdy & Hny)%bounded_inv _ _.
    pose proof (digits2_pos_bounds mx) as [Hxlo Hxhi].
    pose proof (digits2_pos_bounds my) as [Hylo Hyhi].
    assert (Hlt : ∀ (m1 m2 : positive) e1 e2,
      -1074 ≤ e1 → e1 < e2 → Z.pos m1 < 2 ^ 53 → 2 ^ 52 ≤ Z.pos m2 →
      Z.pos m1 * 2 ^ (e1 + 1074) < Z.pos m2 * 2 ^ (e2 + 1074)).
    { intros m1 m2 e1 e2 He1 He12 Hm1 Hm2.
      replace (e2 + 1074) with (e2 - e1 + (e1 + 1074)) by lia.
      rewrite (Z.pow_add_r 2 (e2 - e1) (e1 + 1074)) by lia.
      pose proof (Z.pow_pos_nonneg 2 (e1 + 1074)).
      assert (2 ^ 1 ≤ 2 ^ (e2 - e1)) by (apply Z.pow_le_mono_r; lia).
      change (2 ^ 1) with 2 in *. change (2 ^ 53) with 9007199254740992 in *.
      change (2 ^ 52) with 4503599627370496 in *.
      assert (Z.pos m1 < Z.pos m2 * 2 ^ (e2 - e1)) by nia.
      rewrite Z.mul_assoc. apply Z.mul_lt_mono_pos_r; lia. }
    assert (Hm53 : ∀ m : positive, Z.pos (digits2_pos m) ≤ 53 → Z.pos m < 2 ^ 53).
    { intros m Hm. pose proof (digits2_pos_bounds m) as [_ Hhi].
      eapply Z.lt_le_trans; [exact Hhi|]. apply Z.pow_le_mono_r; lia. }
    assert (Hm52 : ∀ m : positive, Z.pos (digits2_pos m) = 53 → 2 ^ 52 ≤ Z.pos m).
    { intros m Hm. pose proof (digits2_pos_bounds m) as [Hlo _].
      by rewrite Hm in Hlo. }
    f_equal. symmetry. destruct (Z.compare_spec ex ey) as [->|Hc|Hc].
    + change (Pos.compare_cont Eq mx my) with (Z.pos mx ?= Z.pos my).
      pose proof (Z.pow_pos_nonneg 2 (ey + 1074)).
      destruct (Z.compare_spec (Z.pos mx) (Z.pos my)) as [->| |].
      * apply Z.compare_refl.
      * apply Z.compare_lt_iff. nia.
      * apply Z.compare_gt_iff. nia.
    + apply Z.compare_lt_iff. apply Hlt; auto with lia.
    + apply Z.compare_gt_iff. apply Hlt; auto with lia.
Qed.

(** The same facts on the primitive floats. *)
Lemma float_units_nonneg (x : float) : is_hours x = true → 0 ≤ float_units x.
Proof.
  unfold is_hours, float_units. destruct (Prim2SF x) as [| | |[] m e]; try done.
  intros _. simpl. pose proof (Z.pow_nonneg 2 (e + 1074)). nia.
Qed.

Lemma float_ltb_units (x y : float) :
  is_hours x = true → is_hours y = true →
  (x <? y)%float = (float_units x <? float_units y).
Proof.
  intros Hx Hy. rewrite ltb_spec. unfold SFltb.
  rewrite SFcompare_units by (done || apply Prim2SF_valid).
  unfold float_units, Z.ltb. by destruct (_ ?= _).
Qed.

Lemma float_positive_units (x : float) :
  is_hours x = true → (0 <? x)%float = (0 <? float_units x).
Proof. intros Hx. by rewrite float_ltb_units. Qed.

Lemma float_min3_units (a b c : float) :
  is_hours a = true → is_hours b = true → is_hours c = true →
  is_hours (float_min3 a b c) = true
  ∧ float_units (float_min3 a b c)
    = Z.min (float_units a) (Z.min (float_units b) (float_units c)).
Proof.
  intros Ha Hb Hc. unfold float_min3.
  set (m := if (b <? a)%float then b else a).
  assert (Hm : is_hours m = true ∧ float_units m = Z.min (float_units a) (float_units b)).
  { unfold m. rewrite float_ltb_units by done.
    destruct (Z.ltb_spec (float_units b) (float_units a)); split; done || lia. }
  destruct Hm as [Hm Hum]. rewrite float_ltb_units by done.
  destruct (Z.ltb_spec (float_units c) (float_units m)); split; done || lia.
Qed.

Lemma float_sub_units (x y : float) :
  is_hours x = true → is_hours y = true →
  0 < float_units y ≤ float_units x →
  is_hours (x - y) = true
  ∧ 0 ≤ float_units (x - y) ≤ float_units x
  ∧ 2 ^ 53 * float_units (x - y) ≤ (2 ^ 53 + 1) * (float_units x - float_units y).
Proof.
  unfold is_hours, float_units. rewrite sub_spec.
  pose proof (Prim2SF_valid x) as Hvx. pose proof (Prim2SF_valid y) as Hvy.
  destruct (Prim2SF x) as [| | |[] mx ex]; try done; simpl; try lia.
  destruct (Prim2SF y) as [| | |[] my ey]; try done; simpl; try lia.
  intros _ _ [_ Hle]. by apply SFsub_units.
Qed.

(** The float of an integer below [2^53] is that integer. *)
Lemma float_of_Z_units (n : Z) :
  0 ≤ n < 2 ^ 53 →
  is_hours (float_of_Z n) = true ∧ float_units (float_of_Z n) = n * hour.
Proof.
  intros Hn. unfold float_of_Z, is_hours, float_units.
  rewrite (proj2 (Z.ltb_ge n 0)) by lia.
  rewrite of_uint63_spec, Uint63.of_Z_spec.
  change (2 ^ 53) with 9007199254740992 in Hn.
  rewrite Z.mod_small by (change Uint63.wB with 9223372036854775808; lia).
  destruct n as [|m|m]; [done| |lia]. simpl binary_normalize.
  destruct (binary_round_units m 0 4503599627370496 1) as (q & e' & -> & _ & _ & Hexact);
    [lia|done| |].
  - change (2 ^ (0 + 1074)) with hour.
    change (4503599627370496 * 2 ^ (1 + 1074)) with (2 ^ 53 * hour).
    assert (0 < hour) by done. nia.
  - split; [done|]. simpl. apply Hexact.
    pose proof (digits2_pos_bounds m) as [Hlo _].
    assert (Z.pos (digits2_pos m) - 1 < 53); [|lia].
    apply (Z.pow_lt_mono_r_iff 2); lia.
Qed.

(** ** Hours in binary floating point *)

(** The operations of [binary64] on amounts of hours, in units. *)

Lemma one_hour_units : is_hours 1 = true ∧ float_units 1 = hour.
Proof. split; vm_compute; reflexivity. Qed.

Lemma hour_pos : 0 < hour.
Proof. done. Qed.

Lemma of_int_units (n : Z) :
  0 ≤ n < 2 ^ 53 →
  is_hours (of_int n) = true ∧ float_units (of_int n) = n * hour.
Proof. apply float_of_Z_units. Qed.

(** An allocation [min(1.0, owed, remaining)] that passes the two tests. *)
Lemma allocated_units (owed remaining : float) :
  is_hours owed = true → is_hours remaining = true →
  is_positive (min3 one_hour owed remaining) = true →
  is_hours (min3 one_hour owed remaining) = true
  ∧ 0 < float_units (min3 one_hour owed remaining) ≤ hour
  ∧ float_units (min3 one_hour owed remaining) ≤ float_units owed
  ∧ float_units (min3 one_hour owed remaining) ≤ float_units remaining.
Proof.
  intros Howed Hrem. cbn [is_positive min3 one_hour binary64].
  destruct one_hour_units as [Hone Hunits].
  destruct (float_min3_units 1 owed remaining) as [Hmin Heq]; [done..|].
  rewrite float_positive_units, Heq, Hunits by done.
  intros Hpos%Z.ltb_lt. split; [done|]. lia.
Qed.

(** What is left after an allocation: at most what there was, and the
    rounding of the subtraction adds at most [2^-53] of it to the exact
    difference. *)
Lemma minus_units (x allocated : float) :
  is_hours x = true → is_hours allocated = true →
  0 < float_units allocated ≤ float_units x →
  is_hours (minus x allocated) = true
  ∧ 0 ≤ float_units (minus x allocated) ≤ float_units x
  ∧ (2 ^ 53 + 1) * (float_units allocated + float_units (minus x allocated))
    ≤ (2 ^ 53 + 1) * float_units x + float_units (minus x allocated).
Proof.
  intros Hx Ha Hle. cbn [minus binary64].
  destruct (float_sub_units x allocated Hx Ha Hle) as (Hok & Hbound & Hrel).
  split; [done|]. split; [done|].
  change (2 ^ 53) with 9007199254740992 in *. lia.
Qed.

Lemma owed_units_nonneg (hps : gmap string float) (subject : string) :
  hours_map hps → 0 ≤ owed_units hps subject.
Proof.
  intros Hmap. unfold owed_units.
  destruct (hps !! subject) as [owed|] eqn:Hs; simpl; [|done].
  apply float_units_nonneg. by apply (Hmap subject).
Qed.

(** The allocations of one day: what remains of the day only decreases, and
    the allocations and what remains sum to at most the daily hours plus
    [2^-53] of them, nearly, for each allocation. *)
Lemma allocations_units (hps : gmap string float) remaining new hps' remaining' :
  allocations hps remaining new hps' remaining' →
  hours_map hps → is_hours remaining = true →
  hours_map hps' ∧ is_hours remaining' = true
  ∧ float_units remaining' ≤ float_units remaining
  ∧ (2 ^ 53 + 1) * (units_sum new + float_units remaining')
    ≤ (2 ^ 53 + 1 + Z.of_nat (length new)) * float_units remaining.
Proof.
  induction 1 as [|hps remaining s owed a rest hps' remaining' Hs Howed -> Ha _ IH];
    intros Hmap Hrem.
  - simpl. repeat split; done || lia.
  - pose proof (Hmap s owed Hs) as Hok. simpl in Hok.
    destruct (allocated_units owed remaining Hok Hrem Ha) as (Haok & Hapos & Hao & Har).
    destruct (minus_units owed _ Hok Haok ltac:(lia)) as (Hok' & _ & _).
    destruct (minus_units remaining _ Hrem Haok ltac:(lia)) as (Hrem' & Hdec & Hstep).
    destruct IH as (Hmap' & Hrem'' & Hle & Hsum);
      [by apply map_Forall_insert_2|done|].
    split; [done|]. split; [done|]. split; [lia|].
    cbn [units_sum foldr length snd]. fold (units_sum rest).
    pose proof (float_units_nonneg _ Hrem').
    change (2 ^ 53) with 9007199254740992 in *. nia.
Qed.

Lemma tasks_for_cons label (t : string * float) tasks :
  tasks_for label (t :: tasks)
  = if decide (t.1 = label) then t :: tasks_for label tasks
    else tasks_for label tasks.
Proof. unfold tasks_for. by rewrite filter_cons. Qed.

(** The same for the hours a subject is owed. *)
Lemma allocations_owed_units (hps : gmap string float) remaining new hps' remaining'
    label :
  allocations hps remaining new hps' remaining' →
  hours_map hps → is_hours remaining = true →
  owed_units hps' label ≤ owed_units hps label
  ∧ (2 ^ 53 + 1) * (units_sum (tasks_for label new) + owed_units hps' label)
    ≤ (2 ^ 53 + 1 + Z.of_nat (length (tasks_for label new))) * owed_units hps label
  ∧ units_sum (tasks_for label new) ≤ Z.of_nat (length (tasks_for label new)) * hour.
Proof.
  induction 1 as [|hps remaining s owed a rest hps' remaining' Hs Howed -> Ha _ IH];
    intros Hmap Hrem.
  - simpl. repeat split; lia.
  - pose proof (Hmap s owed Hs) as Hok. simpl in Hok.
    destruct (allocated_units owed remaining Hok Hrem Ha) as (Haok & Hapos & Hao & Har).
    destruct (minus_units owed _ Hok Haok ltac:(lia)) as (Hok' & Hdec & Hstep).
    destruct (minus_units remaining _ Hrem Haok ltac:(lia)) as (Hrem' & _ & _).
    assert (Hmap' : hours_map (<[s := minus owed (min3 one_hour owed remaining)]> hps))
      by by apply map_Forall_insert_2.
    destruct (IH Hmap' Hrem') as (Hle & Hsum & Hcount).
    pose proof (owed_units_nonneg _ label Hmap') as Hnonneg.
    rewrite tasks_for_cons. simpl. destruct (decide (s = label)) as [->|Hne].
    + unfold owed_units in Hle, Hsum, Hnonneg |- *.
      rewrite Hs. rewrite lookup_insert_eq in Hle, Hsum, Hnonneg. simpl in *.
      fold (units_sum (tasks_for label rest)).
      pose proof hour_pos.
      change (2 ^ 53) with 9007199254740992 in *.
      split; [lia|]. split; nia.
    + unfold owed_units in Hle, Hsum |- *.
      rewrite lookup_insert_ne in Hle, Hsum by done. done.
Qed.

(** A day allocates at most one task for each subject of the list. *)
Lemma for_subjects_length {num : Type} `{!Hours num} subjects
    (today_plan : list (string * num)) hps remaining today_plan' hps' remaining' :
  for_subjects subjects (today_plan, hps, remaining)
  = Ok (today_plan', hps', remaining') →
  (length today_plan' ≤ length today_plan + length subjects)%nat.
Proof.
  revert today_plan hps remaining.
  induction subjects as [|s rest IH]; intros today_plan hps remaining; simpl.
  - intros [= <- _ _]. lia.
  - unfold dict_get. destruct (hps !! s) as [owed|]; simpl; [|done].
    destruct (is_positive owed); simpl; [|by intros ?%IH; lia].
    destruct (is_positive (min3 one_hour owed remaining)); simpl;
      [|by intros ?%IH; lia].
    intros Hlen%IH. rewrite length_app in Hlen. simpl in Hlen. lia.
Qed.

Lemma tasks_for_length label (tasks : list (string * float)) :
  (length (tasks_for label tasks) ≤ length tasks)%nat.
Proof. apply length_filter. Qed.

(** The plans of all the days: the hours of a subject sum to at most the
    hours it is owed at the start plus [2^-53] of them, nearly, for each of
    its tasks, and each task is at most one hour. *)
Lemma day_plans_units subjects available_hours n (hps : gmap string float) label :
  0 ≤ available_hours < 2 ^ 53 → hours_map hps →
  (2 ^ 53 + 1) * units_total_for label (day_plans subjects available_hours n hps)
  ≤ (2 ^ 53 + 1 + count_for label (day_plans subjects available_hours n hps))
    * owed_units hps label
  ∧ units_total_for label (day_plans subjects available_hours n hps)
    ≤ count_for label (day_plans subjects available_hours n hps) * hour
  ∧ 0 ≤ count_for label (day_plans subjects available_hours n hps)
      ≤ Z.of_nat n * Z.of_nat (length subjects).
Proof.
  intros Hhours. destruct (of_int_units available_hours Hhours) as [Hday _].
  revert hps. induction n as [|n IH]; intros hps Hmap.
  { simpl. pose proof (owed_units_nonneg _ label Hmap). lia. }
  cbn [day_plans].
  destruct (plan_day subjects available_hours hps) as [[[p hps'] remaining']|e]
    eqn:Hplan.
  2:{ simpl. pose proof (owed_units_nonneg _ label Hmap). lia. }
  pose proof (for_subjects_length _ _ _ _ _ _ _ Hplan) as Hlen.
  pose proof (tasks_for_length label p) as Hfor. simpl in Hlen.
  apply plan_day_allocations in Hplan.
  destruct (allocations_units _ _ _ _ _ Hplan Hmap Hday) as (Hmap' & _).
  destruct (allocations_owed_units _ _ _ _ _ label Hplan Hmap Hday)
    as (Hle & Hsum & Hcount).
  destruct (IH hps' Hmap') as (IHsum & IHcount & IHn).
  pose proof (owed_units_nonneg _ label Hmap').
  cbn [units_total_for count_for foldr].
  fold (units_total_for label (day_plans subjects available_hours n hps')).
  fold (count_for label (day_plans subjects available_hours n hps')).
  set (H' := units_total_for _ _) in *. set (K' := count_for _ _) in *.
  change (2 ^ 53) with 9007199254740992 in *.
  split; [nia|]. split; [lia|]. nia.
Qed.

Lemma day_plans_allocations_hours subjects available_hours n
    (hps : gmap string float) p :
  0 ≤ available_hours < 2 ^ 53 → hours_map hps →
  p ∈ day_plans subjects available_hours n hps →
  (length p ≤ length subjects)%nat
  ∧ ∃ hps0 hps' remaining',
      hours_map hps0
      ∧ allocations hps0 (of_int available_hours) p hps' remaining'.
Proof.
  intros Hhours. destruct (of_int_units available_hours Hhours) as [Hday _].
  revert hps. induction n as [|n IH]; intros hps Hmap; simpl;
    [by intros ?%elem_of_nil|].
  destruct (plan_day subjects available_hours hps) as [[[p0 hps'] remaining']|e]
    eqn:Hplan; [|by intros ?%elem_of_nil].
  pose proof (for_subjects_length _ _ _ _ _ _ _ Hplan) as Hlen. simpl in Hlen.
  apply plan_day_allocations in Hplan.
  destruct (allocations_units _ _ _ _ _ Hplan Hmap Hday) as (Hmap' & _).
  intros [->|Hin]%elem_of_cons; [by eauto 10|by eapply IH].
Qed.

(** ** The budgets are amounts of hours *)

Lemma round_half_even_nonneg (x : Q) : (0 <= x)%Q → 0 ≤ round_half_even x.
Proof.
  destruct x as [a b]. unfold Qle, round_half_even. simpl. intros Ha.
  assert (0 ≤ a / Z.pos b) by (apply Z.div_pos; lia).
  destruct (2 * (a mod Z.pos b) ?= Z.pos b); [destruct (Z.even _)| |]; lia.
Qed.

Lemma SF_below_hours k x : SF_below k x = true → SF_hours x = true.
Proof. by destruct x as [| | |[] m e]. Qed.

Lemma Zdigits2_bounds (m : Z) : 0 ≤ m → 0 ≤ Zdigits2 m ∧ m < 2 ^ Zdigits2 m.
Proof.
  destruct m as [|p|p]; [done| |lia]. intros _. simpl.
  pose proof (digits2_pos_bounds p). lia.
Qed.

Lemma Zdigits2_le (m k : Z) : 0 ≤ m < 2 ^ k → 0 ≤ k → Zdigits2 m ≤ k.
Proof.
  destruct m as [|p|p]; [done| |lia]. intros [_ Hlt] Hk. simpl.
  pose proof (digits2_pos_bounds p) as [Hlo _].
  assert (Z.pos (digits2_pos p) - 1 < k); [|lia].
  apply (Z.pow_lt_mono_r_iff 2); lia.
Qed.

Lemma div_pow2_lt (m a n : Z) :
  0 ≤ m < 2 ^ a → 0 ≤ a → 0 ≤ n → 0 ≤ m / 2 ^ n < 2 ^ Z.max (a - n) 0.
Proof.
  intros [Hm Hlt] Ha Hn. pose proof (Z.pow_pos_nonneg 2 n).
  split; [apply Z.div_pos; lia|].
  destruct (Z.le_gt_cases n a) as [Hle|Hgt].
  - rewrite Z.max_l by lia. apply Z.div_lt_upper_bound; [lia|].
    rewrite <- Z.pow_add_r by lia. by replace (n + (a - n)) with a by lia.
  - rewrite Z.max_r by lia. rewrite Z.div_small; [done|].
    split; [done|]. eapply Z.lt_le_trans; [exact Hlt|].
    apply Z.pow_le_mono_r; lia.
Qed.

Lemma shr_1_m (rec : shr_record) : 0 ≤ shr_m rec → shr_m (shr_1 rec) = shr_m rec / 2.
Proof.
  destruct rec as [[|[p|p|]|p] r s]; cbn [shr_1 shr_m]; try done; try lia; intros _.
  - apply (Z.div_unique (Z.pos p~1) 2 (Z.pos p) 1); lia.
  - apply (Z.div_unique (Z.pos p~0) 2 (Z.pos p) 0); lia.
Qed.

Lemma iter_pos_shr_m (p : positive) (rec : shr_record) :
  0 ≤ shr_m rec →
  shr_m (SpecFloat.iter_pos shr_1 p rec) = shr_m rec / 2 ^ Z.pos p.
Proof.
  assert (Hstep : ∀ rec, 0 ≤ shr_m rec → 0 ≤ shr_m (shr_1 rec)).
  { intros rec' Hm. rewrite shr_1_m by done. apply Z.div_pos; lia. }
  revert rec. induction p as [p IH|p IH|]; intros rec Hm; simpl.
  - assert (0 ≤ shr_m (SpecFloat.iter_pos shr_1 p (shr_1 rec))) as Hm'.
    { rewrite IH by auto. apply Z.div_pos; [auto|]. by apply Z.pow_pos_nonneg. }
    rewrite IH, IH, shr_1_m by auto.
    pose proof (Z.pow_pos_nonneg 2 (Z.pos p)).
    rewrite !Z.div_div by lia. f_equal.
    change (Z.pos p~1) with (2 * Z.pos p + 1).
    rewrite Z.pow_add_r, Z.mul_comm, <- Z.add_diag, Z.pow_add_r by lia. lia.
  - assert (0 ≤ shr_m (SpecFloat.iter_pos shr_1 p rec)) as Hm'.
    { rewrite IH by auto. apply Z.div_pos; [auto|]. by apply Z.pow_pos_nonneg. }
    rewrite IH, IH by auto.
    pose proof (Z.pow_pos_nonneg 2 (Z.pos p)).
    rewrite Z.div_div by lia. f_equal.
    change (Z.pos p~0) with (2 * Z.pos p).
    rewrite <- Z.add_diag, Z.pow_add_r by lia. lia.
  - by apply shr_1_m.
Qed.

Lemma shr_m_div (rec : shr_record) (e n : Z) :
  0 ≤ shr_m rec →
  shr_m (shr rec e n).1 = shr_m rec / 2 ^ Z.max 0 n
  ∧ (shr rec e n).2 = e + Z.max 0 n.
Proof.
  intros Hm. destruct n as [|p|p]; simpl.
  - rewrite Z.div_1_r. split; [done|lia].
  - rewrite iter_pos_shr_m by done. done.
  - rewrite Z.div_1_r. split; [done|lia].
Qed.

Lemma round_nearest_even_bounds (m : Z) (l : location) :
  m ≤ round_nearest_even m l ≤ m + 1.
Proof. destruct l as [|[]]; simpl; try destruct (Z.even m); lia. Qed.

Lemma shr_record_of_loc_m (m : Z) (l : location) : shr_m (shr_record_of_loc m l) = m.
Proof. by destruct l as [|[]]. Qed.

(** Rounding a mantissa that is not negative, whatever lies below its last
    bit: below [2^1023] the result is an amount of hours, at most one binade
    above the mantissa. *)
Lemma binary_round_aux_below (mz e : Z) (l : location) (k : Z) :
  0 ≤ mz → Zdigits2 mz + e ≤ k → e ≤ 970 → -1074 ≤ k ≤ 1023 →
  SF_below (k + 1) (binary_round_aux prec emax false mz e l) = true.
Proof.
  intros Hmz Hk He Hkb. unfold binary_round_aux, shr_fexp.
  destruct (Zdigits2_bounds mz Hmz) as [Hdg Hlt].
  set (n1 := fexp prec emax (Zdigits2 mz + e) - e).
  destruct (shr_m_div (shr_record_of_loc mz l) e n1) as [Hm1 He1];
    [by rewrite shr_record_of_loc_m|].
  rewrite shr_record_of_loc_m in Hm1.
  destruct (shr (shr_record_of_loc mz l) e n1) as [rec1 e1]. simpl in Hm1, He1.
  pose proof (round_nearest_even_bounds (shr_m rec1) (loc_of_shr_record rec1)) as Hr.
  set (mr := round_nearest_even (shr_m rec1) (loc_of_shr_record rec1)) in *.
  destruct (div_pow2_lt mz (Zdigits2 mz) (Z.max 0 n1)) as [Hm1lo Hm1hi]; [lia..|].
  rewrite <- Hm1 in Hm1lo, Hm1hi.
  set (A := Z.max (Zdigits2 mz - Z.max 0 n1) 0) in *.
  assert (Hmr : 0 ≤ mr < 2 ^ (A + 1)).
  { rewrite Z.pow_add_r by lia. change (2 ^ 1) with 2. lia. }
  pose proof (Zdigits2_le mr (A + 1) Hmr ltac:(lia)) as Hdmr.
  destruct (Zdigits2_bounds mr ltac:(lia)) as [Hdg' Hlt'].
  set (n2 := fexp prec emax (Zdigits2 mr + e1) - e1).
  destruct (shr_m_div (shr_record_of_loc mr loc_Exact) e1 n2) as [Hm2 He2];
    [simpl; lia|].
  destruct (shr (shr_record_of_loc mr loc_Exact) e1 n2) as [rec2 e2].
  simpl in Hm2, He2.
  destruct (div_pow2_lt mr (Zdigits2 mr) (Z.max 0 n2)) as [Hm2lo Hm2hi]; [lia..|].
  rewrite <- Hm2 in Hm2lo, Hm2hi.
  unfold fexp, SpecFloat.emin, prec, emax in n1, n2.
  destruct (shr_m rec2) as [|p|p] eqn:Hp; [done| |lia].
  pose proof (Zdigits2_le (Z.pos p) _ (conj Hm2lo Hm2hi) ltac:(lia)) as Hdp.
  simpl in Hdp. change (emax - prec) with 971.
  assert (Z.max (Zdigits2 mr - Z.max 0 n2) 0 ≠ 0).
  { intros Hzero. rewrite Hzero in Hm2hi. simpl in Hm2hi. lia. }
  rewrite (proj2 (Z.leb_le e2 971)) by (unfold A in *; lia).
  simpl. apply Z.leb_le. unfold A in *. lia.
Qed.

Lemma SFdiv_below (x : spec_float) (my : positive) (ey k : Z) :
  SF_below k x = true → -52 ≤ ey → -1074 ≤ k ≤ 919 →
  SF_below (k + 53) (SFdiv prec emax x (S754_finite false my ey)) = true.
Proof.
  destruct x as [sx| | |[] mx ex]; try done. simpl SF_below.
  intros Hx%Z.leb_le Hey Hk. unfold SFdiv, SFdiv_core_binary.
  set (e' := Z.min _ _). set (s := ex - ey - e').
  set (m' := match s with Z.pos _ => Z.shiftl (Z.pos mx) s | 0 => Z.pos mx | _ => 0 end).
  pose proof (digits2_pos_bounds mx) as [_ Hmx].
  assert (Hs : 0 ≤ s) by (unfold s, e'; lia).
  assert (Hm' : 0 ≤ m' < 2 ^ (Z.pos (digits2_pos mx) + s)).
  { unfold m'. destruct s as [|p|p] eqn:Hp; [by rewrite Z.add_0_r| |lia].
    rewrite Z.shiftl_mul_pow2, Z.pow_add_r by lia.
    pose proof (Z.pow_pos_nonneg 2 (Z.pos p)). nia. }
  destruct (Z.div_eucl m' (Z.pos my)) as [q r] eqn:Hdiv.
  assert (Hq : q = m' / Z.pos my) by (unfold Z.div; by rewrite Hdiv).
  assert (Hqb : 0 ≤ q ≤ m').
  { rewrite Hq. split; [apply Z.div_pos; lia|].
    apply Z.div_le_upper_bound; [lia|nia]. }
  pose proof (Zdigits2_le q (Z.pos (digits2_pos mx) + s) ltac:(lia) ltac:(lia)).
  replace (k + 53) with (k + 52 + 1) by lia. simpl xorb.
  apply binary_round_aux_below; unfold s, e' in *; lia.
Qed.

Lemma SFmul_below (x y : spec_float) (kx ky : Z) :
  SF_below kx x = true → SF_below ky y = true →
  -1074 ≤ kx + ky ≤ 972 →
  SF_below (kx + ky + 1) (SFmul prec emax x y) = true.
Proof.
  destruct x as [sx| | |[] mx ex], y as [sy| | |[] my ey]; try done.
  simpl SF_below. intros Hx%Z.leb_le Hy%Z.leb_le Hk. unfold SFmul. simpl xorb.
  pose proof (digits2_pos_bounds mx) as [_ Hmx].
  pose proof (digits2_pos_bounds my) as [_ Hmy].
  assert (Hd : Zdigits2 (Z.pos (mx * my))
               ≤ Z.pos (digits2_pos mx) + Z.pos (digits2_pos my)).
  { apply Zdigits2_le; [|lia]. rewrite Pos2Z.inj_mul, Z.pow_add_r by lia. nia. }
  apply binary_round_aux_below; lia.
Qed.

Lemma units_below (m : positive) (e k : Z) :
  -1074 ≤ e → Z.pos m * 2 ^ (e + 1074) ≤ 2 ^ (k + 1074) →
  Z.pos (digits2_pos m) + e ≤ k + 1.
Proof.
  intros He Hle. pose proof (digits2_pos_bounds m) as [Hlo _].
  assert (0 ≤ k + 1074).
  { destruct (Z.le_gt_cases 0 (k + 1074)); [done|].
    rewrite (Z.pow_neg_r 2 (k + 1074)) in Hle by lia.
    pose proof (Z.pow_pos_nonneg 2 (e + 1074)). nia. }
  assert (2 ^ (Z.pos (digits2_pos m) - 1 + (e + 1074)) < 2 ^ (k + 1074 + 1)) as Hpow.
  { rewrite (Z.pow_add_r 2 _ (e + 1074)) by lia.
    rewrite (Z.pow_add_r 2 (k + 1074) 1) by lia. change (2 ^ 1) with 2.
    pose proof (Z.pow_pos_nonneg 2 (e + 1074)).
    pose proof (Z.pow_pos_nonneg 2 (k + 1074)).
    assert (2 ^ (Z.pos (digits2_pos m) - 1) * 2 ^ (e + 1074)
            ≤ Z.pos m * 2 ^ (e + 1074))
      by (apply Z.mul_le_mono_nonneg_r; lia).
    lia. }
  apply Z.pow_lt_mono_r_iff in Hpow; lia.
Qed.

(** The float of an integer that is not negative is an amount of hours. *)
Lemma float_of_Z_below (n : Z) :
  0 ≤ n → SF_below 64 (Prim2SF (float_of_Z n)) = true.
Proof.
  intros Hn. unfold float_of_Z. rewrite (proj2 (Z.ltb_ge n 0)) by lia.
  pose proof (Prim2SF_valid (of_uint63 (Uint63.of_Z n))) as Hvalid.
  rewrite of_uint63_spec, Uint63.of_Z_spec in Hvalid |- *.
  pose proof (Z.mod_pos_bound n Uint63.wB ltac:(done)) as Hmod.
  change Uint63.wB with 9223372036854775808 in *.
  destruct (n mod 9223372036854775808) as [|m|m]; [done| |lia].
  simpl binary_normalize in *.
  destruct (binary_round_units m 0 4503599627370496 11) as (q & e' & Hq & Hle & _);
    [lia|done| |].
  - change (2 ^ (0 + 1074)) with hour.
    change (4503599627370496 * 2 ^ (11 + 1074)) with (9223372036854775808 * hour).
    pose proof hour_pos. nia.
  - rewrite Hq in Hvalid |- *. apply bounded_inv in Hvalid as (He' & _).
    simpl. apply Z.leb_le.
    change (4503599627370496 * 2 ^ (11 + 1074)) with (2 ^ (63 + 1074)) in Hle.
    pose proof (units_below q e' 63). lia.
Qed.

(** A float that is at least one hour has an exponent of at least [-52]. *)
Lemma hour_exponent (m : positive) (e : Z) :
  bounded prec emax m e = true → hour ≤ Z.pos m * 2 ^ (e + 1074) → -52 ≤ e.
Proof.
  intros (He & Hd & _)%bounded_inv Hle.
  pose proof (digits2_pos_bounds m) as [_ Hhi].
  assert (Z.pos m < 2 ^ 53).
  { eapply Z.lt_le_trans; [exact Hhi|]. apply Z.pow_le_mono_r; lia. }
  assert (2 ^ 1074 < 2 ^ (53 + (e + 1074))) as Hpow.
  { rewrite Z.pow_add_r by lia. pose proof (Z.pow_pos_nonneg 2 (e + 1074)).
    unfold hour in Hle.
    assert (Z.pos m * 2 ^ (e + 1074) < 2 ^ 53 * 2 ^ (e + 1074))
      by (apply Z.mul_lt_mono_pos_r; lia).
    lia. }
  apply Z.pow_lt_mono_r_iff in Hpow; lia.
Qed.

Lemma float_div_below (x y : float) (k : Z) :
  SF_below k (Prim2SF x) = true →
  is_hours y = true → hour ≤ float_units y → -1074 ≤ k ≤ 919 →
  SF_below (k + 53) (Prim2SF (x / y)) = true.
Proof.
  intros Hx Hy Hle Hk. rewrite div_spec. unfold is_hours, float_units in Hy, Hle.
  pose proof (Prim2SF_valid y) as Hvalid. pose proof hour_pos.
  destruct (Prim2SF y) as [| | |[] my ey]; try done; simpl in Hle; try lia.
  apply SFdiv_below; [done| |done]. by eapply hour_exponent.
Qed.

Lemma float_round1_hours (x : float) :
  is_hours x = true → is_hours (float_round1 x) = true.
Proof.
  unfold is_hours, float_round1. intros Hx.
  destruct (Prim2SF x) as [| | |[] m e] eqn:HSF; try done; try by rewrite HSF.
  destruct (0 <=? e); [by rewrite HSF|].
  eapply SF_below_hours. apply (float_div_below _ 10 64); [|done| |lia].
  - apply float_of_Z_below, round_half_even_nonneg.
    apply Qmult_le_0_compat; [|done].
    unfold float_value, float_units, Qle. rewrite abs_spec, HSF. simpl.
    pose proof (Z.pow_nonneg 2 (e + 1074)). nia.
  - by vm_compute.
Qed.

(** Every budget is an amount of hours. *)
Lemma budget_hours (d w tah : Z) :
  0 ≤ d → 0 < w < 2 ^ 53 → 0 ≤ tah →
  is_hours (budget d w tah) = true.
Proof.
  intros Hd Hw Htah. cbn [budget binary64]. apply float_round1_hours.
  unfold is_hours. eapply SF_below_hours. rewrite mul_spec.
  apply (SFmul_below _ _ 117 64); [|by apply float_of_Z_below|lia].
  destruct (float_of_Z_units w) as [Hok Hunits]; [lia|].
  apply (float_div_below _ _ 64); [by apply float_of_Z_below|done| |lia].
  rewrite Hunits. pose proof hour_pos. nia.
Qed.

Lemma dict_comprehension_hours difficulty w tah subjects
    (acc hps : gmap string float) :
  map_Forall (λ _ v, 0 ≤ v) difficulty → 0 < w < 2 ^ 53 → 0 ≤ tah →
  dict_comprehension difficulty w tah subjects acc = Ok hps →
  hours_map acc → hours_map hps.
Proof.
  intros Hpos Hw Htah. revert acc.
  induction subjects as [|s rest IH]; intros acc; simpl; [by intros [= <-]|].
  unfold subject_budget, dict_get.
  destruct (difficulty !! s) as [d|] eqn:Hd; simpl; [|done].
  destruct (Z.eqb_spec w 0); simpl; [done|].
  intros Hrest Hacc. apply (IH _ Hrest).
  apply map_Forall_insert_2; [|done]. apply budget_hours; [|done..].
  apply (Hpos s d Hd).
Qed.

(** ** Sums of exact values *)

Lemma Qplus_same_den (a b : Z) (p : positive) :
  ((a # p) + (b # p) == (a + b # p))%Q.
Proof. unfold Qeq, Qplus. simpl. rewrite Pos2Z.inj_mul. ring. Qed.

Lemma exact_sum_units (tasks : list (string * float)) :
  (exact_sum tasks == (units_sum tasks # 2 ^ 1074))%Q.
Proof.
  induction tasks as [|t rest IH]; simpl; [done|].
  rewrite IH. unfold float_value. apply Qplus_same_den.
Qed.

Lemma exact_total_for_units label (plans : list (list (string * float))) :
  (exact_total_for label plans == (units_total_for label plans # 2 ^ 1074))%Q.
Proof.
  induction plans as [|p rest IH]; simpl; [done|].
  rewrite IH, exact_sum_units. apply Qplus_same_den.
Qed.

Lemma Qle_tenth (a b : Z) (p : positive) :
  10 * a ≤ 10 * b + Z.pos p → (a # p <= (b # p) + (1 # 10))%Q.
Proof.
  intros Hle. unfold Qle, Qplus. simpl. rewrite Pos2Z.inj_mul. nia.
Qed.

Lemma sum_values_nonneg (difficulty : gmap string Z) :
  map_Forall (λ _ v, 0 ≤ v) difficulty →
  0 ≤ sum_values difficulty
  ∧ ∀ s d, difficulty !! s = Some d → d ≤ sum_values difficulty.
Proof.
  unfold sum_values.
  apply (map_fold_weak_ind (λ r (m : gmap string Z),
    map_Forall (λ _ v, 0 ≤ v) m → 0 ≤ r ∧ ∀ s d, m !! s = Some d → d ≤ r)).
  - intros _. split; [lia|]. intros s d. by rewrite lookup_empty.
  - intros k v m r Hk IH Hpos.
    apply map_Forall_insert in Hpos as [Hv Hm]; [|done].
    destruct (IH Hm) as [Hr Hle]. split; [lia|].
    intros s d. destruct (decide (k = s)) as [->|Hne].
    + rewrite lookup_insert_eq. intros [= <-]. lia.
    + rewrite lookup_insert_ne by done. intros Hd%Hle. lia.
Qed.

(** The budgets of a call are amounts of hours. *)
Lemma hours_per_subject_hours today subjects difficulty available_hours exam_date hps :
  map_Forall (λ _ v, 0 ≤ v) difficulty →
  sum_values difficulty < 2 ^ 53 →
  0 ≤ (exam_date - today) * available_hours →
  dict_comprehension difficulty
    (if sum_values difficulty =? 0 then 1 else sum_values difficulty)
    ((exam_date - today) * available_hours) subjects ∅ = Ok hps →
  hours_map hps.
Proof.
  intros Hpos Hsum Htah Hhps.
  destruct (sum_values_nonneg difficulty Hpos) as [Hnonneg _].
  eapply dict_comprehension_hours; [exact Hpos| |exact Htah|exact Hhps|].
  - change (2 ^ 53) with 9007199254740992 in *.
    destruct (Z.eqb_spec (sum_values difficulty) 0); lia.
  - apply map_Forall_empty.
Qed.

(** C3. With positive difficulties and [total_days > 0], the study hours
    allocated to a subject over all the days of the loop (the entries of its
    label in the successive [today_plan] lists, each stored under its date),
    summed exactly, never exceed its budget
    [round((difficulty[s] / total_weight) * total_available_hours, 1)], the
    float that line 42 computes, by more than 0.1 hour.  The daily hours are
    not negative, as the contract of the function requires; the integers are
    in the range where a float holds them exactly, and the loop body runs at
    most [2^24] times. *)
Theorem study_hours_within_budget
    today subjects difficulty available_hours exam_date s d :
  map_Forall (λ _ v, 0 < v) difficulty →
  difficulty !! s = Some d →
  sum_values difficulty < 2 ^ 53 →
  0 ≤ available_hours →
  today < exam_date →
  (exam_date - today) * available_hours < 2 ^ 49 →
  (exam_date - today) * Z.of_nat (length subjects) ≤ 2 ^ 24 →
  (exact_total_for s
     (study_plans today subjects difficulty available_hours exam_date)
   <= float_value (budget d (sum_values difficulty)
                     ((exam_date - today) * available_hours)) + (1 # 10))%Q.
Proof.
  intros Hpos Hd Hsum Hhours Hdays Htah Hloop.
  assert (Hnonneg : map_Forall (λ _ v, 0 ≤ v) difficulty).
  { eapply map_Forall_impl; [exact Hpos|]. simpl. lia. }
  destruct (sum_values_nonneg difficulty Hnonneg) as [_ Hle].
  pose proof (Hpos s d Hd) as Hdpos. simpl in Hdpos.
  pose proof (Hle s d Hd) as Hw.
  assert (Hrange : 0 ≤ available_hours < 2 ^ 53).
  { change (2 ^ 49) with 562949953421312 in Htah.
    change (2 ^ 53) with 9007199254740992. nia. }
  assert (Hbudget : is_hours (budget d (sum_values difficulty)
                                ((exam_date - today) * available_hours)) = true).
  { apply budget_hours; lia || nia. }
  pose proof (float_units_nonneg _ Hbudget) as Hunits.
  rewrite exact_total_for_units. apply Qle_tenth.
  change (Z.pos (2 ^ 1074)) with hour. pose proof hour_pos as Hhour.
  fold (float_units (budget d (sum_values difficulty)
                       ((exam_date - today) * available_hours))).
  set (B := float_units _) in *.
  pose proof (hours_per_subject_hours today subjects difficulty available_hours
                exam_date) as Hmap.
  unfold study_plans.
  destruct (Z.eqb_spec (sum_values difficulty) 0) as [|Hne]; [lia|].
  destruct (dict_comprehension _ _ _ _ _) as [hps|e] eqn:Hhps; [|simpl; lia].
  specialize (Hmap hps Hnonneg Hsum ltac:(nia) eq_refl).
  destruct (day_plans_units subjects available_hours
              (Z.to_nat (exam_date - today)) hps s Hrange Hmap)
    as (Htotal & Hcount & Hlen).
  assert (Howed : 0 ≤ owed_units hps s ≤ B).
  { split; [by apply owed_units_nonneg|]. unfold owed_units.
    destruct (dict_comprehension_lookup _ _ _ _ _ _ s Hne Hhps) as [Hin Hout].
    destruct (decide (s ∈ subjects)) as [Hs|Hs].
    - destruct (Hin Hs) as (d' & Hd' & ->). rewrite Hd in Hd'.
      injection Hd' as <-. done.
    - by rewrite (Hout Hs), lookup_empty. }
  set (H := units_total_for _ _) in *. set (K := count_for _ _) in *.
  set (o := owed_units hps s) in *.
  rewrite Z2Nat.id in Hlen by lia.
  change (2 ^ 53) with 9007199254740992 in *.
  change (2 ^ 24) with 16777216 in *.
  destruct (Z.le_gt_cases (K * hour) o) as [Hbig|Hsmall]; [lia|].
  assert (K * K ≤ 16777216 * 16777216) by nia.
  assert (K * o ≤ K * K * hour) by nia.
  assert (9007199254740993 * (10 * H) ≤ 9007199254740993 * (10 * o + hour)) by nia.
  lia.
Qed.

(** The plan of a day is allocated from the hours owed at its start, and
    leaves the hours owed at the start of the next day. *)
Lemma day_owed_plan {num : Type} `{!Hours num} subjects available_hours n
    (hps : gmap string num) (d : nat) p :
  day_plans subjects available_hours n hps !! d = Some p →
  ∃ hps0 hps' remaining',
    day_owed subjects available_hours n hps !! d = Some hps0
    ∧ plan_day subjects available_hours hps0 = Ok (p, hps', remaining')
    ∧ ∀ hps'', day_owed subjects available_hours n hps !! S d = Some hps'' →
               hps'' = hps'.
Proof.
  revert hps d. induction n as [|n IH]; intros hps d; [done|].
  cbn [day_plans day_owed].
  destruct (plan_day subjects available_hours hps) as [[[p0 hps1] remaining1]|e]
    eqn:Hday; [|done].
  destruct d as [|d]; simpl.
  - intros [= ->]. exists hps, hps1, remaining1. split; [done|]. split; [done|].
    intros hps''. destruct n as [|n]; [done|]. simpl. by intros [= <-].
  - apply IH.
Qed.

Lemma day_owed_hours subjects available_hours n (hps : gmap string float)
    (d : nat) hps0 :
  0 ≤ available_hours < 2 ^ 53 → hours_map hps →
  day_owed subjects available_hours n hps !! d = Some hps0 → hours_map hps0.
Proof.
  intros Hhours. destruct (of_int_units available_hours Hhours) as [Hday _].
  revert hps d. induction n as [|n IH]; intros hps d Hmap; [done|].
  cbn [day_owed]. destruct d as [|d]; simpl; [by intros [= <-]|].
  destruct (plan_day subjects available_hours hps) as [[[p0 hps1] remaining1]|e]
    eqn:Hplan; [|done].
  apply plan_day_allocations in Hplan.
  destruct (allocations_units _ _ _ _ _ Hplan Hmap Hday) as (Hmap' & _).
  by apply IH.
Qed.

(** C4 (the sum of a day, with the rounding of the float subtractions).
    With difficulties and daily hours that are not negative and integers in
    the range where a float holds them exactly, the [k] study tasks
    allocated on a day index [d] of the loop ([today_plan], stored under
    [today + d] when it is not empty), summed exactly, are at most
    [dailyHours * (1 + k / (2^53 + 1))], with [k] at most the number of
    subjects; each of them is [min(1.0, owed, remaining)] for the hours its
    subject is still owed and the hours that remain in the day when it is
    allocated: the hours owed are those of [hours_per_subject] at the start
    of day [d], less what the day has allocated before, and what they leave
    is [hours_per_subject] at the start of day [d + 1]. *)
Theorem daily_allocation_within_daily_hours
    today subjects difficulty available_hours exam_date sched (d : nat) p :
  map_Forall (λ _ v, 0 ≤ v) difficulty →
  sum_values difficulty < 2 ^ 53 →
  0 ≤ available_hours →
  (exam_date - today) * available_hours < 2 ^ 49 →
  generate_schedule today subjects difficulty available_hours exam_date = Ok sched →
  study_plans today subjects difficulty available_hours exam_date !! d = Some p →
  (inject_Z (2 ^ 53 + 1) * exact_sum p
   <= inject_Z ((2 ^ 53 + 1 + Z.of_nat (length p)) * available_hours))%Q
  ∧ (length p ≤ length subjects)%nat
  ∧ (∃ hps hps' remaining',
       study_owed today subjects difficulty available_hours exam_date !! d
       = Some hps
       ∧ allocations hps (of_int available_hours) p hps' remaining'
       ∧ ∀ hps'',
           study_owed today subjects difficulty available_hours exam_date !! S d
           = Some hps'' →
           hps'' = hps')
  ∧ (p ≠ [] → sched !! (today + Z.of_nat d) = Some p).
Proof.
  intros Hnonneg Hsum Hhours Htah Hgen Hd.
  assert (Hrec : p ≠ [] → sched !! (today + Z.of_nat d) = Some p).
  { intros Hp. rewrite (generate_schedule_records _ _ _ _ _ _ Hgen (Z.of_nat d)).
    unfold expected_entry. rewrite (plan_on_lookup _ _ _ Hd). by destruct p. }
  pose proof (hours_per_subject_hours today subjects difficulty available_hours
                exam_date) as Hmap.
  unfold study_plans in Hd. unfold study_owed.
  destruct (dict_comprehension _ _ _ _ _) as [hps|e] eqn:Hhps; [|done].
  destruct (Z.to_nat (exam_date - today)) as [|n] eqn:Hn; [done|].
  rewrite <- Hn in *.
  assert (Hrange : 0 ≤ available_hours < 2 ^ 53).
  { change (2 ^ 49) with 562949953421312 in Htah.
    change (2 ^ 53) with 9007199254740992. nia. }
  specialize (Hmap hps Hnonneg Hsum ltac:(nia) eq_refl).
  destruct (day_owed_plan _ _ _ _ _ _ Hd) as (hps0 & hps' & remaining' & Hd0 & Hplan
                                              & Hnext).
  pose proof (day_owed_hours _ _ _ _ _ _ Hrange Hmap Hd0) as Hmap0.
  pose proof (for_subjects_length _ _ _ _ _ _ _ Hplan) as Hlen. simpl in Hlen.
  apply plan_day_allocations in Hplan as Hrun.
  split; [|by eauto 10].
  destruct (of_int_units available_hours Hrange) as [Hday Hunits].
  destruct (allocations_units _ _ _ _ _ Hrun Hmap0 Hday) as (_ & Hrem & _ & Hle).
  pose proof (float_units_nonneg _ Hrem) as Hrem'.
  rewrite Hunits in Hle. rewrite exact_sum_units.
  unfold Qle, Qmult, inject_Z. simpl Qnum. simpl Qden.
  change (Z.pos (1 * 2 ^ 1074)) with hour.
  change (2 ^ 53) with 9007199254740992 in *. nia.
Qed.

(** ** The store of objects *)

Section store_properties.
Context {num : Type} `{!Hours num}.
Implicit Types h : gmap positive (obj num).

Lemma list_append_eq h lst tasks t :
  h !! lst = Some (TaskList tasks) →
  list_append lst t h = Ok (tt, <[lst := TaskList (tasks ++ [t])]> h).
Proof. intros Hl. unfold list_append, load_tasks, put, mbind, eff_bind. by rewrite Hl. Qed.

Lemma dict_set_eq h d entries key v :
  h !! d = Some (NumDict entries) →
  dict_set d key v h = Ok (tt, <[d := NumDict (<[key := v]> entries)]> h).
Proof. intros Hd. unfold dict_set, load_budgets, put, mbind, eff_bind. by rewrite Hd. Qed.

Lemma schedule_set_eq h schedule entries date lst :
  h !! schedule = Some (DateDict entries) →
  schedule_set schedule date lst h
  = Ok (tt, <[schedule := DateDict (<[date := lst]> entries)]> h).
Proof.
  intros Hs. unfold schedule_set, load_dates, put, mbind, eff_bind. by rewrite Hs.
Qed.

Lemma schedule_get_eq h schedule entries date :
  h !! schedule = Some (DateDict entries) →
  schedule_get schedule date h
  = match entries !! date with
    | Some lst => Ok (lst, h)
    | None =>
        Ok (fresh (dom h),
            <[schedule := DateDict (<[date := fresh (dom h)]> entries)]>
              (<[fresh (dom h) := TaskList []]> h))
    end.
Proof.
  intros Hs. unfold schedule_get, load_dates, mbind, eff_bind. rewrite Hs.
  by destruct (entries !! date).
Qed.

Lemma fresh_lookup (h : gmap positive (obj num)) : h !! fresh (dom h) = None.
Proof. apply not_elem_of_dom. apply is_fresh. Qed.

Lemma insert_insert_absorb (h : gmap positive (obj num)) a b x1 y1 x2 y2 :
  <[a := x2]> (<[b := y2]> (<[a := x1]> (<[b := y1]> h)))
  = <[a := x2]> (<[b := y2]> h).
Proof.
  apply map_eq. intros i. rewrite !lookup_insert. by repeat case_decide.
Qed.

(** The loop over the subjects does on the two objects what [for_subjects]
    does on their values, and touches nothing else. *)
Lemma for_subjects_obj_sim subjects today_plan hps :
  today_plan ≠ hps →
  ∀ plan entries daily h,
    h !! today_plan = Some (TaskList plan) →
    h !! hps = Some (NumDict entries) →
    for_subjects_obj subjects today_plan hps daily h
    = match for_subjects subjects (plan, entries, daily) with
      | Ok (plan', entries', daily') =>
          Ok (daily', <[hps := NumDict entries']> (<[today_plan := TaskList plan']> h))
      | Raise e => Raise e
      end.
Proof.
  intros Hne. induction subjects as [|s rest IH]; intros plan entries daily h Hp Hd.
  - simpl. unfold mret, eff_ret. f_equal. f_equal.
    rewrite (insert_id h today_plan) by done. by rewrite insert_id.
  - simpl. unfold allocate_obj, load_budgets, lift, dict_get.
    unfold mbind at 1 2 3. unfold eff_bind. rewrite Hd.
    destruct (entries !! s) as [owed|] eqn:Hs; simpl; [|done].
    destruct (is_positive owed); simpl.
    + destruct (is_positive (min3 one_hour owed daily)); simpl.
      * unfold mbind, eff_bind.
        rewrite (list_append_eq _ _ _ _ Hp).
        rewrite (dict_set_eq _ _ entries) by (by rewrite lookup_insert_ne).
        unfold mret, eff_ret.
        erewrite IH;
          [| by rewrite lookup_insert_ne, lookup_insert_eq
           | by rewrite lookup_insert_eq ].
        destruct (for_subjects rest _) as [[[plan' entries'] daily']|e]; [|done].
        by rewrite insert_insert_absorb.
      * unfold mret, eff_ret. by apply IH.
    + unfold mret, eff_ret. by apply IH.
Qed.

Lemma tasks_at_insert h l o l' :
  tasks_at (<[l := o]> h) l'
  = if decide (l = l') then match o with TaskList t => Some t | _ => None end
    else tasks_at h l'.
Proof. unfold tasks_at. rewrite lookup_insert. by case_decide. Qed.

Lemma tasks_at_Some h l tasks : tasks_at h l = Some tasks ↔ h !! l = Some (TaskList tasks).
Proof.
  unfold tasks_at. destruct (h !! l) as [[]|]; split; intros; simplify_eq; done.
Qed.

(** Appending to the list of a date. *)
Lemma append_review_sim h0 h hps schedule budgets v date t :
  locals h0 h hps schedule budgets v →
  ∃ h',
    (lst ← schedule_get schedule date; list_append lst t) h = Ok (tt, h')
    ∧ locals h0 h' hps schedule budgets (dict_append v date t)
    ∧ (∀ a, is_Some (h !! a) → is_Some (h' !! a)).
Proof.
  intros (Hframe & Hhps0 & Hsch0 & Hne & Hhps & entries & Hsch & Hv & Hlists & Hinj).
  unfold mbind, eff_bind. rewrite (schedule_get_eq _ _ _ _ Hsch).
  unfold dict_append. rewrite (Hv date).
  destruct (entries !! date) as [lst|] eqn:Hdate; simpl.
  - destruct (Hlists _ _ Hdate) as ([tasks Htasks] & Hl0 & Hlhps & Hlsch).
    rewrite Htasks. simpl. apply tasks_at_Some in Htasks.
    rewrite (list_append_eq _ _ _ _ Htasks).
    eexists. split; [done|]. split.
    + split; [|split; [done|split; [done|split; [done|split]]]].
      * intros a Ha. rewrite lookup_insert_ne; [by apply Hframe|].
        intros <-. rewrite Hl0 in Ha. by destruct Ha.
      * by rewrite lookup_insert_ne.
      * exists entries. split; [by rewrite lookup_insert_ne|].
        split; [|split; [|done]].
        -- intros date'. rewrite lookup_insert. case_decide as Hd.
           ++ subst date'. rewrite Hdate. simpl. rewrite tasks_at_insert.
              by rewrite decide_True.
           ++ rewrite (Hv date'). destruct (entries !! date') as [l'|] eqn:Hd'; [|done].
              simpl. rewrite tasks_at_insert. rewrite decide_False; [done|].
              intros <-. by specialize (Hinj _ _ _ Hdate Hd').
        -- intros date' l' Hd'. destruct (Hlists _ _ Hd') as (Hsome & ? & ? & ?).
           split; [|done]. rewrite tasks_at_insert. case_decide; [by eexists|done].
    + intros a Ha. rewrite lookup_insert. case_decide; [by eexists|done].
  - pose proof (fresh_lookup h) as Hfresh.
    set (lst := fresh (dom h)) in *.
    assert (Hlsch : lst ≠ schedule) by (intros ->; by rewrite Hsch in Hfresh).
    assert (Hlhps : lst ≠ hps) by (intros ->; by rewrite Hhps in Hfresh).
    assert (Hl0 : h0 !! lst = None).
    { destruct (h0 !! lst) as [o|] eqn:Hl; [|done].
      assert (h !! lst = h0 !! lst) by (apply Hframe; rewrite Hl; by eexists).
      congruence. }
    erewrite list_append_eq; [|by rewrite lookup_insert_ne, lookup_insert_eq].
    eexists. split; [done|]. split.
    + split; [|split; [done|split; [done|split; [done|split]]]].
      * intros a Ha. rewrite !lookup_insert_ne; [by apply Hframe| | |].
        -- intros <-. rewrite Hl0 in Ha. by destruct Ha.
        -- intros <-. rewrite Hsch0 in Ha. by destruct Ha.
        -- intros <-. rewrite Hl0 in Ha. by destruct Ha.
      * by rewrite !lookup_insert_ne.
      * exists (<[date := lst]> entries).
        split; [by rewrite lookup_insert_ne, lookup_insert_eq|].
        split; [|split].
        -- intros date'. rewrite !(lookup_insert _ date date').
           case_decide as Hd; simpl.
           ++ rewrite tasks_at_insert. by rewrite decide_True.
           ++ rewrite (Hv date'). destruct (entries !! date') as [l'|] eqn:Hd'; [|done].
              simpl. destruct (Hlists _ _ Hd') as ([tasks' Ht'] & ? & ? & ?).
              rewrite !tasks_at_insert.
              rewrite decide_False; [|intros <-; apply tasks_at_Some in Ht'; congruence].
              rewrite decide_False by done.
              rewrite decide_False; [done|].
              intros <-; apply tasks_at_Some in Ht'; congruence.
        -- intros date' l'. rewrite lookup_insert. case_decide as Hd.
           ++ intros [= <-]. split; [|done]. rewrite tasks_at_insert.
              rewrite decide_True by done. by eexists.
           ++ intros Hd'. destruct (Hlists _ _ Hd') as ([tasks' Ht'] & ? & ? & ?).
              split; [|done]. rewrite !tasks_at_insert.
              rewrite decide_False; [|intros <-; apply tasks_at_Some in Ht'; congruence].
              rewrite decide_False by done.
              rewrite decide_False; [by eexists|].
              intros <-; apply tasks_at_Some in Ht'; congruence.
        -- intros date1 date2 l'. rewrite !lookup_insert.
           repeat case_decide; subst; try done.
           ++ intros [= <-] Hd2. destruct (Hlists _ _ Hd2) as ([tasks' Ht'] & _).
              apply tasks_at_Some in Ht'. congruence.
           ++ intros Hd1 [= <-]. destruct (Hlists _ _ Hd1) as ([tasks' Ht'] & _).
              apply tasks_at_Some in Ht'. congruence.
           ++ apply Hinj.
    + intros a Ha. rewrite !lookup_insert. repeat case_decide; by eauto.
Qed.

Lemma append_reviews_sim h0 hps schedule budgets date tasks :
  ∀ h v,
    locals h0 h hps schedule budgets v →
    ∃ h',
      append_reviews schedule date tasks h = Ok (tt, h')
      ∧ locals h0 h' hps schedule budgets
          (foldl (λ sch t, dict_append sch date (review_task t)) v tasks).
Proof.
  induction tasks as [|t rest IH]; intros h v Hlocals; simpl.
  - by exists h.
  - destruct (append_review_sim _ _ _ _ _ _ date (review_task t) Hlocals)
      as (h1 & Hstep & Hlocals1 & _).
    unfold mbind, eff_bind in *.
    destruct (schedule_get schedule date h) as [[lst h2]|e]; [|done].
    rewrite Hstep. by apply IH.
Qed.

(** Storing [today_plan] under its date: the list is an object of the call
    that no date refers to yet. *)
Lemma schedule_set_sim h0 h hps schedule budgets v entries date today_plan plan :
  locals h0 h hps schedule budgets v →
  h !! schedule = Some (DateDict entries) →
  h !! today_plan = Some (TaskList plan) →
  h0 !! today_plan = None →
  today_plan ≠ hps →
  today_plan ≠ schedule →
  (∀ date', entries !! date' ≠ Some today_plan) →
  locals h0 (<[schedule := DateDict (<[date := today_plan]> entries)]> h)
    hps schedule budgets (<[date := plan]> v).
Proof.
  intros (Hframe & Hhps0 & Hsch0 & Hne & Hhps & entries' & Hsch & Hv & Hlists & Hinj)
    Hsch' Hplan Hplan0 Hphps Hpsch Hunref.
  rewrite Hsch in Hsch'. injection Hsch' as ->.
  assert (Hkeep : ∀ l, l ≠ schedule →
    tasks_at (<[schedule := DateDict (<[date := today_plan]> entries)]> h) l
    = tasks_at h l).
  { intros l Hl. rewrite tasks_at_insert. by rewrite decide_False. }
  split; [|split; [done|split; [done|split; [done|split]]]].
  - intros a Ha. rewrite lookup_insert_ne; [by apply Hframe|].
    intros <-. rewrite Hsch0 in Ha. by destruct Ha.
  - by rewrite lookup_insert_ne.
  - exists (<[date := today_plan]> entries).
    split; [by rewrite lookup_insert_eq|]. split; [|split].
    + intros date'. rewrite !(lookup_insert _ date date'). case_decide; simpl.
      * rewrite Hkeep by done. symmetry. by apply tasks_at_Some.
      * rewrite (Hv date'). destruct (entries !! date') as [l|] eqn:Hd; [|done].
        simpl. destruct (Hlists _ _ Hd) as (_ & _ & _ & ?). by rewrite Hkeep.
    + intros date' l. rewrite lookup_insert. case_decide.
      * intros [= <-]. rewrite Hkeep by done. split; [|done].
        exists plan. by apply tasks_at_Some.
      * intros Hd. destruct (Hlists _ _ Hd) as (? & ? & ? & ?).
        by rewrite Hkeep.
    + intros date1 date2 l. rewrite !lookup_insert.
      repeat case_decide; subst; try done.
      * intros [= <-] Hd. by destruct (Hunref date2).
      * intros Hd [= <-]. by destruct (Hunref date1).
      * apply Hinj.
Qed.

Lemma record_day_obj_sim today day h0 h hps schedule budgets v today_plan plan :
  locals h0 h hps schedule budgets v →
  h !! today_plan = Some (TaskList plan) →
  h0 !! today_plan = None →
  today_plan ≠ hps →
  today_plan ≠ schedule →
  (∀ entries date, h !! schedule = Some (DateDict entries) →
     entries !! date ≠ Some today_plan) →
  ∃ h',
    record_day_obj today day today_plan schedule h = Ok (tt, h')
    ∧ locals h0 h' hps schedule budgets (record_day today day plan v).
Proof.
  intros Hlocals Hplan Hplan0 Hphps Hpsch Hunref.
  unfold record_day_obj, load_tasks. unfold mbind at 1 2. unfold eff_bind.
  rewrite Hplan. unfold record_day.
  destruct plan as [|t rest].
  - unfold mret, eff_ret. by apply append_reviews_sim.
  - pose proof Hlocals as (_ & _ & _ & _ & _ & entries & Hsch & _).
    rewrite (schedule_set_eq _ _ _ _ _ Hsch).
    apply append_reviews_sim.
    eapply schedule_set_sim; eauto.
Qed.

(** A new [today_plan] and an updated [hours_per_subject] leave the schedule
    and the objects of the caller as they are. *)
Lemma locals_new_plan h0 h hps schedule budgets v today_plan plan budgets' :
  locals h0 h hps schedule budgets v →
  h !! today_plan = None →
  locals h0 (<[hps := NumDict budgets']> (<[today_plan := TaskList plan]> h))
    hps schedule budgets' v
  ∧ h0 !! today_plan = None
  ∧ today_plan ≠ hps
  ∧ today_plan ≠ schedule
  ∧ (∀ entries date, h !! schedule = Some (DateDict entries) →
       entries !! date ≠ Some today_plan).
Proof.
  intros (Hframe & Hhps0 & Hsch0 & Hne & Hhps & entries & Hsch & Hv & Hlists & Hinj)
    Hnew.
  assert (Hp0 : h0 !! today_plan = None).
  { destruct (h0 !! today_plan) as [o|] eqn:Hl; [|done].
    assert (h !! today_plan = h0 !! today_plan)
      by (apply Hframe; rewrite Hl; by eexists).
    congruence. }
  assert (Hphps : today_plan ≠ hps) by (intros ->; congruence).
  assert (Hpsch : today_plan ≠ schedule) by (intros ->; congruence).
  assert (Hunref : ∀ date, entries !! date ≠ Some today_plan).
  { intros date Hd. destruct (Hlists _ _ Hd) as ([tasks Ht] & _).
    apply tasks_at_Some in Ht. congruence. }
  assert (Hkeep : ∀ date l, entries !! date = Some l →
    tasks_at (<[hps := NumDict budgets']> (<[today_plan := TaskList plan]> h)) l
    = tasks_at h l).
  { intros date l Hd. destruct (Hlists _ _ Hd) as (_ & _ & Hlhps & _).
    rewrite !tasks_at_insert. rewrite decide_False by done.
    rewrite decide_False; [done|]. intros <-. by destruct (Hunref date). }
  split; [|split; [done|split; [done|split; [done|]]]].
  - split; [|split; [done|split; [done|split; [done|split]]]].
    + intros a Ha. rewrite !lookup_insert_ne; [by apply Hframe| |].
      * intros <-. rewrite Hp0 in Ha. by destruct Ha.
      * intros <-. rewrite Hhps0 in Ha. by destruct Ha.
    + by rewrite lookup_insert_eq.
    + exists entries. split; [by rewrite !lookup_insert_ne|].
      split; [|split; [|done]].
      * intros date. rewrite (Hv date).
        destruct (entries !! date) as [l|] eqn:Hd; [|done]. simpl.
        by rewrite (Hkeep _ _ Hd).
      * intros date l Hd. rewrite (Hkeep _ _ Hd). by apply (Hlists date).
  - intros entries' date. rewrite Hsch. intros [= <-]. apply Hunref.
Qed.

Lemma day_step_obj_sim today subjects items available_hours day
    h0 h hps schedule budgets v :
  locals h0 h hps schedule budgets v →
  h0 !! subjects = Some (StrList items) →
  match day_step today items available_hours day (budgets, v) with
  | Ok (budgets', v') =>
      ∃ h', day_step_obj today subjects available_hours day hps schedule h = Ok (tt, h')
            ∧ locals h0 h' hps schedule budgets' v'
  | Raise e =>
      day_step_obj today subjects available_hours day hps schedule h = Raise e
  end.
Proof.
  intros Hlocals Hsubjects.
  pose proof Hlocals as (Hframe & _ & _ & Hne & Hhps & entries & Hsch & _).
  pose proof (fresh_lookup h) as Hfresh.
  set (today_plan := fresh (dom h)) in *.
  assert (Hphps : today_plan ≠ hps) by (intros Heq; rewrite Heq in Hfresh; congruence).
  assert (Hsubj : <[today_plan := TaskList []]> h !! subjects = Some (StrList items)).
  { rewrite lookup_insert_ne.
    - rewrite Hframe; [done|]. rewrite Hsubjects. by eexists.
    - intros <-. rewrite Hframe in Hfresh; [congruence|].
      rewrite Hsubjects. by eexists. }
  assert (Hrun : day_step_obj today subjects available_hours day hps schedule h
    = match for_subjects items ([], budgets, of_int available_hours) with
      | Ok (plan', budgets', _) =>
          record_day_obj today day today_plan schedule
            (<[hps := NumDict budgets']> (<[today_plan := TaskList plan']> h))
      | Raise e => Raise e
      end).
  { unfold day_step_obj, alloc, load_items, mbind, eff_bind.
    fold today_plan. rewrite Hsubj.
    rewrite (for_subjects_obj_sim items today_plan hps Hphps [] budgets
               (of_int available_hours));
      [| by rewrite lookup_insert_eq | by rewrite lookup_insert_ne ].
    destruct (for_subjects items _) as [[[plan budgets'] remaining']|e]; [|done].
    by rewrite insert_insert_eq. }
  rewrite Hrun. unfold day_step, plan_day. simpl.
  destruct (for_subjects items _) as [[[plan budgets'] remaining']|e]; simpl; [|done].
  destruct (locals_new_plan _ _ _ _ _ _ today_plan plan budgets' Hlocals Hfresh)
    as (Hlocals' & Hp0 & _ & Hpsch & Hunref).
  apply (record_day_obj_sim today day h0 _ hps schedule budgets' v today_plan plan);
    try done.
  - by rewrite lookup_insert_ne, lookup_insert_eq.
  - intros entries' date. rewrite !lookup_insert_ne by done. apply Hunref.
Qed.

Lemma run_days_obj_sim today subjects items available_hours h0 hps schedule n :
  h0 !! subjects = Some (StrList items) →
  ∀ day h budgets v,
    locals h0 h hps schedule budgets v →
    match run_days today items available_hours n day (budgets, v) with
    | Ok (budgets', v') =>
        ∃ h', run_days_obj today subjects available_hours n day hps schedule h
              = Ok (tt, h')
              ∧ locals h0 h' hps schedule budgets' v'
    | Raise e =>
        run_days_obj today subjects available_hours n day hps schedule h = Raise e
    end.
Proof.
  intros Hsubjects. induction n as [|n IH]; intros day h budgets v Hlocals.
  - by exists h.
  - pose proof (day_step_obj_sim today subjects items available_hours day
                  h0 h hps schedule budgets v Hlocals Hsubjects) as Hstep.
    assert (Hrun : run_days_obj today subjects available_hours (S n) day hps schedule h
      = match day_step_obj today subjects available_hours day hps schedule h with
        | Ok (_, h1) =>
            run_days_obj today subjects available_hours n (day + 1) hps schedule h1
        | Raise e => Raise e
        end).
    { simpl. unfold mbind, eff_bind. by destruct (day_step_obj _ _ _ _ _ _ _) as [[[] ?]|]. }
    rewrite Hrun. simpl. unfold mbind at 1. unfold result_bind.
    destruct (day_step today items available_hours day (budgets, v))
      as [[budgets1 v1]|e].
    + destruct Hstep as (h1 & -> & Hlocals1). by apply IH.
    + by rewrite Hstep.
Qed.

Lemma locals_read_schedule h0 h hps schedule budgets v :
  locals h0 h hps schedule budgets v → read_schedule h schedule = Some v.
Proof.
  intros (_ & _ & _ & _ & _ & entries & Hsch & Hv & _).
  unfold read_schedule. rewrite Hsch. f_equal. apply map_eq. intros date.
  by rewrite lookup_omap, (Hv date).
Qed.

Lemma locals_frame h0 h hps schedule budgets v a :
  locals h0 h hps schedule budgets v → is_Some (h0 !! a) → h !! a = h0 !! a.
Proof. intros (Hframe & _). apply Hframe. Qed.

Lemma locals_start h budgets :
  locals h
    (<[fresh (dom (<[fresh (dom h) := NumDict budgets]> h)) := DateDict ∅]>
       (<[fresh (dom h) := NumDict budgets]> h))
    (fresh (dom h)) (fresh (dom (<[fresh (dom h) := NumDict budgets]> h)))
    budgets ∅.
Proof.
  pose proof (fresh_lookup h) as Hhps.
  pose proof (fresh_lookup (<[fresh (dom h) := NumDict budgets]> h)) as Hsch.
  set (hps := fresh (dom h)) in *.
  set (schedule := fresh (dom (<[hps := NumDict budgets]> h))) in *.
  assert (Hne : hps ≠ schedule).
  { intros Heq. rewrite <- Heq, lookup_insert_eq in Hsch. done. }
  rewrite lookup_insert_ne in Hsch by done.
  split; [|split; [done|split; [done|split; [done|split]]]].
  - intros a Ha. rewrite !lookup_insert_ne; [done| |].
    + intros <-. rewrite Hhps in Ha. by destruct Ha.
    + intros <-. rewrite Hsch in Ha. by destruct Ha.
  - by rewrite lookup_insert_ne, lookup_insert_eq.
  - exists ∅. split; [by rewrite lookup_insert_eq|].
    split; [|split]; intros *; by rewrite ?lookup_empty.
Qed.

(** The call on the store returns a reference to the schedule that
    [generate_schedule] computes from the values of its two arguments, or
    raises the same exception, and leaves the objects of the caller alone. *)
Lemma generate_schedule_obj_sim today subjects difficulty items ratings
    available_hours exam_date h :
  h !! subjects = Some (StrList items) →
  h !! difficulty = Some (IntDict ratings) →
  match generate_schedule today items ratings available_hours exam_date with
  | Ok v =>
      ∃ schedule h',
        generate_schedule_obj today subjects difficulty available_hours exam_date h
        = Ok (schedule, h')
        ∧ read_schedule h' schedule = Some v
        ∧ (∀ a, is_Some (h !! a) → h' !! a = h !! a)
  | Raise e =>
      generate_schedule_obj today subjects difficulty available_hours exam_date h
      = Raise e
  end.
Proof.
  intros Hsubjects Hdifficulty.
  set (w := if sum_values ratings =? 0 then 1 else sum_values ratings).
  assert (Hrun : generate_schedule_obj today subjects difficulty available_hours
                   exam_date h
    = match dict_comprehension ratings w ((exam_date - today) * available_hours)
              items ∅ with
      | Ok budgets =>
          match run_days_obj today subjects available_hours
                  (Z.to_nat (exam_date - today)) 0
                  (fresh (dom h))
                  (fresh (dom (<[fresh (dom h) := NumDict budgets]> h)))
                  (<[fresh (dom (<[fresh (dom h) := NumDict budgets]> h))
                       := DateDict ∅]>
                     (<[fresh (dom h) := NumDict budgets]> h)) with
          | Ok (_, h') =>
              Ok (fresh (dom (<[fresh (dom h) := NumDict budgets]> h)), h')
          | Raise e => Raise e
          end
      | Raise e => Raise e
      end).
  { unfold generate_schedule_obj, load_entries, load_items, lift, alloc, mbind,
      eff_bind, mret, eff_ret.
    rewrite Hdifficulty, Hsubjects. fold w.
    destruct (dict_comprehension _ _ _ _ _) as [budgets|e]; [|done].
    by destruct (run_days_obj _ _ _ _ _ _ _ _) as [[[] ?]|]. }
  rewrite Hrun. unfold generate_schedule. fold w.
  destruct (dict_comprehension _ _ _ _ _) as [budgets|e]; simpl; [|done].
  pose proof (run_days_obj_sim today subjects items available_hours h _ _
                (Z.to_nat (exam_date - today)) Hsubjects 0 _ budgets ∅
                (locals_start h budgets)) as Hsim.
  destruct (run_days today items available_hours _ 0 (budgets, ∅))
    as [[budgets' v]|e]; simpl.
  - destruct Hsim as (h' & -> & Hlocals). eexists _, h'. split; [done|].
    split; [by eapply locals_read_schedule|].
    intros a Ha. by eapply locals_frame.
  - by rewrite Hsim.
Qed.

(** ** Determinism *)

(** C8. Two calls with the same today, daily hours and exam date, whose
    arguments are a list with the same subjects and a dict with the same
    difficulties, made in any two stores: either both raise the same
    exception, or both return a schedule, and the two schedules are equal
    (the one that [generate_schedule] computes from the values alone).
    Neither call changes an object that its store held before the call: what
    it mutates are the objects it allocates. *)
Theorem generate_schedule_deterministic
    today available_hours exam_date items ratings
    h1 subjects1 difficulty1 h2 subjects2 difficulty2 :
  h1 !! subjects1 = Some (StrList items) →
  h1 !! difficulty1 = Some (IntDict ratings) →
  h2 !! subjects2 = Some (StrList items) →
  h2 !! difficulty2 = Some (IntDict ratings) →
  match
    generate_schedule_obj today subjects1 difficulty1 available_hours exam_date h1,
    generate_schedule_obj today subjects2 difficulty2 available_hours exam_date h2
  with
  | Ok (schedule1, h1'), Ok (schedule2, h2') =>
      (∃ v,
         generate_schedule today items ratings available_hours exam_date = Ok v
         ∧ read_schedule h1' schedule1 = Some v
         ∧ read_schedule h2' schedule2 = Some v)
      ∧ (∀ a, is_Some (h1 !! a) → h1' !! a = h1 !! a)
      ∧ (∀ a, is_Some (h2 !! a) → h2' !! a = h2 !! a)
  | Raise e1, Raise e2 =>
      e1 = e2
      ∧ generate_schedule today items ratings available_hours exam_date = Raise e1
  | _, _ => False
  end.
Proof.
  intros Hs1 Hd1 Hs2 Hd2.
  pose proof (generate_schedule_obj_sim today subjects1 difficulty1 items ratings
                available_hours exam_date h1 Hs1 Hd1) as Hsim1.
  pose proof (generate_schedule_obj_sim today subjects2 difficulty2 items ratings
                available_hours exam_date h2 Hs2 Hd2) as Hsim2.
  destruct (generate_schedule today items ratings available_hours exam_date)
    as [v|e].
  - destruct Hsim1 as (schedule1 & h1' & -> & Hread1 & Hframe1).
    destruct Hsim2 as (schedule2 & h2' & -> & Hread2 & Hframe2).
    split; [by exists v|by split].
  - by rewrite Hsim1, Hsim2.
Qed.

End store_properties.

(** ** The favorites list *)

(** C9. [save_favorite] leaves the list unchanged when an equal record is
    already in it, appends exactly that record at the end otherwise, always
    keeps the old list as a prefix of the new one (nothing is removed or
    reordered), and saving the same record a second time changes nothing. *)
Theorem save_favorite_idempotent (r : resource) (favorites : list resource) :
  (r ∈ favorites → (save_favorite r favorites).1 = favorites)
  ∧ (r ∉ favorites → (save_favorite r favorites).1 = favorites ++ [r])
  ∧ favorites `prefix_of` (save_favorite r favorites).1
  ∧ (save_favorite r (save_favorite r favorites).1).1 = (save_favorite r favorites).1.
Proof.
  unfold save_favorite. case_bool_decide as Hin; simpl.
  - rewrite bool_decide_eq_true_2 by done. by repeat split.
  - rewrite bool_decide_eq_true_2 by set_solver.
    repeat split; try done. by apply prefix_app_r.
Qed.

(** ** More on the schedule *)

Section more_schedule_properties.
Context {num : Type} `{!Hours num}.

Lemma for_subjects_sublist subjects (today_plan : list (string * num)) hps remaining
    today_plan' hps' remaining' :
  for_subjects subjects (today_plan, hps, remaining)
  = Ok (today_plan', hps', remaining') →
  ∃ new, today_plan' = today_plan ++ new ∧ new.*1 `sublist_of` subjects.
Proof.
  revert today_plan hps remaining.
  induction subjects as [|s rest IH]; intros today_plan hps remaining; simpl.
  - intros [= <- _ _]. exists []. by rewrite app_nil_r.
  - unfold dict_get. destruct (hps !! s) as [owed|]; simpl; [|done].
    assert (Hskip : for_subjects rest (today_plan, hps, remaining)
                    = Ok (today_plan', hps', remaining') →
                    ∃ new, today_plan' = today_plan ++ new
                           ∧ new.*1 `sublist_of` s :: rest).
    { intros (new & -> & Hsub)%IH. exists new. split; [done|by constructor]. }
    destruct (is_positive owed); simpl; [|done].
    destruct (is_positive (min3 one_hour owed remaining)); simpl; [|done].
    intros (new & -> & Hsub)%IH.
    exists ((s, min3 one_hour owed remaining) :: new).
    split; [by rewrite <- app_assoc|]. by constructor.
Qed.

Lemma day_plans_plan_day subjects available_hours n (hps : gmap string num) p :
  p ∈ day_plans subjects available_hours n hps →
  ∃ hps0 hps' remaining',
    plan_day subjects available_hours hps0 = Ok (p, hps', remaining').
Proof.
  revert hps. induction n as [|n IH]; intros hps; simpl; [by intros ?%elem_of_nil|].
  destruct (plan_day subjects available_hours hps) as [[[p0 hps'] remaining']|e]
    eqn:Hday; [|by intros ?%elem_of_nil].
  intros [->|Hin]%elem_of_cons; [by eauto|by eapply IH].
Qed.

(** A day that allocates nothing leaves the owed hours as they are, so the
    next day allocates nothing either. *)
Lemma plan_day_nil subjects available_hours (hps hps' : gmap string num) remaining' :
  plan_day subjects available_hours hps = Ok ([], hps', remaining') → hps' = hps.
Proof. intros Hrun%plan_day_allocations. by inversion Hrun. Qed.

Lemma day_plans_replicate subjects available_hours n (hps : gmap string num)
    remaining' :
  plan_day subjects available_hours hps = Ok ([], hps, remaining') →
  day_plans subjects available_hours n hps = replicate n [].
Proof. intros Hday. induction n as [|n IH]; simpl; [done|]. by rewrite Hday, IH. Qed.

Lemma day_plans_nil subjects available_hours n (hps : gmap string num) (d d' : nat) :
  day_plans subjects available_hours n hps !! d = Some [] →
  (d ≤ d')%nat →
  (d' < length (day_plans subjects available_hours n hps))%nat →
  day_plans subjects available_hours n hps !! d' = Some [].
Proof.
  revert hps d d'. induction n as [|n IH]; intros hps d d'; [done|].
  cbn [day_plans].
  destruct (plan_day subjects available_hours hps) as [[[p0 hps'] remaining']|e]
    eqn:Hday; [|done].
  destruct d as [|d].
  - intros [= ->] _. apply plan_day_nil in Hday as Heq. subst hps'.
    rewrite (day_plans_replicate _ _ _ _ _ Hday).
    change ([] :: replicate n []) with (replicate (S n) ([] : list (string * num))).
    rewrite length_replicate. intros Hlen. by apply lookup_replicate_2.
  - destruct d' as [|d']; [lia|]. simpl. intros Hd Hle Hlen.
    apply (IH hps' d d'); done || lia.
Qed.

Lemma dict_comprehension_first_unrated difficulty w tah rated s rest
    (acc : gmap string num) :
  w ≠ 0 →
  Forall (λ s', is_Some (difficulty !! s')) rated →
  difficulty !! s = None →
  dict_comprehension difficulty w tah (rated ++ s :: rest) acc = Raise (KeyError s).
Proof.
  intros Hw Hrated Hs. revert acc.
  induction Hrated as [|s' rated [d Hd] _ IH]; intros acc; simpl.
  - unfold subject_budget, dict_get. by rewrite Hs.
  - rewrite (subject_budget_Ok _ _ _ _ _ Hd Hw). simpl. apply IH.
Qed.

(** X1. Review tasks that are kept: when the call returns, the study tasks
    [p] of day index [d] are not empty, and day index [d + 2] allocates
    nothing (it is past the last day of the loop, or its plan is empty), the
    schedule holds under [today + d + 2] exactly the review tasks of [p]:
    one [("Review " + subject, round(hours / 2, 1))] for each task of [p],
    in the same order, and nothing else. *)
Theorem review_tasks_kept
    today subjects difficulty available_hours exam_date sched (d : nat) t p :
  generate_schedule today subjects difficulty available_hours exam_date = Ok sched →
  study_plans today subjects difficulty available_hours exam_date !! d
  = Some (t :: p) →
  (Z.to_nat (exam_date - today) ≤ d + 2)%nat
  ∨ study_plans today subjects difficulty available_hours exam_date !! (d + 2)%nat
    = Some [] →
  sched !! (today + Z.of_nat d + 2) = Some (review_task <$> t :: p).
Proof.
  intros Hgen Hd Hnext.
  pose proof (generate_schedule_records _ _ _ _ _ _ Hgen (Z.of_nat d + 2)) as Hrec.
  pose proof (study_plans_length _ _ _ _ _ _ Hgen) as Hlen.
  replace (today + (Z.of_nat d + 2)) with (today + Z.of_nat d + 2) in Hrec by lia.
  rewrite Hrec. unfold expected_entry.
  replace (Z.of_nat d + 2 - 2) with (Z.of_nat d) by lia.
  rewrite (plan_on_lookup _ _ _ Hd).
  assert (Hempty : plan_on (study_plans today subjects difficulty available_hours
                              exam_date) (Z.of_nat d + 2) = []).
  { destruct Hnext as [Hpast|Hnil].
    - apply plan_on_outside. lia.
    - replace (Z.of_nat d + 2) with (Z.of_nat (d + 2)) by lia.
      by apply plan_on_lookup. }
  by rewrite Hempty.
Qed.

(** X2. The schedule never holds an empty list: a date with no task is
    absent from the returned dict. *)
Theorem schedule_has_no_empty_date
    today subjects difficulty available_hours exam_date sched :
  generate_schedule today subjects difficulty available_hours exam_date = Ok sched →
  ∀ date tasks, sched !! date = Some tasks → tasks ≠ [].
Proof.
  intros Hgen date tasks.
  pose proof (generate_schedule_records _ _ _ _ _ _ Hgen (date - today)) as Hrec.
  replace (today + (date - today)) with date in Hrec by lia.
  rewrite Hrec. unfold expected_entry.
  destruct (plan_on _ (date - today)) as [|t rest]; [|by intros [= <-]].
  destruct (plan_on _ (date - today - 2)) as [|t rest]; [done|by intros [= <-]].
Qed.

(** X3. The study tasks of a day follow the order of the subject list: their
    labels are the list with some subjects left out, so a day has at most
    one task for each entry of the list. *)
Theorem study_tasks_follow_subject_order
    today subjects difficulty available_hours exam_date (d : nat) p :
  study_plans today subjects difficulty available_hours exam_date !! d = Some p →
  p.*1 `sublist_of` subjects.
Proof.
  intros Hd%list_elem_of_lookup_2. unfold study_plans in Hd.
  destruct (dict_comprehension _ _ _ _ _) as [hps|e]; [|by apply elem_of_nil in Hd].
  apply day_plans_plan_day in Hd as (hps0 & hps' & remaining' & Hday).
  apply for_subjects_sublist in Hday as (new & -> & Hsub). done.
Qed.

(** X4. Once a day of the loop allocates nothing, no later day allocates
    anything: the days with study tasks are the first days of the loop. *)
Theorem study_days_are_the_first_days
    today subjects difficulty available_hours exam_date (d d' : nat) :
  study_plans today subjects difficulty available_hours exam_date !! d = Some [] →
  (d ≤ d')%nat →
  (d' < length (study_plans today subjects difficulty available_hours exam_date))%nat →
  study_plans today subjects difficulty available_hours exam_date !! d' = Some [].
Proof.
  unfold study_plans.
  destruct (dict_comprehension _ _ _ _ _) as [hps|e]; [|done].
  apply day_plans_nil.
Qed.

(** X5. A subject of the list that the difficulty dict does not rate makes
    the call raise [KeyError] for the first such subject of the list,
    whatever the dates and the daily hours: the budgets are computed before
    the loop. *)
Theorem first_unrated_subject_raises
    today subjects difficulty available_hours exam_date rated s rest :
  subjects = rated ++ s :: rest →
  Forall (λ s', is_Some (difficulty !! s')) rated →
  difficulty !! s = None →
  generate_schedule (num:=num) today subjects difficulty available_hours exam_date
  = Raise (KeyError s).
Proof.
  intros -> Hrated Hs. unfold generate_schedule.
  by rewrite (dict_comprehension_first_unrated _ _ _ _ _ _ _
                (effective_weight_nonzero _) Hrated Hs).
Qed.

(** X6. Every list of the schedule is either the study tasks of its own day
    or the review tasks of the day two days earlier, never a mix of the two:
    the review tasks of a day are in the schedule only if the day two days
    later allocates nothing. *)
Theorem schedule_entry_is_plan_or_reviews
    today subjects difficulty available_hours exam_date sched :
  generate_schedule today subjects difficulty available_hours exam_date = Ok sched →
  ∀ date tasks,
    sched !! date = Some tasks →
    ∃ (d : nat) p,
      study_plans today subjects difficulty available_hours exam_date !! d = Some p
      ∧ p ≠ []
      ∧ (date = today + Z.of_nat d ∧ tasks = p
         ∨ date = today + Z.of_nat d + 2 ∧ tasks = review_task <$> p
           ∧ plan_on (study_plans today subjects difficulty available_hours
                        exam_date) (Z.of_nat d + 2) = []).
Proof.
  intros Hgen date tasks.
  pose proof (generate_schedule_records _ _ _ _ _ _ Hgen (date - today)) as Hrec.
  replace (today + (date - today)) with date in Hrec by lia.
  rewrite Hrec. unfold expected_entry.
  set (plans := study_plans today subjects difficulty available_hours exam_date).
  assert (Hplan : ∀ i t rest, plan_on plans i = t :: rest →
                    0 ≤ i ∧ plans !! Z.to_nat i = Some (t :: rest)).
  { intros i t rest. unfold plan_on. case_bool_decide; [|done].
    destruct (plans !! Z.to_nat i) as [p|]; simpl; [|done]. by intros ->. }
  destruct (plan_on plans (date - today)) as [|t rest] eqn:Hhere.
  - destruct (plan_on plans (date - today - 2)) as [|t rest] eqn:Hbefore; [done|].
    intros [= <-]. apply Hplan in Hbefore as [Hpos Hlook].
    exists (Z.to_nat (date - today - 2)), (t :: rest).
    rewrite Z2Nat.id by lia. split; [done|]. split; [done|]. right.
    split; [lia|]. split; [done|].
    by replace (date - today - 2 + 2) with (date - today) by lia.
  - intros [= <-]. apply Hplan in Hhere as [Hpos Hlook].
    exists (Z.to_nat (date - today)), (t :: rest).
    rewrite Z2Nat.id by lia. split; [done|]. split; [done|]. left.
    split; [lia|done].
Qed.

(** A call with every subject rated returns a schedule. *)
Lemma generate_schedule_rated today subjects difficulty available_hours exam_date :
  Forall (λ s, is_Some (difficulty !! s)) subjects →
  ∃ sched,
    generate_schedule (num:=num) today subjects difficulty available_hours exam_date
    = Ok sched.
Proof.
  intros Hcov. unfold generate_schedule.
  destruct (dict_comprehension_Ok (num:=num) difficulty
              (if sum_values difficulty =? 0 then 1 else sum_values difficulty)
              ((exam_date - today) * available_hours) subjects ∅ Hcov
              (effective_weight_nonzero _)) as [hps Hhps].
  rewrite Hhps. simpl.
  destruct (run_days_Ok today subjects available_hours
              (Z.to_nat (exam_date - today)) 0 hps ∅) as [st' ->]; [|by eexists].
  apply Forall_forall. intros s Hs.
  apply (dict_comprehension_dom _ _ _ _ _ s (effective_weight_nonzero _) Hhps).
  by apply list_elem_of_In.
Qed.

(** X7. The progress tracker (lines 86 to 90) reads [plan[today]] when
    [today in plan]: today is a date of the schedule exactly when the first
    day of the loop has study tasks, and its list is then these study
    tasks; no review task is ever listed for today. *)
Theorem today_holds_the_first_study_tasks
    today subjects difficulty available_hours exam_date sched :
  generate_schedule today subjects difficulty available_hours exam_date = Ok sched →
  ∀ tasks,
    sched !! today = Some tasks
    ↔ tasks ≠ []
      ∧ study_plans today subjects difficulty available_hours exam_date !! 0%nat
        = Some tasks.
Proof.
  intros Hgen tasks.
  pose proof (generate_schedule_records _ _ _ _ _ _ Hgen 0) as Hrec.
  rewrite Z.add_0_r in Hrec. rewrite Hrec. unfold expected_entry, plan_on.
  rewrite bool_decide_eq_true_2 by lia.
  rewrite (bool_decide_eq_false_2 (0 ≤ 0 - 2)) by lia.
  change (Z.to_nat 0) with 0%nat.
  destruct (study_plans today subjects difficulty available_hours exam_date !! 0%nat)
    as [[|t rest]|]; simpl.
  - split; [done|]. by intros [Hne [= <-]].
  - split; [by intros [= <-]|]. by intros [_ [= <-]].
  - split; [done|]. by intros [_ ?].
Qed.

End more_schedule_properties.

(** ** More on the hours, in binary floating point *)

Lemma allocations_tasks_units (hps : gmap string float) remaining new hps' remaining' :
  allocations hps remaining new hps' remaining' →
  hours_map hps → is_hours remaining = true →
  Forall (λ t, 0 < float_units t.2 ≤ hour ∧ float_units t.2 ≤ float_units remaining)
    new.
Proof.
  induction 1 as [|hps remaining s owed a rest hps' remaining' Hs Howed -> Ha _ IH];
    intros Hmap Hrem; [constructor|].
  pose proof (Hmap s owed Hs) as Hok. simpl in Hok.
  destruct (allocated_units owed remaining Hok Hrem Ha) as (Haok & Hapos & Hao & Har).
  destruct (minus_units owed _ Hok Haok ltac:(lia)) as (Hok' & _ & _).
  destruct (minus_units remaining _ Hrem Haok ltac:(lia)) as (Hrem' & Hdec & _).
  constructor; [cbn [snd]; lia|].
  eapply Forall_impl; [|apply IH; [by apply map_Forall_insert_2|done]].
  cbn beta. intros t. lia.
Qed.

(** The study tasks in units: more than 0, at most one hour and at most the
    daily hours. *)
Lemma study_plans_tasks_units
    today subjects difficulty available_hours exam_date (d : nat) p :
  map_Forall (λ _ v, 0 ≤ v) difficulty →
  sum_values difficulty < 2 ^ 53 →
  0 ≤ available_hours →
  (exam_date - today) * available_hours < 2 ^ 49 →
  study_plans today subjects difficulty available_hours exam_date !! d = Some p →
  Forall (λ t, 0 < float_units t.2 ≤ hour
               ∧ float_units t.2 ≤ available_hours * hour) p.
Proof.
  intros Hnonneg Hsum Hhours Htah Hd.
  pose proof (hours_per_subject_hours today subjects difficulty available_hours
                exam_date) as Hmap.
  apply list_elem_of_lookup_2 in Hd. unfold study_plans in Hd.
  destruct (dict_comprehension _ _ _ _ _) as [hps|e] eqn:Hhps;
    [|by apply elem_of_nil in Hd].
  destruct (Z.to_nat (exam_date - today)) as [|n] eqn:Hn;
    [by apply elem_of_nil in Hd|].
  rewrite <- Hn in Hd.
  assert (Hrange : 0 ≤ available_hours < 2 ^ 53).
  { change (2 ^ 49) with 562949953421312 in Htah.
    change (2 ^ 53) with 9007199254740992. nia. }
  specialize (Hmap hps Hnonneg Hsum ltac:(nia) eq_refl).
  destruct (day_plans_allocations_hours _ _ _ _ _ Hrange Hmap Hd)
    as (_ & hps0 & hps' & remaining' & Hmap0 & Hrun).
  destruct (of_int_units available_hours Hrange) as [Hday Hunits].
  pose proof (allocations_tasks_units _ _ _ _ _ Hrun Hmap0 Hday) as Htasks.
  eapply Forall_impl; [|exact Htasks]. cbn beta. intros t. rewrite Hunits. lia.
Qed.

(** X8. The cap of one hour: with difficulties and daily hours that are not
    negative and integers in the range where a float holds them exactly,
    every study task of every day is more than 0 hours and at most 1.0 hour,
    and at most the daily hours. *)
Theorem study_task_is_at_most_one_hour
    today subjects difficulty available_hours exam_date (d : nat) p :
  map_Forall (λ _ v, 0 ≤ v) difficulty →
  sum_values difficulty < 2 ^ 53 →
  0 ≤ available_hours →
  (exam_date - today) * available_hours < 2 ^ 49 →
  study_plans today subjects difficulty available_hours exam_date !! d = Some p →
  Forall (λ t, (0 < float_value t.2)%Q ∧ (float_value t.2 <= 1)%Q
               ∧ (float_value t.2 <= inject_Z available_hours)%Q) p.
Proof.
  intros Hnonneg Hsum Hhours Htah Hd.
  eapply Forall_impl;
    [|exact (study_plans_tasks_units _ _ _ _ _ _ _ Hnonneg Hsum Hhours Htah Hd)].
  cbn beta. intros t.
  unfold float_value, Qlt, Qle, inject_Z. cbn [Qnum Qden].
  change (Z.pos (2 ^ 1074)) with hour. lia.
Qed.

(** ** The hours of a review task *)

Lemma round_half_even_le (x : Q) (n : Z) : (x <= inject_Z n)%Q → round_half_even x ≤ n.
Proof.
  unfold Qle, inject_Z, round_half_even. cbn [Qnum Qden]. rewrite Z.mul_1_r.
  set (a := Qnum x). set (d := Z.pos (Qden x)). intros Hle.
  pose proof (Z.div_mod a d ltac:(lia)) as Hdiv.
  pose proof (Z.mod_pos_bound a d ltac:(lia)) as Hmod.
  destruct (Z.compare_spec (2 * (a mod d)) d); [destruct (Z.even (a / d))|..]; nia.
Qed.

Lemma binary_round_aux_sign (mz e : Z) (l : location) :
  match binary_round_aux prec emax false mz e l with
  | S754_zero s | S754_finite s _ _ => s = false
  | _ => True
  end.
Proof.
  unfold binary_round_aux.
  destruct (shr_fexp prec emax mz e l) as [rec1 e1].
  destruct (shr_fexp prec emax _ e1 loc_Exact) as [rec2 e2].
  destruct (shr_m rec2); [done| |done]. by destruct (e2 <=? emax - prec).
Qed.

(** Half of a float whose exponent is above the smallest ones: the
    division by [2.0] does not round up. *)
Lemma SFdiv_half (mx : positive) (ex : Z) :
  bounded prec emax mx ex = true → -1072 ≤ ex →
  ∃ (q : positive) (e' : Z),
    SFdiv prec emax (S754_finite false mx ex)
      (S754_finite false 4503599627370496 (-51))
    = S754_finite false q e'
    ∧ -1074 ≤ e'
    ∧ 2 * (Z.pos q * 2 ^ (e' + 1074)) ≤ Z.pos mx * 2 ^ (ex + 1074).
Proof.
  intros (Hex & _ & Hdig)%bounded_inv Hlow. specialize (Hdig ltac:(lia)).
  unfold SFdiv, SFdiv_core_binary.
  change (Zdigits2 (Z.pos mx)) with (Z.pos (digits2_pos mx)). rewrite Hdig.
  change (Zdigits2 4503599627370496) with 53.
  replace (Z.min (fexp prec emax (53 + ex - (53 + -51))) (ex - -51)) with (ex - 2)
    by (unfold fexp, SpecFloat.emin, prec, emax; lia).
  replace (ex - -51 - (ex - 2)) with 53 by lia.
  rewrite Z.shiftl_mul_pow2 by lia.
  change (2 ^ 53) with (2 * 4503599627370496).
  assert (Hdiv : Z.div_eucl (Z.pos mx * (2 * 4503599627370496)) 4503599627370496
                 = (Z.pos mx~0, 0)).
  { pose proof (Z.div_eucl_eq (Z.pos mx * (2 * 4503599627370496)) 4503599627370496
                  ltac:(lia)) as Heq.
    pose proof (Z.mod_pos_bound (Z.pos mx * (2 * 4503599627370496)) 4503599627370496
                  ltac:(lia)) as Hmod.
    unfold Z.modulo in Hmod.
    destruct (Z.div_eucl _ _) as [q r]. f_equal; lia. }
  rewrite Hdiv. change (new_location 4503599627370496 0) with loc_Exact.
  simpl xorb.
  destruct (binary_round_aux_round (mx~0) (ex - 2)) as (q & e' & Hres & He' & _ & Hup & Hcase).
  { lia. } { simpl digits2_pos. lia. }
  assert (Hn : Z.pos (digits2_pos mx~0) - 53 = 1) by (simpl digits2_pos; lia).
  rewrite Hn in He', Hup, Hcase. change (2 ^ 1) with 2 in Hup.
  exists q, e'. rewrite Hres.
  rewrite (proj2 (Z.leb_le e' 971)) by lia.
  split; [done|]. split; [lia|].
  specialize (Hup (Z.pos mx) ltac:(lia)).
  replace (e' + 1074) with (e' - (ex - 2) + (ex - 2 + 1074)) by lia.
  rewrite Z.pow_add_r by lia.
  replace (ex + 1074) with (2 + (ex - 2 + 1074)) by lia.
  rewrite (Z.pow_add_r 2 2) by lia. change (2 ^ 2) with 4.
  pose proof (Z.pow_pos_nonneg 2 (ex - 2 + 1074) ltac:(lia) ltac:(lia)).
  nia.
Qed.

(** Half of a study task of at most one hour is a float from [+0.0] to
    [0.5]. *)
Lemma float_half_units (h : float) :
  0 < float_units h ≤ hour →
  (Prim2SF (h / 2) = S754_zero false
   ∨ ∃ m e, Prim2SF (h / 2) = S754_finite false m e)
  ∧ 2 * float_units (h / 2) ≤ hour.
Proof.
  unfold float_units at 1 2. intros Hh.
  pose proof (Prim2SF_valid h) as Hvalid.
  pose proof (Prim2SF_valid (h / 2)) as Hvalid2.
  unfold float_units. rewrite div_spec in *.
  change (Prim2SF 2) with (S754_finite false 4503599627370496 (-51)) in *.
  destruct (Prim2SF h) as [| | |[] mx ex] eqn:HSF; simpl in Hh; try lia.
  simpl in Hvalid. unfold SF64div in *.
  destruct (Z_le_gt_dec (-1072) ex) as [Hnormal|Hsmall].
  - destruct (SFdiv_half mx ex Hvalid Hnormal) as (q & e' & -> & He' & Hle).
    split; [right; by eexists _, _|]. simpl. lia.
  - pose proof (bounded_inv _ _ Hvalid) as (Hex & Hdig & _).
    pose proof (SFdiv_below (S754_finite false mx ex) 4503599627370496 (-51)
                  (-1020)) as Hbelow.
    specialize (Hbelow ltac:(simpl; apply Z.leb_le; lia) ltac:(lia) ltac:(lia)).
    pose proof (binary_round_aux_sign) as Hsign.
    unfold SFdiv in Hbelow, Hvalid2 |- *.
    destruct (SFdiv_core_binary prec emax (Z.pos mx) ex 4503599627370496 (-51))
      as [[mz ez] lz].
    specialize (Hsign mz ez lz). simpl xorb in *.
    destruct (binary_round_aux prec emax false mz ez lz) as [s| | |s q e'];
      try done; subst s.
    + split; [by left|]. simpl. pose proof hour_pos. lia.
    + split; [right; by eexists _, _|]. simpl in Hbelow |- *.
      apply Z.leb_le in Hbelow.
      apply bounded_inv in Hvalid2 as (He' & _).
      pose proof (digits2_pos_bounds q) as [_ Hq].
      assert (Z.pos q * 2 ^ (e' + 1074) < 2 ^ (Z.pos (digits2_pos q) + (e' + 1074))).
      { rewrite (Z.pow_add_r 2 (Z.pos (digits2_pos q)) (e' + 1074)) by lia.
        apply Z.mul_lt_mono_pos_r; [apply Z.pow_pos_nonneg; lia|done]. }
      assert (2 ^ (Z.pos (digits2_pos q) + (e' + 1074)) ≤ 2 ^ 1073)
        by (apply Z.pow_le_mono_r; lia).
      unfold hour. change (2 ^ 1074) with (2 * 2 ^ 1073). lia.
Qed.

(** [round(x, 1)] of a float from [+0.0] to [n / 10], below 1: one of the
    tenths from [0.0] to [n / 10]. *)
Lemma float_round1_tenths (x : float) (n : Z) :
  Prim2SF x = S754_zero false ∨ (∃ m e, Prim2SF x = S754_finite false m e) →
  10 * float_units x ≤ n * hour → n ≤ 9 →
  ∃ k, 0 ≤ k ≤ n ∧ float_round1 x = (float_of_Z k / 10)%float.
Proof.
  intros Hx Hle Hn. pose proof hour_pos as Hhour.
  pose proof (Prim2SF_valid x) as Hvalid.
  unfold float_round1.
  destruct Hx as [Hzero|(m & e & Hfin)].
  - rewrite Hzero. exists 0. unfold float_units in Hle. rewrite Hzero in Hle.
    simpl in Hle. split; [lia|]. apply Prim2SF_inj. rewrite Hzero. by vm_compute.
  - rewrite Hfin in Hvalid |- *. simpl in Hvalid.
    apply bounded_inv in Hvalid as (He & _).
    assert (Hunits : float_units x = Z.pos m * 2 ^ (e + 1074))
      by (unfold float_units; by rewrite Hfin).
    assert (Habs : float_units (abs x) = float_units x).
    { unfold float_units. rewrite abs_spec, Hfin. done. }
    destruct (Z.leb_spec 0 e) as [Hbig|Hfrac].
    { exfalso. assert (2 ^ 1074 ≤ 2 ^ (e + 1074)) by (apply Z.pow_le_mono_r; lia).
      unfold hour in *. nia. }
    exists (round_half_even (float_value (abs x) * 10)). split; [|done].
    split.
    + apply round_half_even_nonneg. unfold float_value. rewrite Habs.
      unfold Qle, Qmult. cbn [Qnum Qden].
      pose proof (Z.pow_pos_nonneg 2 (e + 1074)). nia.
    + apply round_half_even_le. unfold float_value. rewrite Habs.
      unfold Qle, Qmult, inject_Z. cbn [Qnum Qden].
      rewrite Pos2Z.inj_mul. change (Z.pos (2 ^ 1074)) with hour. lia.
Qed.

(** X9. The hours of a review task: under the same conditions, the review
    task of every study task is for [0.0], [0.1], [0.2], [0.3], [0.4] or
    [0.5] hours, the floats [k / 10] for [k] from 0 to 5. *)
Theorem review_task_is_at_most_half_an_hour
    today subjects difficulty available_hours exam_date (d : nat) p :
  map_Forall (λ _ v, 0 ≤ v) difficulty →
  sum_values difficulty < 2 ^ 53 →
  0 ≤ available_hours →
  (exam_date - today) * available_hours < 2 ^ 49 →
  study_plans today subjects difficulty available_hours exam_date !! d = Some p →
  Forall (λ t, ∃ k, 0 ≤ k ≤ 5 ∧ (review_task t).2 = (float_of_Z k / 10)%float) p.
Proof.
  intros Hnonneg Hsum Hhours Htah Hd.
  eapply Forall_impl;
    [|exact (study_plans_tasks_units _ _ _ _ _ _ _ Hnonneg Hsum Hhours Htah Hd)].
  cbn beta. intros [s h] [Hh _]. cbn [snd] in Hh. unfold review_task. cbn [fst snd].
  destruct (float_half_units h Hh) as [Hsf Hhalf].
  apply float_round1_tenths; [done|lia|lia].
Qed.

Lemma float_of_Z_not_positive (n : Z) :
  n ≤ 0 → SF_not_positive (Prim2SF (float_of_Z n)) = true.
Proof.
  intros Hn. destruct (Z.eq_dec n 0) as [->|Hne]; [by vm_compute|].
  pose proof (float_of_Z_below (- n) ltac:(lia)) as Hbelow.
  unfold float_of_Z in *.
  rewrite (proj2 (Z.ltb_lt n 0)) by lia.
  rewrite (proj2 (Z.ltb_ge (- n) 0)) in Hbelow by lia.
  rewrite opp_spec. by destruct (Prim2SF _) as [| | |[] m e].
Qed.

(** With daily hours that are not positive, no allocation passes the test
    [allocated > 0], whatever the subject is owed. *)
Lemma min3_not_positive (a b c : float) :
  SF_not_positive (Prim2SF c) = true → is_positive (min3 a b c) = false.
Proof.
  intros Hc. cbn [is_positive min3 binary64]. unfold float_min3.
  set (m := if (b <? a)%float then b else a).
  rewrite !ltb_spec. change (Prim2SF 0) with (S754_zero false).
  destruct (SFltb (Prim2SF c) (Prim2SF m)) eqn:Hlt.
  - by destruct (Prim2SF c) as [| | |[] mc ec].
  - destruct (Prim2SF c) as [| | |[] mc ec]; try done;
      by destruct (Prim2SF m) as [| [] | |[] mm em].
Qed.

Lemma allocations_not_positive (hps : gmap string float) remaining new hps' remaining' :
  allocations hps remaining new hps' remaining' →
  SF_not_positive (Prim2SF remaining) = true → new = [].
Proof.
  destruct 1 as [|hps remaining s owed a rest hps' remaining' Hs Howed -> Ha _];
    [done|].
  intros Hrem. by rewrite (min3_not_positive _ _ _ Hrem) in Ha.
Qed.

Lemma day_plans_not_positive subjects available_hours n (hps : gmap string float) p :
  available_hours ≤ 0 →
  p ∈ day_plans subjects available_hours n hps → p = [].
Proof.
  intros Hhours (hps0 & hps' & remaining' & Hday)%day_plans_plan_day.
  apply plan_day_allocations in Hday.
  eapply allocations_not_positive; [exact Hday|].
  by apply float_of_Z_not_positive.
Qed.

(** On day numbers, daily hours that are zero or negative give the empty
    schedule: every allocation [min(1.0, owed, daily_hours)] fails the test
    [allocated > 0]. *)
Lemma no_daily_hours_day_numbers
    today subjects difficulty available_hours exam_date :
  available_hours ≤ 0 →
  Forall (λ s, is_Some (difficulty !! s)) subjects →
  generate_schedule (num:=float) today subjects difficulty available_hours exam_date
  = Ok ∅.
Proof.
  intros Hhours Hrated.
  destruct (generate_schedule_rated (num:=float) today subjects difficulty
              available_hours exam_date Hrated) as [sched Hgen].
  rewrite Hgen. f_equal. apply map_eq. intros date. rewrite lookup_empty.
  pose proof (generate_schedule_records _ _ _ _ _ _ Hgen (date - today)) as Hrec.
  replace (today + (date - today)) with date in Hrec by lia.
  rewrite Hrec. unfold expected_entry.
  assert (Hnil : ∀ i, plan_on (study_plans today subjects difficulty available_hours
                                 exam_date) i = []).
  { intros i. unfold plan_on. case_bool_decide; [|done].
    destruct (study_plans _ _ _ _ _ !! Z.to_nat i) as [p|] eqn:Hp; [|done].
    simpl. apply list_elem_of_lookup_2 in Hp. unfold study_plans in Hp.
    destruct (dict_comprehension _ _ _ _ _) as [hps|e];
      [|by apply elem_of_nil in Hp].
    by eapply day_plans_not_positive. }
  by rewrite !Hnil.
Qed.

(** X10. Daily hours that are zero or negative give the empty schedule and
    no error: every allocation [min(1.0, owed, daily_hours)] fails the test
    [allocated > 0].  This is on valid dates with an exam that is not after
    today, or before the last date of [datetime.date] (on the last date
    line 61 raises [OverflowError], with or without allocations), with
    every subject rated and integers that a float holds exactly. *)
Theorem no_daily_hours_no_schedule
    today subjects difficulty available_hours exam_date :
  valid_date today → valid_date exam_date →
  exam_date ≤ today ∨ exam_date < date_max →
  available_hours ≤ 0 →
  map_Forall (λ _ v, exact_int v) difficulty →
  exact_int (sum_values difficulty) →
  exact_int available_hours →
  exact_int ((exam_date - today) * available_hours) →
  Forall (λ s, is_Some (difficulty !! s)) subjects →
  generate_schedule_dated (num:=float) today subjects difficulty available_hours
    exam_date
  = Ok ∅.
Proof.
  intros Htoday _ Hexam Hhours _ _ _ _ Hrated.
  rewrite generate_schedule_dated_in_range by done.
  by apply no_daily_hours_day_numbers.
Qed.

(** ** More on the favorites *)

Lemma save_favorite_NoDup (r : resource) (favorites : list resource) :
  NoDup favorites → NoDup (save_favorite r favorites).1.
Proof.
  intros Hnodup. unfold save_favorite. case_bool_decide as Hin; simpl; [done|].
  apply list.NoDup_app. split; [done|]. split; [|apply NoDup_singleton].
  intros x Hx ->%list_elem_of_singleton. done.
Qed.

Lemma saves_snoc (saved favorites : list resource) (r : resource) :
  saves (saved ++ [r]) favorites = (save_favorite r (saves saved favorites)).1.
Proof. unfold saves. by rewrite foldl_app. Qed.

(** X11. The favorites never hold a resource twice: a list that holds no
    resource twice holds none twice after any saves, whatever is saved and
    however often; the list of a session starts empty (line 138) and
    changes by saves only. *)
Theorem favorites_have_no_duplicates (saved favorites : list resource) :
  NoDup favorites → NoDup (saves saved favorites).
Proof.
  intros Hnodup. induction saved as [|r saved IH] using rev_ind; [done|].
  rewrite saves_snoc. by apply save_favorite_NoDup.
Qed.

(** X12. The favorites of a session are the resources the user saved, each
    once, in the order of their first save. *)
Theorem favorites_are_the_first_saves (saved : list resource) :
  saves saved [] = reverse (remove_dups (reverse saved)).
Proof.
  induction saved as [|r saved IH] using rev_ind; [done|].
  rewrite saves_snoc, IH, reverse_app. simpl. unfold save_favorite.
  destruct (decide_rel elem_of r (reverse saved)) as [Hin|Hnin].
  - rewrite bool_decide_eq_true_2; [done|].
    by rewrite elem_of_reverse, elem_of_remove_dups.
  - rewrite bool_decide_eq_false_2.
    + simpl. by rewrite reverse_cons.
    + by rewrite elem_of_reverse, elem_of_remove_dups.
Qed.

(** ** The subjects typed by the user *)

Lemma split_not_nil (sep : N) (s : text) : split sep s ≠ [].
Proof.
  induction s as [|c rest IH]; simpl; [done|].
  destruct (c =? sep)%N; [done|]. by destruct (split sep rest).
Qed.

Lemma split_no_sep (sep : N) (s : text) : Forall (λ piece, sep ∉ piece) (split sep s).
Proof.
  induction s as [|c rest IH]; simpl.
  - constructor; [by intros ?%elem_of_nil|constructor].
  - destruct (N.eqb_spec c sep) as [->|Hne].
    + constructor; [by intros ?%elem_of_nil|done].
    + pose proof (split_not_nil sep rest).
      destruct (split sep rest) as [|piece pieces]; [done|].
      apply Forall_cons_1 in IH as [Hpiece Hpieces].
      constructor; [|done]. intros [?|?]%elem_of_cons; done.
Qed.

(** The pieces hold the characters of the text that are not separators. *)
Lemma split_elem_of (sep : N) (s : text) (c : N) :
  c ∈ s → c = sep ∨ ∃ piece, piece ∈ split sep s ∧ c ∈ piece.
Proof.
  induction s as [|c' rest IH]; [by intros ?%elem_of_nil|]. simpl.
  intros [->|Hin]%elem_of_cons.
  - destruct (N.eqb_spec c' sep) as [|Hne]; [by left|]. right.
    pose proof (split_not_nil sep rest).
    destruct (split sep rest) as [|piece pieces]; [done|].
    exists (c' :: piece). split; apply elem_of_cons; by left.
  - destruct (IH Hin) as [->|(piece & Hpiece & Hc)]; [by left|]. right.
    destruct (c' =? sep)%N.
    + exists piece. split; [by apply elem_of_cons; right|done].
    + destruct (split sep rest) as [|piece' pieces]; [by apply elem_of_nil in Hpiece|].
      apply elem_of_cons in Hpiece as [->|Hpiece].
      * exists (c' :: piece'). split; apply elem_of_cons; [by left|by right].
      * exists piece. split; [by apply elem_of_cons; right|done].
Qed.

Lemma split_elem_of_inv (sep : N) (s : text) (piece : text) (c : N) :
  piece ∈ split sep s → c ∈ piece → c ∈ s.
Proof.
  revert piece. induction s as [|c' rest IH]; intros piece; simpl.
  - intros ->%list_elem_of_singleton. by intros ?%elem_of_nil.
  - destruct (c' =? sep)%N.
    + intros [->|Hin]%elem_of_cons; [by intros ?%elem_of_nil|].
      intros Hc. apply elem_of_cons. right. by eapply IH.
    + pose proof (split_not_nil sep rest).
      destruct (split sep rest) as [|piece' pieces]; [done|].
      intros [->|Hin]%elem_of_cons.
      * intros [->|Hc]%elem_of_cons; apply elem_of_cons; [by left|right].
        apply (IH piece'); [apply elem_of_cons; by left|done].
      * intros Hc. apply elem_of_cons. right.
        apply (IH piece); [apply elem_of_cons; by right|done].
Qed.

(** A text without separator is its own single piece, and a separator cuts
    the text after the first piece. *)
Lemma split_app (sep : N) (name rest : text) :
  sep ∉ name → split sep (name ++ sep :: rest) = name :: split sep rest.
Proof.
  induction name as [|c name IH]; simpl; intros Hsep.
  - by rewrite N.eqb_refl.
  - apply not_elem_of_cons in Hsep as [Hne Hsep].
    destruct (N.eqb_spec c sep) as [|_]; [done|]. by rewrite IH.
Qed.

Lemma split_single (sep : N) (name : text) : sep ∉ name → split sep name = [name].
Proof.
  induction name as [|c name IH]; simpl; intros Hsep; [done|].
  apply not_elem_of_cons in Hsep as [Hne Hsep].
  destruct (N.eqb_spec c sep) as [|_]; [done|]. by rewrite IH.
Qed.

(** [lstrip] removes the longest prefix of white space. *)
Lemma lstrip_spec (s : text) :
  ∃ spaces, s = spaces ++ lstrip s
            ∧ Forall (λ c, is_space c = true) spaces
            ∧ ∀ c, list.head (lstrip s) = Some c → is_space c = false.
Proof.
  induction s as [|c rest (spaces & Heq & Hspaces & Hhead)]; simpl.
  - exists []. by repeat split.
  - destruct (is_space c) eqn:Hc.
    + exists (c :: spaces). split; [by rewrite Heq at 1|]. split; [by constructor|done].
    + exists []. split; [done|]. split; [constructor|]. by intros c' [= <-].
Qed.

Lemma lstrip_spaces (spaces s : text) :
  Forall (λ c, is_space c = true) spaces → lstrip (spaces ++ s) = lstrip s.
Proof. induction 1 as [|c spaces Hc _ IH]; simpl; [done|]. by rewrite Hc. Qed.

Lemma lstrip_head (s : text) :
  (∀ c, list.head s = Some c → is_space c = false) → lstrip s = s.
Proof. destruct s as [|c rest]; simpl; [done|]. intros Hc. by rewrite (Hc c). Qed.

Lemma lstrip_nil (s : text) : lstrip s = [] ↔ Forall (λ c, is_space c = true) s.
Proof.
  split.
  - destruct (lstrip_spec s) as (spaces & Heq & Hspaces & _). intros Hnil.
    rewrite Hnil, app_nil_r in Heq. by subst.
  - intros Hs. rewrite <- (app_nil_r s). by rewrite lstrip_spaces.
Qed.

Lemma trimmed_spec (name : text) :
  trimmed name = true
  ↔ (∀ c, list.head name = Some c → is_space c = false)
    ∧ (∀ c, list.last name = Some c → is_space c = false).
Proof.
  unfold trimmed. rewrite andb_true_iff, !negb_true_iff. split.
  - intros [Hh Hl]. split; intros c Hc; [rewrite Hc in Hh|rewrite Hc in Hl]; done.
  - intros [Hh Hl]. split.
    + destruct (list.head name) as [c|]; simpl; [by apply Hh|done].
    + destruct (list.last name) as [c|]; simpl; [by apply Hl|done].
Qed.

(** [strip] removes the white space at both ends and nothing else. *)
Lemma strip_spec (s : text) :
  ∃ before after,
    s = before ++ strip s ++ after
    ∧ Forall (λ c, is_space c = true) before
    ∧ Forall (λ c, is_space c = true) after
    ∧ trimmed (strip s) = true.
Proof.
  destruct (lstrip_spec s) as (before & Heq & Hbefore & Hhead).
  destruct (lstrip_spec (reverse (lstrip s))) as (after & Heq' & Hafter & Hlast).
  exists before, (reverse after). unfold strip, rstrip.
  set (t := lstrip s) in *. set (u := lstrip (reverse t)) in *.
  assert (Ht : t = reverse u ++ reverse after).
  { rewrite <- reverse_app, <- Heq'. by rewrite reverse_involutive. }
  split; [by rewrite <- Ht|]. split; [done|].
  split; [by apply Forall_reverse|]. apply trimmed_spec. split.
  - intros c Hc. apply Hhead. rewrite Ht.
    destruct (reverse u) as [|c' rest]; [done|]. simpl in *. done.
  - intros c. rewrite last_reverse. apply Hlast.
Qed.

Lemma strip_nil (s : text) : strip s = [] ↔ Forall (λ c, is_space c = true) s.
Proof.
  destruct (strip_spec s) as (before & after & Heq & Hbefore & Hafter & _).
  split.
  - intros Hnil. rewrite Hnil in Heq. rewrite Heq. simpl. by apply Forall_app.
  - intros Hs. unfold strip, rstrip.
    rewrite (proj2 (lstrip_nil s) Hs). done.
Qed.

(** White space around a trimmed name is all that [strip] removes. *)
Lemma strip_trimmed (before name after : text) :
  Forall (λ c, is_space c = true) before →
  Forall (λ c, is_space c = true) after →
  name ≠ [] → trimmed name = true →
  strip (before ++ name ++ after) = name.
Proof.
  intros Hbefore Hafter Hne [Hhead Hlast]%trimmed_spec. unfold strip, rstrip.
  rewrite lstrip_spaces by done.
  rewrite (lstrip_head (name ++ after)).
  - rewrite reverse_app, lstrip_spaces by by apply Forall_reverse.
    rewrite lstrip_head; [by rewrite reverse_involutive|].
    intros c. rewrite head_reverse. apply Hlast.
  - intros c. destruct name as [|c' rest]; [done|]. apply Hhead.
Qed.

Lemma subject_list_cut (piece rest : text) :
  comma ∉ piece →
  subject_list (piece ++ comma :: rest)
  = (if decide (strip piece ≠ []) then [strip piece] else []) ++ subject_list rest.
Proof.
  intros Hpiece. unfold subject_list. rewrite split_app by done.
  rewrite filter_cons. by destruct (decide (strip piece ≠ [])).
Qed.

Lemma subject_list_single (piece : text) :
  comma ∉ piece →
  subject_list piece = if decide (strip piece ≠ []) then [strip piece] else [].
Proof.
  intros Hpiece. unfold subject_list. rewrite split_single by done.
  rewrite filter_cons, filter_nil. by destruct (decide (strip piece ≠ [])).
Qed.

Lemma spaces_no_comma (spaces : text) :
  Forall (λ c, is_space c = true) spaces → comma ∉ spaces.
Proof.
  intros Hspaces Hin. rewrite list.Forall_forall in Hspaces.
  by specialize (Hspaces comma Hin).
Qed.

Lemma subject_name_spec (name : text) :
  subject_name name = true ↔ name ≠ [] ∧ trimmed name = true ∧ comma ∉ name.
Proof.
  unfold subject_name. rewrite !andb_true_iff, !bool_decide_eq_true. tauto.
Qed.

Lemma subject_list_join (spaces : text) (names : list text) :
  Forall (λ c, is_space c = true) spaces →
  Forall (λ name, subject_name name = true) names →
  subject_list (spaces ++ join [comma; 32%N] names) = names.
Proof.
  intros Hspaces Hnames. revert spaces Hspaces.
  induction Hnames as [|name rest Hname Hrest IH]; intros spaces Hspaces.
  - simpl. rewrite app_nil_r, subject_list_single by by apply spaces_no_comma.
    rewrite (proj2 (strip_nil spaces) Hspaces). by destruct (decide _).
  - apply subject_name_spec in Hname as (Hne & Htrim & Hcomma).
    assert (Hpiece : comma ∉ spaces ++ name).
    { intros [?|?]%elem_of_app; [by eapply spaces_no_comma|done]. }
    assert (Hstrip : strip (spaces ++ name) = name).
    { rewrite <- (app_nil_r name) at 1. by apply strip_trimmed. }
    destruct rest as [|name' rest].
    + simpl. rewrite subject_list_single, Hstrip by done. by destruct (decide _).
    + change (join [comma; 32%N] (name :: name' :: rest))
        with (name ++ comma :: [32%N] ++ join [comma; 32%N] (name' :: rest)).
      rewrite app_assoc, subject_list_cut, Hstrip by done.
      rewrite IH by (by repeat constructor). by destruct (decide _).
Qed.

(** X13. Every subject read from the text is a name: it is not empty, it
    neither starts nor ends with white space, and it holds no comma. *)
Theorem subject_list_holds_names (subjects : text) :
  Forall (λ name, subject_name name = true) (subject_list subjects).
Proof.
  unfold subject_list. apply Forall_fmap, list.Forall_forall.
  intros piece [Hne Hin]%list_elem_of_filter. simpl.
  destruct (strip_spec piece) as (before & after & Heq & _ & _ & Htrim).
  apply subject_name_spec. split; [done|]. split; [done|].
  pose proof (split_no_sep comma subjects) as Hsep.
  rewrite list.Forall_forall in Hsep. specialize (Hsep piece Hin).
  intros Hcomma. apply Hsep. rewrite Heq.
  apply elem_of_app. right. apply elem_of_app. by left.
Qed.

(** X14. The text gives no subject exactly when it holds nothing but commas
    and white space (the empty text is one such). *)
Theorem blank_text_has_no_subject (subjects : text) :
  subject_list subjects = []
  ↔ Forall (λ c, c = comma ∨ is_space c = true) subjects.
Proof.
  unfold subject_list. split.
  - intros Hnil%fmap_nil_inv. apply list.Forall_forall. intros c Hc.
    destruct (split_elem_of comma subjects c Hc) as [->|(piece & Hpiece & Hin)];
      [by left|right].
    destruct (decide (strip piece = [])) as [Hstrip|Hstrip].
    + apply strip_nil in Hstrip. rewrite list.Forall_forall in Hstrip. by apply Hstrip.
    + by destruct (filter_nil_not_elem_of _ _ piece Hnil Hstrip).
  - intros Hblank. rewrite list.Forall_forall in Hblank.
    assert (Hpieces : Forall (λ piece, strip piece = []) (split comma subjects)).
    { pose proof (split_no_sep comma subjects) as Hsep.
      rewrite list.Forall_forall in Hsep. apply list.Forall_forall. intros piece Hpiece.
      apply strip_nil, list.Forall_forall. intros c Hc.
      destruct (Hblank c (split_elem_of_inv _ _ _ _ Hpiece Hc)) as [->|?]; [|done].
      by destruct (Hsep piece Hpiece). }
    induction Hpieces as [|piece pieces Hpiece _ IH]; [done|].
    rewrite filter_cons. by destruct (decide (strip piece ≠ [])).
Qed.

(** X15. Names separated by a comma and a space are read back as they are:
    every list of names, with its order and its repetitions, is the subject
    list of the text [", ".join(names)]. *)
Theorem joined_names_are_read_back (names : list text) :
  Forall (λ name, subject_name name = true) names →
  subject_list (join [comma; 32%N] names) = names.
Proof. intros Hnames. by apply (subject_list_join []). Qed.

(** ** The ratings and the call of the page *)

Lemma foldl_rate_lookup (slider : string → Z) (subjects : list string)
    (d : gmap string Z) (s : string) :
  foldl (λ d subject, <[subject := slider subject]> d) d subjects !! s
  = if decide (s ∈ subjects) then Some (slider s) else d !! s.
Proof.
  revert d. induction subjects as [|s' rest IH]; intros d; cbn [foldl].
  - by destruct (decide (s ∈ [])) as [?%elem_of_nil|].
  - rewrite IH. destruct (decide (s ∈ rest)) as [Hin|Hnin].
    + by rewrite decide_True by by right.
    + destruct (decide (s' = s)) as [->|Hne].
      * rewrite lookup_insert_eq. by rewrite decide_True by by left.
      * rewrite lookup_insert_ne by done.
        by rewrite decide_False by by intros [?|?]%elem_of_cons.
Qed.

Lemma difficulty_dict_lookup (slider : string → Z) (subjects : list string) (s : string) :
  difficulty_dict slider subjects !! s
  = if decide (s ∈ subjects) then Some (slider s) else None.
Proof. unfold difficulty_dict. by rewrite foldl_rate_lookup, lookup_empty. Qed.

Section page_call.
Context {num : Type} `{!Hours num}.

(** X16. The call of the page raises neither [KeyError] nor
    [ZeroDivisionError]: the dict that lines 30 to 32 build rates every
    subject of the list it is built from, so
    [generate_schedule(subject_list, difficulty_dict, ...)] returns a
    schedule, whatever the subjects, the values of the sliders, the daily
    hours and the dates. *)
Theorem page_call_returns
    today (slider : string → Z) subjects available_hours exam_date :
  ∃ sched,
    generate_schedule (num:=num) today subjects (difficulty_dict slider subjects)
      available_hours exam_date
    = Ok sched.
Proof.
  apply generate_schedule_rated. apply list.Forall_forall. intros s Hs.
  rewrite difficulty_dict_lookup. by rewrite decide_True.
Qed.

End page_call.

(** X17. With at least one subject and sliders that start at 1, the total
    weight is at least 1: the replacement of a zero total weight by 1
    (lines 39 and 40) is never taken by a call of the page, and every
    difficulty the call sees is positive. *)
Theorem page_total_weight_is_positive (slider : string → Z) (subjects : list string) :
  subjects ≠ [] →
  (∀ s, 1 ≤ slider s) →
  1 ≤ sum_values (difficulty_dict slider subjects)
  ∧ map_Forall (λ _ v, 0 < v) (difficulty_dict slider subjects).
Proof.
  intros Hne Hslider.
  assert (Hpos : map_Forall (λ _ v, 0 < v) (difficulty_dict slider subjects)).
  { intros s v. rewrite difficulty_dict_lookup.
    destruct (decide (s ∈ subjects)); [|done].
    intros [= <-]. specialize (Hslider s). simpl. lia. }
  split; [|done].
  destruct subjects as [|s rest]; [done|].
  destruct (sum_values_nonneg (difficulty_dict slider (s :: rest))) as [_ Hle].
  { eapply map_Forall_impl; [exact Hpos|]. simpl. lia. }
  specialize (Hle s (slider s)). rewrite difficulty_dict_lookup in Hle.
  rewrite decide_True in Hle by by left.
  specialize (Hle eq_refl). specialize (Hslider s). lia.
Qed.

(** ** The schedule in the order of its dates *)

Lemma elem_of_key_add (key : Z) (keys : list Z) (k : Z) :
  k ∈ key_add key keys ↔ k = key ∨ k ∈ keys.
Proof.
  unfold key_add. case_bool_decide as Hin.
  - split; [by right|]. by intros [->|?].
  - rewrite elem_of_app, list_elem_of_singleton. tauto.
Qed.

Lemma key_add_NoDup (key : Z) (keys : list Z) : NoDup keys → NoDup (key_add key keys).
Proof.
  intros Hnodup. unfold key_add. case_bool_decide as Hin; [done|].
  apply list.NoDup_app. split; [done|]. split; [|apply NoDup_singleton].
  by intros k Hk ->%list_elem_of_singleton.
Qed.

Lemma key_add_idemp (key : Z) (keys : list Z) :
  key_add key (key_add key keys) = key_add key keys.
Proof.
  unfold key_add at 1. rewrite bool_decide_eq_true_2; [done|].
  apply elem_of_key_add. by left.
Qed.

Section insertion_order_properties.
Context {num : Type} `{!Hours num}.
Implicit Types schedule : ordered (num:=num).

Lemma foldl_ordered_append key (tasks : list (string * num)) schedule :
  foldl (λ sch t, ordered_append key (review_task t) sch) schedule tasks
  = (match tasks with [] => schedule.1 | _ :: _ => key_add key schedule.1 end,
     foldl (λ sch t, dict_append sch key (review_task t)) schedule.2 tasks).
Proof.
  revert schedule. induction tasks as [|t rest IH]; intros [keys m]; [done|].
  cbn [foldl]. rewrite IH. unfold ordered_append. cbn [fst snd]. f_equal.
  destruct rest; [done|]. apply key_add_idemp.
Qed.

Lemma record_day_ordered_eq today day (today_plan : list (string * num)) schedule :
  record_day_ordered today day today_plan schedule
  = (match today_plan with
     | [] => schedule.1
     | _ :: _ => key_add (today + (day + 2)) (key_add (today + day) schedule.1)
     end,
     record_day today day today_plan schedule.2).
Proof.
  unfold record_day_ordered, record_day. rewrite foldl_ordered_append.
  destruct today_plan; [by destruct schedule|done].
Qed.

Lemma record_day_keys_listed today day (today_plan : list (string * num)) schedule :
  keys_listed schedule →
  keys_listed (record_day_ordered today day today_plan schedule).
Proof.
  intros [Hnodup Hkeys]. rewrite record_day_ordered_eq.
  destruct today_plan as [|t rest]; [done|]. split; cbn [fst snd].
  - by do 2 apply key_add_NoDup.
  - intros k. rewrite !elem_of_key_add, Hkeys, record_day_lookup.
    destruct (decide (k = today + (day + 2))) as [->|Hne1].
    { rewrite bool_decide_eq_true_2 by lia. split; [by eexists|by left]. }
    rewrite bool_decide_eq_false_2 by lia.
    destruct (decide (k = today + day)) as [->|Hne2].
    { rewrite bool_decide_eq_true_2 by done. split; [by eexists|by right; left]. }
    rewrite bool_decide_eq_false_2 by done.
    split; [by intros [?|[?|?]]|by right; right].
Qed.

Lemma run_days_ordered_sim today subjects available_hours n day hps schedule :
  match run_days_ordered today subjects available_hours n day (hps, schedule) with
  | Ok (hps', schedule') =>
      run_days today subjects available_hours n day (hps, schedule.2)
      = Ok (hps', schedule'.2)
      ∧ (keys_listed schedule → keys_listed schedule')
  | Raise e =>
      run_days today subjects available_hours n day (hps, schedule.2) = Raise e
  end.
Proof.
  revert day hps schedule. induction n as [|n IH]; intros day hps schedule; [done|].
  cbn [run_days_ordered run_days]. unfold day_step_ordered, day_step. cbn [fst snd].
  destruct (plan_day subjects available_hours hps) as [[[p hps1] remaining1]|e];
    simpl; [|done].
  specialize (IH (day + 1) hps1 (record_day_ordered today day p schedule)).
  destruct (run_days_ordered _ _ _ _ _ _) as [[hps' schedule']|e].
  - destruct IH as [IH Hkeys]. rewrite record_day_ordered_eq in IH. cbn [snd] in IH.
    split; [done|]. intros Hlisted. by apply Hkeys, record_day_keys_listed.
  - by rewrite record_day_ordered_eq in IH.
Qed.

Lemma generate_schedule_ordered_sim today subjects difficulty available_hours
    exam_date plan :
  generate_schedule_ordered today subjects difficulty available_hours exam_date
  = Ok plan →
  generate_schedule today subjects difficulty available_hours exam_date = Ok plan.2
  ∧ keys_listed plan.
Proof.
  unfold generate_schedule_ordered, generate_schedule.
  destruct (dict_comprehension _ _ _ _ _) as [hps|e]; simpl; [|done].
  pose proof (run_days_ordered_sim today subjects available_hours
                (Z.to_nat (exam_date - today)) 0 hps ([], ∅)) as Hsim.
  destruct (run_days_ordered _ _ _ _ _ _) as [[hps' plan']|e]; simpl; [|done].
  intros [= <-]. cbn [snd] in Hsim. destruct Hsim as [Hrun Hkeys].
  rewrite Hrun. split; [done|].
  apply Hkeys. split; [constructor|]. intros k. cbn [fst snd].
  rewrite lookup_empty. split; [by intros ?%elem_of_nil|by intros [? ?]].
Qed.

Lemma items_keys (plan : ordered (num:=num)) : (items plan).*1 = plan.1.
Proof.
  unfold items. rewrite <- list_fmap_compose. apply list_fmap_id.
Qed.

Lemma items_to_map (plan : ordered (num:=num)) :
  keys_listed plan → list_to_map (items plan) = plan.2.
Proof.
  intros [Hnodup Hkeys]. apply map_eq. intros k.
  destruct (plan.2 !! k) as [tasks|] eqn:Hk.
  - apply elem_of_list_to_map_1; [by rewrite items_keys|].
    unfold items. apply list_elem_of_fmap. exists k.
    rewrite Hk. split; [done|]. apply Hkeys. by eexists.
  - apply not_elem_of_list_to_map_1. rewrite items_keys, Hkeys, Hk.
    by intros [? ?].
Qed.

(** X18. [plan.items()] lists every date of the schedule once, with the
    tasks the schedule holds for it. *)
Theorem items_are_the_schedule
    today subjects difficulty available_hours exam_date plan :
  generate_schedule_ordered today subjects difficulty available_hours exam_date
  = Ok plan →
  NoDup (items plan).*1
  ∧ generate_schedule today subjects difficulty available_hours exam_date
    = Ok (list_to_map (items plan)).
Proof.
  intros [Hgen Hkeys]%generate_schedule_ordered_sim.
  rewrite items_keys, items_to_map by done. split; [apply Hkeys|done].
Qed.

Lemma key_add_old (key : Z) (keys : list Z) : key ∈ keys → key_add key keys = keys.
Proof. intros Hin. unfold key_add. by rewrite bool_decide_eq_true_2. Qed.

Lemma key_add_new (key : Z) (keys : list Z) :
  key ∉ keys → key_add key keys = keys ++ [key].
Proof. intros Hin. unfold key_add. by rewrite bool_decide_eq_false_2. Qed.

Lemma dates_in_order_succ (today : Z) (d : nat) :
  key_add (today + (Z.of_nat d + 2)) (key_add (today + Z.of_nat d) (dates_in_order today d))
  = dates_in_order today (S d).
Proof.
  destruct d as [|[|k]]; cbn [dates_in_order].
  - rewrite (key_add_new _ []) by (rewrite elem_of_nil; tauto). cbn [app].
    rewrite key_add_new by (rewrite !elem_of_cons, elem_of_nil; lia).
    simpl. repeat f_equal; lia.
  - rewrite (key_add_new _ [today; today + 2])
      by (rewrite !elem_of_cons, elem_of_nil; lia).
    cbn [app].
    rewrite key_add_new by (rewrite !elem_of_cons, elem_of_nil; lia).
    simpl. repeat f_equal; lia.
  - rewrite (key_add_old (today + Z.of_nat (S (S k))))
      by (rewrite !elem_of_cons, elem_of_seqZ; lia).
    rewrite key_add_new by (rewrite !elem_of_cons, elem_of_seqZ; lia).
    rewrite (seqZ_S (today + 3) (S k)). cbn [app]. do 4 f_equal.
    f_equal. lia.
Qed.

Lemma dates_in_order_ge (today : Z) (m : nat) :
  Forall (λ date, today ≤ date) (dates_in_order today m).
Proof.
  destruct m as [|[|k]]; cbn [dates_in_order]; repeat constructor; try lia.
  apply Forall_seqZ. lia.
Qed.

(** After a day that allocates nothing the loop changes nothing. *)
Lemma run_days_ordered_idle today subjects available_hours n day hps remaining'
    schedule :
  plan_day subjects available_hours hps = Ok ([], hps, remaining') →
  run_days_ordered today subjects available_hours n day (hps, schedule)
  = Ok (hps, schedule).
Proof.
  intros Hday. revert day. induction n as [|n IH]; intros day; [done|].
  cbn [run_days_ordered]. unfold day_step_ordered. cbn [fst snd].
  rewrite Hday. simpl. rewrite record_day_ordered_eq. simpl.
  destruct schedule. apply IH.
Qed.

Lemma study_days_replicate (n : nat) :
  study_days (replicate n ([] : list (string * num))) = 0%nat.
Proof. unfold study_days. induction n as [|n IH]; [done|]. simpl. by rewrite filter_cons. Qed.

Lemma run_days_ordered_keys today subjects available_hours n (d : nat) hps schedule
    hps' schedule' :
  run_days_ordered today subjects available_hours n (Z.of_nat d) (hps, schedule)
  = Ok (hps', schedule') →
  schedule.1 = dates_in_order today d →
  schedule'.1
  = dates_in_order today (d + study_days (day_plans subjects available_hours n hps)).
Proof.
  revert d hps schedule. induction n as [|n IH]; intros d hps schedule.
  { intros [= <- <-] ->. by rewrite Nat.add_0_r. }
  cbn [day_plans].
  destruct (plan_day subjects available_hours hps) as [[[p hps1] remaining1]|e]
    eqn:Hday.
  2:{ cbn [run_days_ordered]. unfold day_step_ordered. cbn [fst]. by rewrite Hday. }
  destruct p as [|t rest].
  - apply plan_day_nil in Hday as Heq. subst hps1.
    rewrite (run_days_ordered_idle _ _ _ _ _ _ _ _ Hday).
    intros [= <- <-] ->.
    rewrite (day_plans_replicate _ _ _ _ _ Hday).
    change ([] :: replicate n []) with (replicate (S n) ([] : list (string * num))).
    by rewrite study_days_replicate, Nat.add_0_r.
  - cbn [run_days_ordered]. unfold day_step_ordered. cbn [fst snd].
    rewrite Hday. simpl. intros Hrun Hkeys.
    replace (Z.of_nat d + 1) with (Z.of_nat (S d)) in Hrun by lia.
    apply IH in Hrun.
    + rewrite Hrun. f_equal. unfold study_days. rewrite filter_cons.
      destruct (decide (t :: rest ≠ [])) as [_|Hnil]; [simpl; lia|by destruct Hnil].
    + rewrite record_day_ordered_eq. cbn [fst]. rewrite Hkeys.
      apply dates_in_order_succ.
Qed.

Lemma generate_schedule_ordered_keys today subjects difficulty available_hours
    exam_date plan :
  generate_schedule_ordered today subjects difficulty available_hours exam_date
  = Ok plan →
  plan.1
  = dates_in_order today
      (study_days (study_plans today subjects difficulty available_hours exam_date)).
Proof.
  unfold generate_schedule_ordered, study_plans.
  destruct (dict_comprehension _ _ _ _ _) as [hps|e]; simpl; [|done].
  destruct (run_days_ordered _ _ _ _ _ _) as [[hps' plan']|e] eqn:Hrun; simpl; [|done].
  intros [= <-].
  by apply (run_days_ordered_keys today subjects available_hours _ 0 hps ([], ∅)) in Hrun.
Qed.

(** X19. The order of the dates in the dict is not the order of the
    calendar.  With [m] days of study (they are the first [m] days), the
    dates come in this order: [today], [today + 2], [today + 1], then
    [today + 3] to [today + m + 1]; with one day of study, [today] and
    [today + 2]; with none, the dict is empty. *)
Theorem dict_order_of_the_dates
    today subjects difficulty available_hours exam_date plan :
  generate_schedule_ordered today subjects difficulty available_hours exam_date
  = Ok plan →
  (items plan).*1
  = dates_in_order today
      (study_days (study_plans today subjects difficulty available_hours exam_date)).
Proof. intros Hgen%generate_schedule_ordered_keys. by rewrite items_keys. Qed.

Lemma filter_all {A : Type} (P : A → Prop) `{!∀ x, Decision (P x)} (l : list A) :
  Forall P l → filter P l = l.
Proof.
  induction 1 as [|x l Hx _ IH]; [done|].
  by rewrite filter_cons, decide_True, IH.
Qed.

(** X20. The reminders (line 116) are the first three dates of the dict,
    none being before today: with study tasks on two days or more they are
    for today, for the day after tomorrow and for tomorrow, in this
    order. *)
Theorem reminders_follow_the_dict_order
    today subjects difficulty available_hours exam_date plan :
  generate_schedule_ordered today subjects difficulty available_hours exam_date
  = Ok plan →
  (2 ≤ study_days (study_plans today subjects difficulty available_hours exam_date))%nat →
  upcoming today plan = take 3 (items plan)
  ∧ (upcoming today plan).*1 = [today; today + 2; today + 1].
Proof.
  intros Hgen%generate_schedule_ordered_keys Hm.
  assert (Hall : upcoming today plan = take 3 (items plan)).
  { unfold upcoming. f_equal. apply filter_all.
    pose proof (dates_in_order_ge today (study_days
      (study_plans today subjects difficulty available_hours exam_date))) as Hge.
    rewrite <- Hgen, <- items_keys in Hge.
    apply (Forall_fmap fst (λ date, today ≤ date)) in Hge.
    eapply Forall_impl; [|exact Hge]. by intros [date tasks]. }
  split; [done|]. rewrite Hall, fmap_take, items_keys, Hgen.
  destruct (study_days _) as [|[|k]]; [lia|lia|done].
Qed.

(** X21. The rows of [plan_list] (lines 74 to 79), which the page writes to
    the CSV file, are the tasks of the schedule: a row
    [(date, subject, hours)] is in the list exactly when the schedule holds
    the task [(subject, hours)] under [date]. *)
Theorem plan_list_rows_are_the_tasks
    today subjects difficulty available_hours exam_date plan :
  generate_schedule_ordered today subjects difficulty available_hours exam_date
  = Ok plan →
  ∃ sched,
    generate_schedule today subjects difficulty available_hours exam_date = Ok sched
    ∧ ∀ date subject hours,
        (date, subject, hours) ∈ plan_list plan
        ↔ ∃ tasks, sched !! date = Some tasks ∧ (subject, hours) ∈ tasks.
Proof.
  intros [Hgen [_ Hkeys]]%generate_schedule_ordered_sim.
  exists plan.2. split; [done|]. intros date subject hours.
  unfold plan_list, items. rewrite list_elem_of_bind. split.
  - intros ([date' tasks] & Hrow & Hitem).
    apply list_elem_of_fmap in Hrow as ([s h] & [= -> -> ->] & Htask).
    apply list_elem_of_fmap in Hitem as (k & [= -> ->] & Hk).
    apply Hkeys in Hk as [tasks Hk]. rewrite Hk in Htask. by exists tasks.
  - intros (tasks & Hk & Htask). exists (date, tasks). split.
    + apply list_elem_of_fmap. by exists (subject, hours).
    + apply list_elem_of_fmap. exists date. rewrite Hk. split; [done|].
      apply Hkeys. by eexists.
Qed.

End insertion_order_properties.

(** ** Worked scenarios, in binary floating point *)

#[local] Set Warnings "-inexact-float".
Local Open Scope float_scope.

Lemma plan_day_math_science_day0 :
  plan_day ["Math"; "Science"] 3 {[ "Math" := 4; "Science" := 2 ]}
  = Ok ([("Math", 1); ("Science", 1)], {[ "Math" := 3; "Science" := 1 ]}, 1).
Proof. vm_compute. reflexivity. Qed.

Lemma plan_day_math_science_day1 :
  plan_day ["Math"; "Science"] 3 {[ "Math" := 3; "Science" := 1 ]}
  = Ok ([("Math", 1); ("Science", 1)], {[ "Math" := 2; "Science" := 0 ]}, 1).
Proof. vm_compute. reflexivity. Qed.

(** C2. Subjects Math and Science in that order, difficulties 4 and 2, three
    hours a day and an exam two days from today: the total weight is 6, the
    budgets are 4.0 hours for Math and 2.0 for Science, and the schedule is
    exactly: Math 1.0 and Science 1.0 on day 0 and on day 1, Review Math 0.5
    and Review Science 0.5 on day 2 and on day 3. *)
Theorem math_science_scenario (today : Z) :
  sum_values math_science = 6%Z
  ∧ dict_comprehension math_science 6 (2 * 3) ["Math"; "Science"] ∅
    = Ok {[ "Math" := 4; "Science" := 2 ]}
  ∧ generate_schedule today ["Math"; "Science"] math_science 3 (today + 2)
    = Ok {[ today := [("Math", 1); ("Science", 1)];
            (today + 1)%Z := [("Math", 1); ("Science", 1)];
            (today + 2)%Z := [("Review Math", 0.5); ("Review Science", 0.5)];
            (today + 3)%Z := [("Review Math", 0.5); ("Review Science", 0.5)] ]}.
Proof.
  assert (Hsum : sum_values math_science = 6%Z) by (vm_compute; reflexivity).
  assert (Hhps : dict_comprehension math_science 6 (2 * 3) ["Math"; "Science"] ∅
                 = Ok {[ "Math" := 4; "Science" := 2 ]})
    by (vm_compute; reflexivity).
  split; [done|]. split; [exact Hhps|].
  unfold generate_schedule.
  replace (today + 2 - today)%Z with 2%Z by lia.
  rewrite Hsum. change (if (6 =? 0)%Z then 1%Z else 6%Z) with 6%Z.
  rewrite Hhps. change (Z.to_nat 2) with 2%nat.
  unfold run_days, day_step.
  cbn [mbind result_bind fst snd mret result_ret].
  rewrite plan_day_math_science_day0.
  cbn [mbind result_bind fst snd mret result_ret].
  rewrite plan_day_math_science_day1.
  cbn [mbind result_bind fst snd mret result_ret].
  f_equal. apply map_eq. intros k.
  rewrite !record_day_lookup, !lookup_insert, !lookup_singleton, !lookup_empty.
  repeat case_bool_decide; repeat case_decide; subst; try lia; done.
Qed.

Lemma plan_day_only_math_day0 :
  plan_day ["Math"] 3 {[ "Math" := 9 ]} = Ok ([("Math", 1)], {[ "Math" := 8 ]}, 2).
Proof. vm_compute. reflexivity. Qed.

Lemma plan_day_only_math_day1 :
  plan_day ["Math"] 3 {[ "Math" := 8 ]} = Ok ([("Math", 1)], {[ "Math" := 7 ]}, 2).
Proof. vm_compute. reflexivity. Qed.

Lemma plan_day_only_math_day2 :
  plan_day ["Math"] 3 {[ "Math" := 7 ]} = Ok ([("Math", 1)], {[ "Math" := 6 ]}, 2).
Proof. vm_compute. reflexivity. Qed.

(** C1 (the code loses review tasks).  One subject, three hours a day and an
    exam three days from today: the study task Math 1.0 of day 0 has the
    review task Review Math 0.5, due on day 2; but day 2 has a study plan of
    its own, which line 59 stores with an assignment over the list that held
    the review task, so the returned schedule holds only Math 1.0 on day 2. *)
Theorem review_lost_when_day_is_planned (today : Z) :
  generate_schedule today ["Math"] only_math 3 (today + 3)
  = Ok {[ today := [("Math", 1)];
          (today + 1)%Z := [("Math", 1)];
          (today + 2)%Z := [("Math", 1)];
          (today + 3)%Z := [("Review Math", 0.5)];
          (today + 4)%Z := [("Review Math", 0.5)] ]}
  ∧ study_plans today ["Math"] only_math 3 (today + 3) !! 0%nat
    = Some [("Math", 1)]
  ∧ review_task ("Math", 1) = ("Review Math", 0.5)
  ∧ review_task ("Math", 1) ∉ [("Math", 1)].
Proof.
  assert (Hhps : dict_comprehension only_math 3 (3 * 3) ["Math"] ∅
                 = Ok {[ "Math" := 9 ]})
    by (vm_compute; reflexivity).
  assert (Hsum : sum_values only_math = 3%Z) by (vm_compute; reflexivity).
  split; [|split; [|split]].
  - unfold generate_schedule.
    replace (today + 3 - today)%Z with 3%Z by lia.
    rewrite Hsum. change (if (3 =? 0)%Z then 1%Z else 3%Z) with 3%Z.
    rewrite Hhps. change (Z.to_nat 3) with 3%nat.
    unfold run_days, day_step.
    cbn [mbind result_bind fst snd mret result_ret].
    rewrite plan_day_only_math_day0.
    cbn [mbind result_bind fst snd mret result_ret].
    rewrite plan_day_only_math_day1.
    cbn [mbind result_bind fst snd mret result_ret].
    rewrite plan_day_only_math_day2.
    cbn [mbind result_bind fst snd mret result_ret].
    f_equal. apply map_eq. intros k.
    rewrite !record_day_lookup, !lookup_insert, !lookup_singleton, !lookup_empty.
    repeat case_bool_decide; repeat case_decide; subst; try lia; done.
  - unfold study_plans.
    replace (today + 3 - today)%Z with 3%Z by lia.
    rewrite Hsum. change (if (3 =? 0)%Z then 1%Z else 3%Z) with 3%Z.
    rewrite Hhps. change (Z.to_nat 3) with 3%nat.
    unfold day_plans. by rewrite plan_day_only_math_day0.
  - vm_compute. reflexivity.
  - vm_compute. intros Hin. inversion Hin as [|? ? ? Hin']; subst. inversion Hin'.
Qed.

(** Four subjects of equal difficulty, three hours a day and an exam
    tomorrow: every budget is [round(0.75, 1) = 0.8]; the day allocates 0.8
    three times and then what remains of the day, which the three float
    subtractions from 3 leave at 0.6000000000000001.  The sum of the four
    allocations is above the three daily hours, as Python's [sum] computes
    it and exactly. *)
Lemma daily_sum_exceeds_daily_hours_in_binary64 :
  generate_schedule 0 ["Art"; "Biology"; "Chemistry"; "Drama"] four_equal 3 1
  = Ok {[ 0%Z := [("Art", 0.8); ("Biology", 0.8); ("Chemistry", 0.8);
                  ("Drama", 0.6000000000000001)];
          2%Z := [("Review Art", 0.4); ("Review Biology", 0.4);
                  ("Review Chemistry", 0.4); ("Review Drama", 0.3)] ]}
  ∧ study_plans 0 ["Art"; "Biology"; "Chemistry"; "Drama"] four_equal 3 1 !! 0%nat
    = Some [("Art", 0.8); ("Biology", 0.8); ("Chemistry", 0.8);
            ("Drama", 0.6000000000000001)]
  ∧ (of_int 3 <? float_sum [("Art", 0.8); ("Biology", 0.8); ("Chemistry", 0.8);
                            ("Drama", 0.6000000000000001)]) = true
  ∧ Qlt 3%Q (exact_sum [("Art", 0.8); ("Biology", 0.8); ("Chemistry", 0.8);
                          ("Drama", 0.6000000000000001)]).
Proof.
  split; [vm_compute; reflexivity|].
  split; [vm_compute; reflexivity|].
  split; vm_compute; reflexivity.
Qed.

(** An exam on 9999-12-31, the last date, with the call made the day
    before: the only iteration of the loop allocates one hour of Math for
    9999-12-30, and line 61 then computes the review date 10000-01-01,
    which [datetime.date] does not hold.  The subject is rated and its
    rating positive; on day numbers the same call returns. *)
Lemma generate_schedule_raises_on_the_last_date :
  valid_date 3652058 ∧ valid_date 3652059 ∧ date_max = 3652059%Z
  ∧ Forall (λ s, is_Some (only_math !! s)) ["Math"]
  ∧ map_Forall (λ _ v, (0 < v)%Z) only_math
  ∧ generate_schedule_dated (num:=float) 3652058 ["Math"] only_math 1 3652059
    = Raise OverflowError
  ∧ generate_schedule 3652058 ["Math"] only_math 1 3652059
    = Ok {[ 3652058%Z := [("Math", 1)]; 3652060%Z := [("Review Math", 0.5)] ]}.
Proof.
  split; [vm_compute; intuition discriminate|].
  split; [vm_compute; intuition discriminate|].
  split; [reflexivity|].
  split; [apply (bool_decide_unpack _); vm_compute; exact I|].
  split; [apply (bool_decide_unpack _); vm_compute; exact I|].
  split; vm_compute; reflexivity.
Qed.

Local Close Scope float_scope.

(** ** The theorems at concrete inputs *)

Lemma math_science_rated :
  Forall (λ s, is_Some (math_science !! s)) ["Math"; "Science"].
Proof. apply (bool_decide_unpack _). vm_compute. exact I. Defined.

Lemma math_science_positive : map_Forall (λ _ v, 0 < v) math_science.
Proof. apply (bool_decide_unpack _). vm_compute. exact I. Defined.

(** One hour a day for three days: Math on days 0 and 1, Science on day 2
    (over the review of day 0), the last two reviews after the exam. *)
Lemma math_science_one_hour_a_day :
  generate_schedule 0 ["Math"; "Science"] math_science 1 3
  = Ok {[ 0 := [("Math", 1%float)];
          1 := [("Math", 1%float)];
          2 := [("Science", 1%float)];
          3 := [("Review Math", 0.5%float)];
          4 := [("Review Science", 0.5%float)] ]}.
Proof. vm_compute. reflexivity. Defined.

Lemma generate_schedule_exam_not_after_today_witness :
  7 ≤ 10
  ∧ Forall (λ s, is_Some (math_science !! s)) ["Math"; "Science"]
  ∧ generate_schedule (num:=float) 10 ["Math"; "Science"] math_science 3 7 = Ok ∅.
Proof.
  split; [lia|]. split; [exact math_science_rated|].
  apply (generate_schedule_exam_not_after_today (num:=float) 10 ["Math"; "Science"]
           math_science 3 7); [lia | exact math_science_rated].
Defined.

Lemma math_science_exact : map_Forall (λ _ v, exact_int v) math_science.
Proof. apply (bool_decide_unpack _). vm_compute. exact I. Defined.

(** From 2025-01-01 to 2025-01-04, one hour a day. *)
Lemma generate_schedule_never_divides_by_zero_witness :
  valid_date 739252
  ∧ valid_date 739255
  ∧ map_Forall (λ _ v, exact_int v) math_science
  ∧ exact_int (sum_values math_science)
  ∧ exact_int 1
  ∧ exact_int ((739255 - 739252) * 1)
  ∧ Forall (λ s, is_Some (math_science !! s)) ["Math"; "Science"]
  ∧ (739255 ≤ 739252 ∨ 739255 < date_max)
  ∧ ∃ sched,
      generate_schedule_dated (num:=float) 739252 ["Math"; "Science"] math_science 1
        739255
      = Ok sched
      ∧ generate_schedule 739252 ["Math"; "Science"] math_science 1 739255
        = Ok sched.
Proof.
  split; [vm_compute; intuition discriminate|].
  split; [vm_compute; intuition discriminate|].
  split; [exact math_science_exact|].
  split; [vm_compute; done|]. split; [vm_compute; done|].
  split; [vm_compute; done|]. split; [exact math_science_rated|].
  split; [right; vm_compute; reflexivity|].
  exact (proj1 (proj2 (proj2
           (generate_schedule_never_divides_by_zero (num:=float) 739252
              ["Math"; "Science"] math_science 1 739255
              ltac:(vm_compute; intuition discriminate)
              ltac:(vm_compute; intuition discriminate)
              math_science_exact ltac:(vm_compute; done) ltac:(vm_compute; done)
              ltac:(vm_compute; done))))
           math_science_rated ltac:(right; vm_compute; reflexivity)).
Defined.

Lemma schedule_dates_in_horizon_witness :
  generate_schedule 0 ["Math"; "Science"] math_science 1 3
  = Ok {[ 0 := [("Math", 1%float)];
          1 := [("Math", 1%float)];
          2 := [("Science", 1%float)];
          3 := [("Review Math", 0.5%float)];
          4 := [("Review Science", 0.5%float)] ]}
  ∧ (∀ k tasks,
       ({[ 0 := [("Math", 1%float)];
           1 := [("Math", 1%float)];
           2 := [("Science", 1%float)];
           3 := [("Review Math", 0.5%float)];
           4 := [("Review Science", 0.5%float)] ]}
          : gmap Z (list (string * float))) !! k
       = Some tasks →
       0 + (3 - 0) - 1 < k →
       ∃ (d : nat) p,
         study_plans 0 ["Math"; "Science"] math_science 1 3 !! d = Some p
         ∧ k = 0 + Z.of_nat d + 2
         ∧ tasks = review_task <$> p).
Proof.
  split; [exact math_science_one_hour_a_day|].
  exact (proj2 (proj2 (schedule_dates_in_horizon 0 ["Math"; "Science"]
                         math_science 1 3 _ math_science_one_hour_a_day))).
Defined.

Lemma schedule_ends_two_days_after_horizon_witness :
  0 < 3
  ∧ generate_schedule 0 ["Math"; "Science"] math_science 1 3
    = Ok {[ 0 := [("Math", 1%float)];
            1 := [("Math", 1%float)];
            2 := [("Science", 1%float)];
            3 := [("Review Math", 0.5%float)];
            4 := [("Review Science", 0.5%float)] ]}
  ∧ (∀ k,
       is_Some (({[ 0 := [("Math", 1%float)];
                    1 := [("Math", 1%float)];
                    2 := [("Science", 1%float)];
                    3 := [("Review Math", 0.5%float)];
                    4 := [("Review Science", 0.5%float)] ]}
                  : gmap Z (list (string * float))) !! k) →
       k ≤ 0 + (3 - 0) + 1).
Proof.
  split; [lia|]. split; [exact math_science_one_hour_a_day|].
  apply (schedule_ends_two_days_after_horizon 0 ["Math"; "Science"]
           math_science 1 3); [lia | exact math_science_one_hour_a_day].
Defined.

Lemma generate_schedule_deterministic_witness :
  let h1 : gmap positive (obj float) :=
    {[ 1%positive := StrList ["Math"; "Science"];
       2%positive := IntDict math_science ]} in
  let h2 : gmap positive (obj float) :=
    {[ 3%positive := TaskList [("Kept", 0.5%float)];
       5%positive := IntDict math_science;
       8%positive := StrList ["Math"; "Science"] ]} in
  match
    generate_schedule_obj 0 1%positive 2%positive 3 2 h1,
    generate_schedule_obj 0 8%positive 5%positive 3 2 h2
  with
  | Ok (schedule1, h1'), Ok (schedule2, h2') =>
      (∃ v,
         generate_schedule 0 ["Math"; "Science"] math_science 3 2 = Ok v
         ∧ read_schedule h1' schedule1 = Some v
         ∧ read_schedule h2' schedule2 = Some v)
      ∧ (∀ a, is_Some (h1 !! a) → h1' !! a = h1 !! a)
      ∧ (∀ a, is_Some (h2 !! a) → h2' !! a = h2 !! a)
  | Raise e1, Raise e2 =>
      e1 = e2
      ∧ generate_schedule (num:=float) 0 ["Math"; "Science"] math_science 3 2
        = Raise e1
  | _, _ => False
  end.
Proof.
  exact (generate_schedule_deterministic 0 3 2 ["Math"; "Science"] math_science
           ({[ 1%positive := StrList ["Math"; "Science"];
               2%positive := IntDict math_science ]}
              : gmap positive (obj float)) 1%positive 2%positive
           {[ 3%positive := TaskList [("Kept", 0.5%float)];
              5%positive := IntDict math_science;
              8%positive := StrList ["Math"; "Science"] ]} 8%positive 5%positive
           eq_refl eq_refl eq_refl eq_refl).
Defined.

Lemma math_science_not_negative : map_Forall (λ _ v, 0 ≤ v) math_science.
Proof. apply (bool_decide_unpack _). vm_compute. exact I. Defined.

Lemma study_hours_within_budget_witness :
  map_Forall (λ _ v, 0 < v) math_science
  ∧ math_science !! "Math" = Some 4
  ∧ sum_values math_science < 2 ^ 53
  ∧ 0 ≤ 1
  ∧ 0 < 3
  ∧ (3 - 0) * 1 < 2 ^ 49
  ∧ (3 - 0) * Z.of_nat (length ["Math"; "Science"]) ≤ 2 ^ 24
  ∧ (exact_total_for "Math" (study_plans 0 ["Math"; "Science"] math_science 1 3)
     <= float_value (budget 4 (sum_values math_science) ((3 - 0) * 1)) + (1 # 10))%Q.
Proof.
  split; [exact math_science_positive|]. split; [reflexivity|].
  split; [vm_compute; reflexivity|]. split; [lia|]. split; [lia|].
  split; [vm_compute; reflexivity|]. split; [vm_compute; discriminate|].
  apply (study_hours_within_budget 0 ["Math"; "Science"] math_science 1 3 "Math" 4);
    [exact math_science_positive | reflexivity | vm_compute; reflexivity | lia | lia
    | vm_compute; reflexivity | vm_compute; discriminate].
Defined.

Lemma four_equal_not_negative : map_Forall (λ _ v, 0 ≤ v) four_equal.
Proof. apply (bool_decide_unpack _). vm_compute. exact I. Defined.

(** The day of four tasks whose sum is above the three daily hours, and
    within the bound. *)
Lemma daily_allocation_within_daily_hours_witness :
  let subjects := ["Art"; "Biology"; "Chemistry"; "Drama"] in
  let p := [("Art", 0.8%float); ("Biology", 0.8%float); ("Chemistry", 0.8%float);
            ("Drama", 0.6000000000000001%float)] in
  let sched : gmap Z (list (string * float)) :=
    {[ 0 := p;
       2 := [("Review Art", 0.4%float); ("Review Biology", 0.4%float);
             ("Review Chemistry", 0.4%float); ("Review Drama", 0.3%float)] ]} in
  map_Forall (λ _ v, 0 ≤ v) four_equal
  ∧ sum_values four_equal < 2 ^ 53
  ∧ 0 ≤ 3
  ∧ (1 - 0) * 3 < 2 ^ 49
  ∧ generate_schedule 0 subjects four_equal 3 1 = Ok sched
  ∧ study_plans 0 subjects four_equal 3 1 !! 0%nat = Some p
  ∧ (inject_Z (2 ^ 53 + 1) * exact_sum p
     <= inject_Z ((2 ^ 53 + 1 + Z.of_nat (length p)) * 3))%Q
  ∧ (length p ≤ length subjects)%nat
  ∧ (∃ hps hps' remaining',
       study_owed 0 subjects four_equal 3 1 !! 0%nat = Some hps
       ∧ allocations hps (of_int 3) p hps' remaining'
       ∧ ∀ hps'', study_owed 0 subjects four_equal 3 1 !! 1%nat = Some hps'' →
                  hps'' = hps')
  ∧ (p ≠ [] → sched !! (0 + Z.of_nat 0) = Some p).
Proof.
  intros subjects p sched.
  split; [exact four_equal_not_negative|]. split; [vm_compute; reflexivity|].
  split; [lia|]. split; [vm_compute; reflexivity|].
  split; [vm_compute; reflexivity|].
  split; [vm_compute; reflexivity|].
  exact (daily_allocation_within_daily_hours 0 subjects four_equal 3 1 sched 0 p
           four_equal_not_negative ltac:(vm_compute; reflexivity)
           ltac:(lia) ltac:(vm_compute; reflexivity)
           ltac:(vm_compute; reflexivity) ltac:(vm_compute; reflexivity)).
Defined.

(** ** More theorems at concrete inputs *)

(** The study tasks of the three days of [math_science_one_hour_a_day]. *)
Lemma math_science_study_plans :
  study_plans 0 ["Math"; "Science"] math_science 1 3
  = [[("Math", 1%float)]; [("Math", 1%float)]; [("Science", 1%float)]].
Proof. vm_compute. reflexivity. Defined.

(** Science alone, rated with Math: its budget of one hour is used up on the
    first of the three days. *)
Lemma science_alone_study_plans :
  study_plans 0 ["Science"] math_science 1 3 = [[("Science", 1%float)]; []; []].
Proof. vm_compute. reflexivity. Defined.

(** The schedule of [math_science_one_hour_a_day] with its dates in the
    order of the dict. *)
Lemma math_science_in_dict_order :
  generate_schedule_ordered 0 ["Math"; "Science"] math_science 1 3
  = Ok ([0; 2; 1; 3; 4],
        {[ 0 := [("Math", 1%float)];
           1 := [("Math", 1%float)];
           2 := [("Science", 1%float)];
           3 := [("Review Math", 0.5%float)];
           4 := [("Review Science", 0.5%float)] ]}).
Proof. vm_compute. reflexivity. Defined.

Lemma review_tasks_kept_witness :
  generate_schedule 0 ["Math"; "Science"] math_science 1 3
  = Ok {[ 0 := [("Math", 1%float)];
          1 := [("Math", 1%float)];
          2 := [("Science", 1%float)];
          3 := [("Review Math", 0.5%float)];
          4 := [("Review Science", 0.5%float)] ]}
  ∧ study_plans 0 ["Math"; "Science"] math_science 1 3 !! 1%nat
    = Some [("Math", 1%float)]
  ∧ (Z.to_nat (3 - 0) ≤ 1 + 2)%nat
  ∧ ({[ 0 := [("Math", 1%float)];
        1 := [("Math", 1%float)];
        2 := [("Science", 1%float)];
        3 := [("Review Math", 0.5%float)];
        4 := [("Review Science", 0.5%float)] ]}
       : gmap Z (list (string * float))) !! (0 + Z.of_nat 1 + 2)
    = Some (review_task <$> [("Math", 1%float)]).
Proof.
  split; [exact math_science_one_hour_a_day|].
  split; [vm_compute; reflexivity|]. split; [vm_compute; lia|].
  apply (review_tasks_kept 0 ["Math"; "Science"] math_science 1 3 _ 1
           ("Math", 1%float) []);
    [exact math_science_one_hour_a_day | vm_compute; reflexivity
    | left; vm_compute; lia].
Defined.

Lemma schedule_has_no_empty_date_witness :
  generate_schedule 0 ["Math"; "Science"] math_science 1 3
  = Ok {[ 0 := [("Math", 1%float)];
          1 := [("Math", 1%float)];
          2 := [("Science", 1%float)];
          3 := [("Review Math", 0.5%float)];
          4 := [("Review Science", 0.5%float)] ]}
  ∧ (∀ date tasks,
       ({[ 0 := [("Math", 1%float)];
           1 := [("Math", 1%float)];
           2 := [("Science", 1%float)];
           3 := [("Review Math", 0.5%float)];
           4 := [("Review Science", 0.5%float)] ]}
          : gmap Z (list (string * float))) !! date
       = Some tasks →
       tasks ≠ []).
Proof.
  split; [exact math_science_one_hour_a_day|].
  exact (schedule_has_no_empty_date 0 ["Math"; "Science"] math_science 1 3 _
           math_science_one_hour_a_day).
Defined.

Lemma study_tasks_follow_subject_order_witness :
  study_plans 0 ["Math"; "Science"] math_science 1 3 !! 2%nat
  = Some [("Science", 1%float)]
  ∧ [("Science", 1%float)].*1 `sublist_of` ["Math"; "Science"].
Proof.
  split; [vm_compute; reflexivity|].
  apply (study_tasks_follow_subject_order 0 ["Math"; "Science"] math_science 1 3
           2 [("Science", 1%float)]).
  vm_compute. reflexivity.
Defined.

Lemma study_days_are_the_first_days_witness :
  study_plans (num:=float) 0 ["Science"] math_science 1 3 !! 1%nat = Some []
  ∧ (1 ≤ 2)%nat
  ∧ (2 < length (study_plans (num:=float) 0 ["Science"] math_science 1 3))%nat
  ∧ study_plans (num:=float) 0 ["Science"] math_science 1 3 !! 2%nat = Some [].
Proof.
  split; [vm_compute; reflexivity|]. split; [lia|].
  split; [rewrite science_alone_study_plans; simpl; lia|].
  apply (study_days_are_the_first_days (num:=float) 0 ["Science"] math_science 1 3
           1 2);
    [vm_compute; reflexivity | lia | rewrite science_alone_study_plans; simpl; lia].
Defined.

Lemma first_unrated_subject_raises_witness :
  ["Math"; "Art"; "Science"] = ["Math"] ++ "Art" :: ["Science"]
  ∧ Forall (λ s', is_Some (math_science !! s')) ["Math"]
  ∧ math_science !! "Art" = None
  ∧ generate_schedule (num:=float) 0 ["Math"; "Art"; "Science"] math_science 1 3
    = Raise (KeyError "Art").
Proof.
  assert (Hrated : Forall (λ s', is_Some (math_science !! s')) ["Math"]).
  { apply (bool_decide_unpack _). vm_compute. exact I. }
  split; [reflexivity|]. split; [exact Hrated|]. split; [reflexivity|].
  apply (first_unrated_subject_raises (num:=float) 0 ["Math"; "Art"; "Science"]
           math_science 1 3 ["Math"] "Art" ["Science"]);
    [reflexivity | exact Hrated | reflexivity].
Defined.

Lemma schedule_entry_is_plan_or_reviews_witness :
  generate_schedule 0 ["Math"; "Science"] math_science 1 3
  = Ok {[ 0 := [("Math", 1%float)];
          1 := [("Math", 1%float)];
          2 := [("Science", 1%float)];
          3 := [("Review Math", 0.5%float)];
          4 := [("Review Science", 0.5%float)] ]}
  ∧ (∀ date tasks,
       ({[ 0 := [("Math", 1%float)];
           1 := [("Math", 1%float)];
           2 := [("Science", 1%float)];
           3 := [("Review Math", 0.5%float)];
           4 := [("Review Science", 0.5%float)] ]}
          : gmap Z (list (string * float))) !! date
       = Some tasks →
       ∃ (d : nat) p,
         study_plans 0 ["Math"; "Science"] math_science 1 3 !! d = Some p
         ∧ p ≠ []
         ∧ (date = 0 + Z.of_nat d ∧ tasks = p
            ∨ date = 0 + Z.of_nat d + 2 ∧ tasks = review_task <$> p
              ∧ plan_on (study_plans 0 ["Math"; "Science"] math_science 1 3)
                  (Z.of_nat d + 2) = [])).
Proof.
  split; [exact math_science_one_hour_a_day|].
  exact (schedule_entry_is_plan_or_reviews 0 ["Math"; "Science"] math_science 1 3 _
           math_science_one_hour_a_day).
Defined.

Lemma today_holds_the_first_study_tasks_witness :
  generate_schedule 0 ["Math"; "Science"] math_science 1 3
  = Ok {[ 0 := [("Math", 1%float)];
          1 := [("Math", 1%float)];
          2 := [("Science", 1%float)];
          3 := [("Review Math", 0.5%float)];
          4 := [("Review Science", 0.5%float)] ]}
  ∧ (∀ tasks,
       ({[ 0 := [("Math", 1%float)];
           1 := [("Math", 1%float)];
           2 := [("Science", 1%float)];
           3 := [("Review Math", 0.5%float)];
           4 := [("Review Science", 0.5%float)] ]}
          : gmap Z (list (string * float))) !! 0
       = Some tasks
       ↔ tasks ≠ []
         ∧ study_plans 0 ["Math"; "Science"] math_science 1 3 !! 0%nat = Some tasks).
Proof.
  split; [exact math_science_one_hour_a_day|].
  exact (today_holds_the_first_study_tasks 0 ["Math"; "Science"] math_science 1 3 _
           math_science_one_hour_a_day).
Defined.

Lemma study_task_is_at_most_one_hour_witness :
  map_Forall (λ _ v, 0 ≤ v) math_science
  ∧ sum_values math_science < 2 ^ 53
  ∧ 0 ≤ 1
  ∧ (3 - 0) * 1 < 2 ^ 49
  ∧ study_plans 0 ["Math"; "Science"] math_science 1 3 !! 2%nat
    = Some [("Science", 1%float)]
  ∧ Forall (λ t, (0 < float_value t.2)%Q ∧ (float_value t.2 <= 1)%Q
                 ∧ (float_value t.2 <= inject_Z 1)%Q) [("Science", 1%float)].
Proof.
  split; [exact math_science_not_negative|]. split; [vm_compute; reflexivity|].
  split; [lia|]. split; [vm_compute; reflexivity|].
  split; [vm_compute; reflexivity|].
  apply (study_task_is_at_most_one_hour 0 ["Math"; "Science"] math_science 1 3 2
           [("Science", 1%float)]);
    [exact math_science_not_negative | vm_compute; reflexivity | lia
    | vm_compute; reflexivity | vm_compute; reflexivity].
Defined.

(** From 2025-01-01 to 2025-01-04, with no daily hours. *)
Lemma no_daily_hours_no_schedule_witness :
  valid_date 739252
  ∧ valid_date 739255
  ∧ (739255 ≤ 739252 ∨ 739255 < date_max)
  ∧ 0 ≤ 0
  ∧ map_Forall (λ _ v, exact_int v) math_science
  ∧ exact_int (sum_values math_science)
  ∧ exact_int 0
  ∧ exact_int ((739255 - 739252) * 0)
  ∧ Forall (λ s, is_Some (math_science !! s)) ["Math"; "Science"]
  ∧ generate_schedule_dated (num:=float) 739252 ["Math"; "Science"] math_science 0
      739255
    = Ok ∅.
Proof.
  split; [vm_compute; intuition discriminate|].
  split; [vm_compute; intuition discriminate|].
  split; [right; vm_compute; reflexivity|].
  split; [lia|]. split; [exact math_science_exact|].
  split; [vm_compute; done|]. split; [vm_compute; done|].
  split; [vm_compute; done|]. split; [exact math_science_rated|].
  apply (no_daily_hours_no_schedule 739252 ["Math"; "Science"] math_science 0
           739255);
    [vm_compute; intuition discriminate | vm_compute; intuition discriminate
    | right; vm_compute; reflexivity | lia | exact math_science_exact
    | vm_compute; done | vm_compute; done | vm_compute; done
    | exact math_science_rated].
Defined.

Lemma review_task_is_at_most_half_an_hour_witness :
  map_Forall (λ _ v, 0 ≤ v) math_science
  ∧ sum_values math_science < 2 ^ 53
  ∧ 0 ≤ 1
  ∧ (3 - 0) * 1 < 2 ^ 49
  ∧ study_plans 0 ["Math"; "Science"] math_science 1 3 !! 2%nat
    = Some [("Science", 1%float)]
  ∧ Forall (λ t, ∃ k, 0 ≤ k ≤ 5 ∧ (review_task t).2 = (float_of_Z k / 10)%float)
      [("Science", 1%float)].
Proof.
  split; [exact math_science_not_negative|]. split; [vm_compute; reflexivity|].
  split; [lia|]. split; [vm_compute; reflexivity|].
  split; [vm_compute; reflexivity|].
  apply (review_task_is_at_most_half_an_hour 0 ["Math"; "Science"] math_science 1 3
           2 [("Science", 1%float)]);
    [exact math_science_not_negative | vm_compute; reflexivity | lia
    | vm_compute; reflexivity | vm_compute; reflexivity].
Defined.

Lemma favorites_have_no_duplicates_witness :
  let article := Resource "Article" "Math" "Introduction to Math"
                   "https://en.wikipedia.org/wiki/Math" in
  let tips := Resource "Article" "Math" "Top Math Study Tips"
                "https://www.study.com/academy/topic/math.html" in
  NoDup (@nil resource) ∧ NoDup (saves [article; tips; article] []).
Proof.
  intros article tips. split; [constructor|].
  apply (favorites_have_no_duplicates [article; tips; article] []). constructor.
Defined.

Lemma joined_names_are_read_back_witness :
  let Math : text := [77; 97; 116; 104]%N in
  let Science : text := [83; 99; 105; 101; 110; 99; 101]%N in
  let History : text := [72; 105; 115; 116; 111; 114; 121]%N in
  Forall (λ name, subject_name name = true) [Math; Science; History]
  ∧ subject_list (join [comma; 32%N] [Math; Science; History])
    = [Math; Science; History].
Proof.
  intros Math Science History.
  assert (Hnames : Forall (λ name, subject_name name = true) [Math; Science; History]).
  { repeat (constructor; [vm_compute; reflexivity|]). constructor. }
  split; [exact Hnames|].
  exact (joined_names_are_read_back [Math; Science; History] Hnames).
Defined.

Lemma page_total_weight_is_positive_witness :
  ["Math"; "Science"] ≠ []
  ∧ (∀ s : string, 1 ≤ (λ _, 3) s)
  ∧ 1 ≤ sum_values (difficulty_dict (λ _, 3) ["Math"; "Science"])
  ∧ map_Forall (λ _ v, 0 < v) (difficulty_dict (λ _, 3) ["Math"; "Science"]).
Proof.
  split; [discriminate|]. split; [intros s; simpl; lia|].
  apply (page_total_weight_is_positive (λ _, 3) ["Math"; "Science"]);
    [discriminate | intros s; simpl; lia].
Defined.

Lemma items_are_the_schedule_witness :
  generate_schedule_ordered 0 ["Math"; "Science"] math_science 1 3
  = Ok ([0; 2; 1; 3; 4],
        {[ 0 := [("Math", 1%float)];
           1 := [("Math", 1%float)];
           2 := [("Science", 1%float)];
           3 := [("Review Math", 0.5%float)];
           4 := [("Review Science", 0.5%float)] ]})
  ∧ NoDup (items ([0; 2; 1; 3; 4],
                  ({[ 0 := [("Math", 1%float)];
                      1 := [("Math", 1%float)];
                      2 := [("Science", 1%float)];
                      3 := [("Review Math", 0.5%float)];
                      4 := [("Review Science", 0.5%float)] ]}
                     : gmap Z (list (string * float))))).*1
  ∧ generate_schedule 0 ["Math"; "Science"] math_science 1 3
    = Ok (list_to_map
            (items ([0; 2; 1; 3; 4],
                    ({[ 0 := [("Math", 1%float)];
                        1 := [("Math", 1%float)];
                        2 := [("Science", 1%float)];
                        3 := [("Review Math", 0.5%float)];
                        4 := [("Review Science", 0.5%float)] ]}
                       : gmap Z (list (string * float)))))).
Proof.
  split; [exact math_science_in_dict_order|].
  exact (items_are_the_schedule 0 ["Math"; "Science"] math_science 1 3 _
           math_science_in_dict_order).
Defined.

Lemma dict_order_of_the_dates_witness :
  generate_schedule_ordered 0 ["Math"; "Science"] math_science 1 3
  = Ok ([0; 2; 1; 3; 4],
        {[ 0 := [("Math", 1%float)];
           1 := [("Math", 1%float)];
           2 := [("Science", 1%float)];
           3 := [("Review Math", 0.5%float)];
           4 := [("Review Science", 0.5%float)] ]})
  ∧ (items ([0; 2; 1; 3; 4],
            ({[ 0 := [("Math", 1%float)];
                1 := [("Math", 1%float)];
                2 := [("Science", 1%float)];
                3 := [("Review Math", 0.5%float)];
                4 := [("Review Science", 0.5%float)] ]}
               : gmap Z (list (string * float))))).*1
    = dates_in_order 0
        (study_days (study_plans (num:=float) 0 ["Math"; "Science"] math_science 1 3)).
Proof.
  split; [exact math_science_in_dict_order|].
  exact (dict_order_of_the_dates 0 ["Math"; "Science"] math_science 1 3 _
           math_science_in_dict_order).
Defined.

Lemma reminders_follow_the_dict_order_witness :
  generate_schedule_ordered 0 ["Math"; "Science"] math_science 1 3
  = Ok ([0; 2; 1; 3; 4],
        {[ 0 := [("Math", 1%float)];
           1 := [("Math", 1%float)];
           2 := [("Science", 1%float)];
           3 := [("Review Math", 0.5%float)];
           4 := [("Review Science", 0.5%float)] ]})
  ∧ (2 ≤ study_days (study_plans (num:=float) 0 ["Math"; "Science"] math_science
                       1 3))%nat
  ∧ (upcoming 0 ([0; 2; 1; 3; 4],
                 ({[ 0 := [("Math", 1%float)];
                     1 := [("Math", 1%float)];
                     2 := [("Science", 1%float)];
                     3 := [("Review Math", 0.5%float)];
                     4 := [("Review Science", 0.5%float)] ]}
                    : gmap Z (list (string * float))))).*1
    = [0; 0 + 2; 0 + 1].
Proof.
  split; [exact math_science_in_dict_order|].
  split; [rewrite math_science_study_plans; vm_compute; lia|].
  apply (reminders_follow_the_dict_order 0 ["Math"; "Science"] math_science 1 3 _
           math_science_in_dict_order).
  rewrite math_science_study_plans. vm_compute. lia.
Defined.

Lemma plan_list_rows_are_the_tasks_witness :
  generate_schedule_ordered 0 ["Math"; "Science"] math_science 1 3
  = Ok ([0; 2; 1; 3; 4],
        {[ 0 := [("Math", 1%float)];
           1 := [("Math", 1%float)];
           2 := [("Science", 1%float)];
           3 := [("Review Math", 0.5%float)];
           4 := [("Review Science", 0.5%float)] ]})
  ∧ ∃ sched,
      generate_schedule 0 ["Math"; "Science"] math_science 1 3 = Ok sched
      ∧ ∀ date subject hours,
          (date, subject, hours)
          ∈ plan_list ([0; 2; 1; 3; 4],
                       ({[ 0 := [("Math", 1%float)];
                           1 := [("Math", 1%float)];
                           2 := [("Science", 1%float)];
                           3 := [("Review Math", 0.5%float)];
                           4 := [("Review Science", 0.5%float)] ]}
                          : gmap Z (list (string * float))))
          ↔ ∃ tasks, sched !! date = Some tasks ∧ (subject, hours) ∈ tasks.
Proof.
  split; [exact math_science_in_dict_order|].
  exact (plan_list_rows_are_the_tasks 0 ["Math"; "Science"] math_science 1 3 _
           math_science_in_dict_order).
Defined.
